(** * eco.core.socket: a shallow embedding of [socket.c] and its properties

    The C module is a set of Lua C functions over POSIX sockets.  The
    embedding keeps the shape of the source:

    - C integers are [Z] with the wrap-around of their width written out;
    - socket addresses are the bytes of the Linux [struct sockaddr_*]
      layouts, read and written at the offsets the C casts use;
    - Lua values returned to the caller are a small inductive type and a
      Lua table is a [gmap string lua_value];
    - every call into the kernel or the C library is answered by an
      explicit list of replies, and recorded in a log, so that a
      [goto again] loop is a recursion on the replies still to come. *)

From Stdlib Require Import ZArith Lia List Ascii String Bool.
From stdpp Require Import base gmap strings pretty list fin_maps.

Local Open Scope Z_scope.

(** ** Machine integers *)

Module CInt.

Definition wrap_unsigned (bits : Z) (x : Z) : Z := x mod 2 ^ bits.

Definition wrap_signed (bits : Z) (x : Z) : Z :=
  let m := x mod 2 ^ bits in
  if m <? 2 ^ (bits - 1) then m else m - 2 ^ bits.

(** [int], [unsigned int] / [socklen_t] / [__u32], [uint16_t], and the
    LP64 [size_t]. *)
Definition to_int (x : Z) : Z := wrap_signed 32 x.
Definition to_u32 (x : Z) : Z := wrap_unsigned 32 x.
Definition to_u16 (x : Z) : Z := wrap_unsigned 16 x.
Definition to_size_t (x : Z) : Z := wrap_unsigned 64 x.

End CInt.
Export CInt.

(** ** Platform constants (Linux generic ABI values of the headers the
    source includes) *)

Module Linux.

Definition AF_UNSPEC : Z := 0.
Definition AF_UNIX : Z := 1.
Definition AF_INET : Z := 2.
Definition AF_INET6 : Z := 10.
Definition AF_NETLINK : Z := 16.

Definition SOCK_NONBLOCK : Z := 2048.     (* 04000 *)
Definition SOCK_CLOEXEC : Z := 524288.    (* 02000000 *)
Definition SOMAXCONN : Z := 4096.

Definition EINTR : Z := 4.
Definition ENOMEM : Z := 12.
Definition EPIPE : Z := 32.
Definition ECONNRESET : Z := 104.
Definition ECONNREFUSED : Z := 111.
Definition EINPROGRESS : Z := 115.

Definition SOL_SOCKET : Z := 1.
Definition SOL_TCP : Z := 6.
Definition IPPROTO_TCP : Z := 6.
Definition IPPROTO_IPV6 : Z := 41.
Definition SOL_NETLINK : Z := 270.

Definition SO_REUSEADDR : Z := 2.
Definition SO_ERROR : Z := 4.
Definition SO_KEEPALIVE : Z := 9.
Definition SO_REUSEPORT : Z := 15.
Definition SO_BINDTODEVICE : Z := 25.
Definition TCP_NODELAY : Z := 1.
Definition TCP_KEEPIDLE : Z := 4.
Definition TCP_KEEPINTVL : Z := 5.
Definition TCP_KEEPCNT : Z := 6.
Definition TCP_FASTOPEN : Z := 23.
Definition IPV6_V6ONLY : Z := 26.
Definition NETLINK_ADD_MEMBERSHIP : Z := 1.
Definition NETLINK_DROP_MEMBERSHIP : Z := 2.

Definition IFNAMSIZ : Z := 16.
Definition IF_NAMESIZE : Z := 16.

(** Sizes and offsets of the address structures. *)
Definition sizeof_sun_path : Z := 108.
Definition offsetof_sun_path : Z := 2.
Definition sizeof_sockaddr_in : Z := 16.
Definition sizeof_sockaddr_in6 : Z := 28.
Definition sizeof_sockaddr_un : Z := 110.
Definition sizeof_sockaddr_nl : Z := 12.
Definition sizeof_ifreq : Z := 40.

(** A flag of [recv] the module exports: the call reports the real
    length of a datagram, also when that is more than the buffer takes. *)
Definition MSG_TRUNC : Z := 32.

End Linux.
Export Linux.

(** ** Bytes, C strings and memory *)

Definition byte_of_char (c : ascii) : Z := Z.of_N (N_of_ascii c).
Definition char_of_byte (b : Z) : ascii := ascii_of_N (Z.to_N (b mod 256)).

Definition NUL : ascii := "000"%char.

(** A Lua string is a counted byte string and may hold NUL characters;
    what C sees through a [const char *] stops at the first NUL. *)
Fixpoint c_str (s : string) : string :=
  match s with
  | EmptyString => EmptyString
  | String c s' => if Ascii.eqb c NUL then EmptyString else String c (c_str s')
  end.

Definition strlen (s : string) : Z := Z.of_nat (String.length (c_str s)).

Fixpoint no_nul (s : string) : Prop :=
  match s with
  | EmptyString => True
  | String c s' => c <> NUL /\ no_nul s'
  end.

(** [strcmp]: compares the bytes up to and including the terminator. *)
Fixpoint strcmp (a b : string) : Z :=
  match a, b with
  | EmptyString, EmptyString => 0
  | EmptyString, String d _ => 0 - byte_of_char d
  | String c _, EmptyString => byte_of_char c
  | String c a', String d b' =>
      if Ascii.eqb c d
      then (if Ascii.eqb c NUL then 0 else strcmp a' b')
      else byte_of_char c - byte_of_char d
  end.

Definition bytes_of_string (s : string) : list Z :=
  List.map byte_of_char (list_ascii_of_string s).

Definition string_of_bytes (l : list Z) : string :=
  string_of_list_ascii (List.map char_of_byte l).

Definition zeros (n : Z) : list Z := List.repeat 0 (Z.to_nat n).

(** Overwrite [mem] from offset [off] with [src]; the object keeps its
    size (the checks in the source guarantee that [src] fits). *)
Definition store_bytes (mem : list Z) (off : Z) (src : list Z) : list Z :=
  let o := Z.to_nat off in
  List.firstn (List.length mem)
    (List.firstn o mem ++ src ++ List.skipn (o + List.length src) mem).

Definition load_bytes (mem : list Z) (off n : Z) : list Z :=
  List.firstn (Z.to_nat n) (List.skipn (Z.to_nat off) mem).

Definition load_byte (mem : list Z) (off : Z) : Z :=
  List.nth (Z.to_nat off) mem 0.

Module Wire.

Section Endian.

(** Byte order of the host. *)
Variable big_endian : bool.

Definition swap16 (x : Z) : Z := (x mod 256) * 256 + (x / 256) mod 256.

Definition htons (x : Z) : Z :=
  if big_endian then to_u16 x else swap16 (to_u16 x).
Definition ntohs (x : Z) : Z :=
  if big_endian then to_u16 x else swap16 (to_u16 x).

Definition bytes16 (x : Z) : list Z :=
  let lo := x mod 256 in
  let hi := (x / 256) mod 256 in
  if big_endian then [hi; lo] else [lo; hi].

Definition bytes32 (x : Z) : list Z :=
  let b0 := x mod 256 in
  let b1 := (x / 256) mod 256 in
  let b2 := (x / 65536) mod 256 in
  let b3 := (x / 16777216) mod 256 in
  if big_endian then [b3; b2; b1; b0] else [b0; b1; b2; b3].

Definition load16 (mem : list Z) (off : Z) : Z :=
  let a := load_byte mem off in
  let b := load_byte mem (off + 1) in
  if big_endian then a * 256 + b else b * 256 + a.

Definition load32 (mem : list Z) (off : Z) : Z :=
  let a := load_byte mem off in
  let b := load_byte mem (off + 1) in
  let c := load_byte mem (off + 2) in
  let d := load_byte mem (off + 3) in
  if big_endian
  then ((a * 256 + b) * 256 + c) * 256 + d
  else ((d * 256 + c) * 256 + b) * 256 + a.

End Endian.

End Wire.
Export Wire.

(** Length of the C string that starts at the head of [mem]. *)
Fixpoint mem_strlen (mem : list Z) : Z :=
  match mem with
  | [] => 0
  | b :: mem' => if b =? 0 then 0 else 1 + mem_strlen mem'
  end.

(** [strcpy(dst + off, src)]: the bytes of the C string and its
    terminator. *)
Definition strcpy (mem : list Z) (off : Z) (src : string) : list Z :=
  store_bytes mem off (bytes_of_string (c_str src) ++ [0]).

(** [memcpy(dst + off, src, n)] with [n] the counted length of [src]. *)
Definition memcpy (mem : list Z) (off : Z) (src : string) : list Z :=
  store_bytes mem off (bytes_of_string src).

(** [SUN_LEN(&addr)]: [offsetof(struct sockaddr_un, sun_path) +
    strlen(addr.sun_path)]. *)
Definition SUN_LEN (addr : list Z) : Z :=
  offsetof_sun_path + mem_strlen (List.skipn (Z.to_nat offsetof_sun_path) addr).

(** ** Lua values and results *)

#[local] Set Warnings "-register-all".

(** The values that cross the boundary: nil, booleans, integers, strings
    and plain tables (Lua 5.3 and later; floats, functions and userdata
    are not represented).  [LNone] is the absent argument, [LUA_TNONE];
    it is never a value a function returns. *)
Inductive lua_value :=
| LNil
| LBool (b : bool)
| LInt (n : Z)
| LStr (s : string)
| LTable (t : gmap string lua_value)
| LNone.

(** [luaL_typename]: the name the library's type errors print. *)
Definition luaL_typename (v : lua_value) : string :=
  match v with
  | LNil => "nil"
  | LBool _ => "boolean"
  | LInt _ => "number"
  | LStr _ => "string"
  | LTable _ => "table"
  | LNone => "no value"
  end.

(** What Lua makes of a string where a number is wanted: an integer
    (also for a float numeral with an integral value), a float that has
    no integer value, or no number. *)
Inductive str_number :=
| StrInteger (n : Z)
| StrFloat
| NotANumber.

(** [lua_setfield]: storing nil leaves the field absent. *)
Definition lua_setfield (k : string) (v : lua_value)
    (t : gmap string lua_value) : gmap string lua_value :=
  match v with
  | LNil => delete k t
  | _ => <[k := v]> t
  end.

(** [lua_pushstring] of a possibly NULL pointer. *)
Definition lua_pushstring (s : option string) : lua_value :=
  match s with
  | Some s => LStr s
  | None => LNil
  end.

(** [lua_pushlstring(L, p, n)] where [p] points at offset [off] of [mem]. *)
Definition lua_pushlstring (mem : list Z) (off n : Z) : lua_value :=
  LStr (string_of_bytes (load_bytes mem off n)).

(** A C function of the module either returns values to Lua or raises
    the error of [luaL_argerror] (which does not return). *)
Inductive lua_result :=
| Return (vals : list lua_value)
| ArgError (arg : Z) (extramsg : string).

(** ** The environment: system calls and their replies *)

Inductive request :=
| SYS_socket (domain type protocol : Z)
| SYS_bind (fd : Z) (addr : list Z) (addrlen : Z)
| SYS_listen (fd backlog : Z)
| SYS_accept4 (fd addrlen flags : Z)
| SYS_connect (fd : Z) (addr : list Z) (addrlen : Z)
| SYS_send (fd : Z) (data : string) (len flags : Z)
| SYS_recv (fd len flags : Z)
| SYS_sendto (fd : Z) (data : string) (len flags : Z) (addr : list Z) (addrlen : Z)
| SYS_recvfrom (fd len flags addrlen : Z)
| SYS_getsockname (fd addrlen : Z)
| SYS_getpeername (fd addrlen : Z)
| SYS_getsockopt (fd level name len : Z)
| SYS_setsockopt (fd level name : Z) (val : list Z) (len : Z)
| SYS_if_nametoindex (ifname : string)
| SYS_if_indextoname (index : Z)
| LIBC_malloc (size : Z).

(** What a call leaves behind: its return value, [errno], and whatever
    it wrote through its pointer arguments. *)
Record reply := Reply {
  ret : Z;
  errno : Z;
  out_buf : list Z;
  out_addr : list Z;
  out_addrlen : Z;
  out_int : Z
}.

Definition failing (e : Z) : reply := Reply (-1) e [] [] 0 0.
Definition returning (v : Z) : reply := Reply v 0 [] [] 0 0.

Inductive status :=
| Finished (r : lua_result)
| Blocked (rq : request).   (* the call [rq] has not returned yet *)

Record run := Run {
  outcome : status;
  log : list (request * reply);
  rest : list reply
}.

Definition finished (r : lua_result) (env : list reply) : run :=
  Run (Finished r) [] env.

Definition logged (e : request * reply) (r : run) : run :=
  Run (outcome r) (e :: log r) (rest r).

Definition call (rq : request) (env : list reply)
    (k : reply -> list reply -> run) : run :=
  match env with
  | [] => Run (Blocked rq) [] []
  | r :: env' => logged (rq, r) (k r env')
  end.

Definition luaL_argerror (arg : Z) (extramsg : string) (env : list reply) : run :=
  finished (ArgError arg extramsg) env.

Definition trace (r : run) : list request := List.map fst (log r).


(** ** The functions of [socket.c]

    A function takes as arguments the C values that the calls of
    [luaL_checkinteger], [luaL_checkstring], [luaL_checklstring] and
    [luaL_optinteger] at its head return (an optional argument is an
    [option]; a string is the Lua string, of which the C code sees
    [c_str] where it takes no length): the function is described from
    there on, for arguments of the right type.  The value of an option
    is checked by the handler of the option, after the lookup, and is
    passed as a Lua value. *)

Section Socket.

(** Byte order of the host, and the C library functions the module
    calls but does not define. *)
Variable big_endian : bool.
Variable inet_pton : Z -> string -> option (list Z).
Variable inet_ntop : Z -> list Z -> option string.
Variable strerror : Z -> string.
(** Lua's coercion of a string to a number, used by
    [luaL_checkinteger]. *)
Variable lua_str2number : string -> str_number.

Local Abbreviation htons := (htons big_endian).
Local Abbreviation ntohs := (ntohs big_endian).
Local Abbreviation bytes16 := (bytes16 big_endian).
Local Abbreviation bytes32 := (bytes32 big_endian).
Local Abbreviation load16 := (load16 big_endian).
Local Abbreviation load32 := (load32 big_endian).

(** The unions that receive an address hold a [sockaddr_un] and a
    [sockaddr_in6], hence 112 bytes. *)
Definition sizeof_addr_union : Z := 112.

Definition push_socket_addr (addr : list Z) (len : Z) : gmap string lua_value :=
  let family := load16 addr 0 in
  let t := lua_setfield "family" (LInt family) ∅ in
  let t :=
    if family =? AF_NETLINK
    then lua_setfield "pid" (LInt (load32 addr 4)) t
    else t in
  if family =? AF_UNIX then
    lua_setfield "path"
      (lua_pushlstring addr offsetof_sun_path (to_size_t (to_u32 (len - 2)))) t
  else if family =? AF_INET then
    let t := lua_setfield "port" (LInt (ntohs (load16 addr 2))) t in
    lua_setfield "ipaddr" (lua_pushstring (inet_ntop AF_INET (load_bytes addr 4 4))) t
  else if family =? AF_INET6 then
    let t := lua_setfield "port" (LInt (ntohs (load16 addr 2))) t in
    lua_setfield "ipaddr" (lua_pushstring (inet_ntop AF_INET6 (load_bytes addr 8 16))) t
  else t.

Definition eco_socket_socket (domain type protocol : Z) (env : list reply) : run :=
  let domain := to_int domain in
  let type := to_int type in
  let protocol := to_int protocol in
  call (SYS_socket domain (Z.lor (Z.lor type SOCK_NONBLOCK) SOCK_CLOEXEC) protocol) env
    (fun r env =>
       let fd := to_int (ret r) in
       if fd <? 0
       then finished (Return [LNil; LInt (errno r)]) env
       else finished (Return [LInt fd]) env).

Definition eco_socket_bind_common (fd : Z) (addr : list Z) (addrlen : Z)
    (env : list reply) : run :=
  call (SYS_bind fd addr addrlen) env
    (fun r env =>
       if negb (to_int (ret r) =? 0)
       then finished (Return [LBool false; LInt (errno r)]) env
       else finished (Return [LBool true]) env).

(** The initialisers [{ .sin_family = AF_INET, .sin_port = htons(port) }]
    and their siblings: every other byte of the object is zero. *)
Definition sockaddr_in_init (port : Z) : list Z :=
  store_bytes (store_bytes (zeros sizeof_sockaddr_in) 0 (bytes16 AF_INET))
    2 (bytes16 (htons port)).

Definition sockaddr_in6_init (port : Z) : list Z :=
  store_bytes (store_bytes (zeros sizeof_sockaddr_in6) 0 (bytes16 AF_INET6))
    2 (bytes16 (htons port)).

Definition sockaddr_un_init : list Z :=
  store_bytes (zeros sizeof_sockaddr_un) 0 (bytes16 AF_UNIX).

Definition sockaddr_nl_init (groups pid : Z) : list Z :=
  store_bytes
    (store_bytes (store_bytes (zeros sizeof_sockaddr_nl) 0 (bytes16 AF_NETLINK))
       8 (bytes32 (to_u32 groups)))
    4 (bytes32 (to_u32 pid)).

(** [inet_pton(AF_INET, ip, &addr.sin_addr)] returning 1 stores the
    four bytes of the address at offset 4; for [AF_INET6] the sixteen
    bytes at offset 8. *)
Definition set_sin_addr (addr b : list Z) : list Z :=
  store_bytes addr 4 (List.firstn 4 b).
Definition set_sin6_addr (addr b : list Z) : list Z :=
  store_bytes addr 8 (List.firstn 16 b).

Definition eco_socket_bind (fd : Z) (ip : option string) (port : Z)
    (env : list reply) : run :=
  let fd := to_int fd in
  let port := to_int port in
  let addr := sockaddr_in_init port in
  match ip with
  | None => eco_socket_bind_common fd addr sizeof_sockaddr_in env
  | Some ip =>
      match inet_pton AF_INET (c_str ip) with
      | None => luaL_argerror 2 "not a valid IPv4 address" env
      | Some b => eco_socket_bind_common fd (set_sin_addr addr b) sizeof_sockaddr_in env
      end
  end.

Definition eco_socket_bind6 (fd : Z) (ip : option string) (port : Z)
    (env : list reply) : run :=
  let fd := to_int fd in
  let port := to_int port in
  let addr := sockaddr_in6_init port in
  match ip with
  | None => eco_socket_bind_common fd addr sizeof_sockaddr_in6 env
  | Some ip =>
      match inet_pton AF_INET6 (c_str ip) with
      | None => luaL_argerror 2 "not a valid IPv6 address" env
      | Some b => eco_socket_bind_common fd (set_sin6_addr addr b) sizeof_sockaddr_in6 env
      end
  end.

Definition eco_socket_bind_unix (fd : Z) (path : string) (env : list reply) : run :=
  let fd := to_int fd in
  let addr := sockaddr_un_init in
  if strlen path >=? sizeof_sun_path
  then luaL_argerror 2 "path too long" env
  else
    let addr := strcpy addr offsetof_sun_path path in
    eco_socket_bind_common fd addr (SUN_LEN addr) env.

Definition eco_socket_bind_nl (fd : Z) (groups pid : option Z)
    (env : list reply) : run :=
  let fd := to_int fd in
  let addr := sockaddr_nl_init (default 0 groups) (default 0 pid) in
  eco_socket_bind_common fd addr sizeof_sockaddr_nl env.

Definition eco_socket_listen (fd : Z) (backlog : option Z) (env : list reply) : run :=
  let fd := to_int fd in
  let backlog := to_int (default SOMAXCONN backlog) in
  call (SYS_listen fd backlog) env
    (fun r env =>
       if negb (to_int (ret r) =? 0)
       then finished (Return [LBool false; LInt (errno r)]) env
       else finished (Return [LBool true]) env).

(** The loop [again: fd = accept4(...); if (fd < 0) { if (errno ==
    EINTR) goto again; ... }]: one iteration per reply. *)
Fixpoint eco_socket_accept_again (lfd : Z) (addr : list Z) (addrlen : Z)
    (env : list reply) : run :=
  let rq := SYS_accept4 lfd addrlen (Z.lor SOCK_NONBLOCK SOCK_CLOEXEC) in
  match env with
  | [] => Run (Blocked rq) [] []
  | r :: env =>
      logged (rq, r)
        (let fd := to_int (ret r) in
         if fd <? 0 then
           if errno r =? EINTR
           then eco_socket_accept_again lfd addr addrlen env
           else finished (Return [LNil; LInt (errno r)]) env
         else
           let addr := store_bytes addr 0 (out_addr r) in
           let addrlen := to_u32 (out_addrlen r) in
           finished (Return [LInt fd; LTable (push_socket_addr addr addrlen)]) env)
  end.

Definition eco_socket_accept (lfd : Z) (env : list reply) : run :=
  let lfd := to_int lfd in
  let addr := zeros sizeof_addr_union in
  let addrlen := sizeof_addr_union in
  eco_socket_accept_again lfd addr addrlen env.

Definition eco_socket_connect_common (fd : Z) (addr : list Z) (addrlen : Z)
    (env : list reply) : run :=
  call (SYS_connect fd addr addrlen) env
    (fun r env =>
       if to_int (ret r) <? 0
       then finished (Return [LBool false; LInt (errno r)]) env
       else finished (Return [LBool true]) env).

Definition eco_socket_connect (fd : Z) (ip : string) (port : Z)
    (env : list reply) : run :=
  let fd := to_int fd in
  let port := to_int port in
  let addr := sockaddr_in_init port in
  match inet_pton AF_INET (c_str ip) with
  | None => luaL_argerror 2 "not a valid IPv4 address" env
  | Some b => eco_socket_connect_common fd (set_sin_addr addr b) sizeof_sockaddr_in env
  end.

Definition eco_socket_connect6 (fd : Z) (ip : string) (port : Z)
    (env : list reply) : run :=
  let fd := to_int fd in
  let port := to_int port in
  let addr := sockaddr_in6_init port in
  match inet_pton AF_INET6 (c_str ip) with
  | None => luaL_argerror 2 "not a valid IPv6 address" env
  | Some b => eco_socket_connect_common fd (set_sin6_addr addr b) sizeof_sockaddr_in6 env
  end.

Definition eco_socket_connect_unix (fd : Z) (path : string) (env : list reply) : run :=
  let fd := to_int fd in
  let addr := sockaddr_un_init in
  if strlen path >=? sizeof_sun_path
  then luaL_argerror 2 "path too long" env
  else
    let addr := strcpy addr offsetof_sun_path path in
    eco_socket_connect_common fd addr (SUN_LEN addr) env.

Definition eco_socket_connect_nl (fd pid : Z) (env : list reply) : run :=
  let fd := to_int fd in
  let pid := to_int pid in
  let addr := sockaddr_nl_init 0 pid in
  eco_socket_connect_common fd addr sizeof_sockaddr_nl env.

Fixpoint eco_socket_send_again (fd : Z) (data : string) (len flags : Z)
    (env : list reply) : run :=
  let rq := SYS_send fd data len flags in
  match env with
  | [] => Run (Blocked rq) [] []
  | r :: env =>
      logged (rq, r)
        (let ret := to_int (ret r) in
         if ret <? 0 then
           if errno r =? EINTR
           then eco_socket_send_again fd data len flags env
           else
             finished
               (Return [LNil;
                        if errno r =? EPIPE
                        then LStr "closed"
                        else LStr (strerror (errno r))]) env
         else finished (Return [LInt ret]) env)
  end.

Definition eco_socket_send (fd : Z) (data : string) (flags : option Z)
    (env : list reply) : run :=
  let fd := to_int fd in
  let len := Z.of_nat (String.length data) in
  let flags := to_int (default 0 flags) in
  eco_socket_send_again fd data len flags env.

(** [malloc(n)]: the reply's [ret] is the pointer (0 for NULL) and its
    [out_buf] the indeterminate content of the memory at the pointer:
    the block and, if it is longer than [n], the bytes that lie behind
    the block.  [free] leaves nothing for the caller to see and has no
    entry in the log. *)
Definition malloc_block (n : Z) (m : reply) : list Z :=
  List.firstn (Z.to_nat n) (out_buf m ++ zeros n).

(** The memory at the pointer as far as the reply describes it: the
    block of [n] bytes and, where [out_buf] goes on, what lies behind
    the block. *)
Definition malloc_memory (n : Z) (m : reply) : list Z :=
  malloc_block n m ++ List.skipn (Z.to_nat n) (out_buf m).

(** [buf] is the memory at the pointer.  The call stores at most [n]
    bytes; [lua_pushlstring(L, buf, ret)] reads [ret] bytes from the
    pointer on, and so reads behind the block when the call reports more
    than [n]. *)
Fixpoint eco_socket_recv_again (fd : Z) (buf : list Z) (n flags : Z)
    (env : list reply) : run :=
  let rq := SYS_recv fd n flags in
  match env with
  | [] => Run (Blocked rq) [] []
  | r :: env =>
      logged (rq, r)
        (let ret := wrap_signed 64 (ret r) in
         if ret <? 0 then
           if errno r =? EINTR
           then eco_socket_recv_again fd buf n flags env
           else finished (Return [LNil; LStr (strerror (errno r))]) env
         else
           let buf := store_bytes buf 0 (List.firstn (Z.to_nat n) (out_buf r)) in
           finished (Return [lua_pushlstring buf 0 ret]) env)
  end.

Definition eco_socket_recv (fd n : Z) (flags : option Z) (env : list reply) : run :=
  let fd := to_int fd in
  let n := to_size_t n in
  let flags := to_int (default 0 flags) in
  if n <? 1
  then luaL_argerror 2 "must be greater than 0" env
  else
    call (LIBC_malloc n) env
      (fun m env =>
         if ret m =? 0
         then finished (Return [LNil; LStr (strerror (errno m))]) env
         else eco_socket_recv_again fd (malloc_memory n m) n flags env).

Fixpoint eco_socket_sendto_common (fd : Z) (data : string) (len : Z)
    (addr : list Z) (addrlen : Z) (flags : Z) (env : list reply) : run :=
  let rq := SYS_sendto fd data len flags addr addrlen in
  match env with
  | [] => Run (Blocked rq) [] []
  | r :: env =>
      logged (rq, r)
        (let ret := to_int (ret r) in
         if ret <? 0 then
           if errno r =? EINTR
           then eco_socket_sendto_common fd data len addr addrlen flags env
           else finished (Return [LNil; LStr (strerror (errno r))]) env
         else finished (Return [LInt ret]) env)
  end.

Definition eco_socket_sendto (fd : Z) (data ip : string) (port : Z)
    (flags : option Z) (env : list reply) : run :=
  let fd := to_int fd in
  let len := Z.of_nat (String.length data) in
  let port := to_int port in
  let flags := to_int (default 0 flags) in
  let addr := sockaddr_in_init port in
  match inet_pton AF_INET (c_str ip) with
  | None => luaL_argerror 2 "not a valid IPv4 address" env
  | Some b =>
      eco_socket_sendto_common fd data len (set_sin_addr addr b)
        sizeof_sockaddr_in flags env
  end.

Definition eco_socket_sendto6 (fd : Z) (data ip : string) (port : Z)
    (flags : option Z) (env : list reply) : run :=
  let fd := to_int fd in
  let len := Z.of_nat (String.length data) in
  let port := to_int port in
  let flags := to_int (default 0 flags) in
  let addr := sockaddr_in6_init port in
  match inet_pton AF_INET6 (c_str ip) with
  | None => luaL_argerror 2 "not a valid IPv6 address" env
  | Some b =>
      eco_socket_sendto_common fd data len (set_sin6_addr addr b)
        sizeof_sockaddr_in6 flags env
  end.

Definition eco_socket_sendto_unix (fd : Z) (data path : string)
    (flags : option Z) (env : list reply) : run :=
  let fd := to_int fd in
  let datalen := Z.of_nat (String.length data) in
  let pathlen := Z.of_nat (String.length path) in
  let flags := to_int (default 0 flags) in
  let addr := sockaddr_un_init in
  if pathlen >=? sizeof_sun_path
  then luaL_argerror 2 "path too long" env
  else
    let addr := memcpy addr offsetof_sun_path path in
    eco_socket_sendto_common fd data datalen addr (SUN_LEN addr) flags env.

Definition eco_socket_sendto_nl (fd : Z) (data : string) (pid flags : option Z)
    (env : list reply) : run :=
  let fd := to_int fd in
  let len := Z.of_nat (String.length data) in
  let pid := to_int (default 0 pid) in
  let flags := to_int (default 0 flags) in
  let addr := sockaddr_nl_init 0 pid in
  eco_socket_sendto_common fd data len addr sizeof_sockaddr_nl flags env.

Fixpoint eco_socket_recvfrom_again (fd : Z) (buf : list Z) (n flags : Z)
    (addr : list Z) (addrlen : Z) (env : list reply) : run :=
  let rq := SYS_recvfrom fd n flags addrlen in
  match env with
  | [] => Run (Blocked rq) [] []
  | r :: env =>
      logged (rq, r)
        (let ret := wrap_signed 64 (ret r) in
         if ret <? 0 then
           if errno r =? EINTR
           then eco_socket_recvfrom_again fd buf n flags addr addrlen env
           else finished (Return [LNil; LStr (strerror (errno r))]) env
         else
           let buf := store_bytes buf 0 (List.firstn (Z.to_nat n) (out_buf r)) in
           let addr := store_bytes addr 0 (out_addr r) in
           let addrlen := to_u32 (out_addrlen r) in
           if negb (addrlen =? 0)
           then finished (Return [lua_pushlstring buf 0 ret;
                                  LTable (push_socket_addr addr addrlen)]) env
           else finished (Return [lua_pushlstring buf 0 ret]) env)
  end.

Definition eco_socket_recvfrom (fd n : Z) (flags : option Z)
    (env : list reply) : run :=
  let fd := to_int fd in
  let n := to_size_t n in
  let flags := to_int (default 0 flags) in
  let addr := zeros sizeof_addr_union in
  let addrlen := sizeof_addr_union in
  if n <? 1
  then luaL_argerror 2 "must be greater than 0" env
  else
    call (LIBC_malloc n) env
      (fun m env =>
         if ret m =? 0
         then finished (Return [LNil; LStr (strerror (errno m))]) env
         else eco_socket_recvfrom_again fd (malloc_memory n m) n flags addr addrlen env).

Definition eco_socket_getsockname (fd : Z) (env : list reply) : run :=
  let fd := to_int fd in
  let addr := zeros sizeof_addr_union in
  let addrlen := sizeof_addr_union in
  call (SYS_getsockname fd addrlen) env
    (fun r env =>
       if negb (to_int (ret r) =? 0)
       then finished (Return [LNil; LStr (strerror (errno r))]) env
       else
         let addr := store_bytes addr 0 (out_addr r) in
         let addrlen := to_u32 (out_addrlen r) in
         finished (Return [LTable (push_socket_addr addr addrlen)]) env).

Definition eco_socket_getpeername (fd : Z) (env : list reply) : run :=
  let fd := to_int fd in
  let addr := zeros sizeof_addr_union in
  let addrlen := sizeof_addr_union in
  call (SYS_getpeername fd addrlen) env
    (fun r env =>
       if negb (to_int (ret r) =? 0)
       then finished (Return [LNil; LStr (strerror (errno r))]) env
       else
         let addr := store_bytes addr 0 (out_addr r) in
         let addrlen := to_u32 (out_addrlen r) in
         finished (Return [LTable (push_socket_addr addr addrlen)]) env).

(** *** Socket options *)

Definition opt_getboolean (fd level name : Z) (env : list reply) : run :=
  let len := 4 in
  let val := 0 in
  call (SYS_getsockopt fd level name len) env
    (fun r env =>
       if to_int (ret r) <? 0
       then finished (Return [LNil; LStr (strerror (errno r))]) env
       else
         let val := to_int (out_int r) in
         finished (Return [LBool (negb (val =? 0))]) env).

Definition opt_get_reuseaddr (fd : Z) (env : list reply) : run :=
  opt_getboolean fd SOL_SOCKET SO_REUSEADDR env.

Definition opt_get_error (fd : Z) (env : list reply) : run :=
  let len := 4 in
  let val := 0 in
  call (SYS_getsockopt fd SOL_SOCKET SO_ERROR len) env
    (fun r env =>
       let val := if to_int (ret r) <? 0 then errno r else to_int (out_int r) in
       finished (Return [LInt val]) env).

(** An option handler reads the descriptor it is given and, for
    assignment, the third Lua argument. *)
Definition opt_func : Type := Z -> lua_value -> list reply -> run.

(** [struct sock_opt]; the table ends where the C array has its
    [{NULL, NULL}] entry. *)
Record sock_opt := SockOpt { name : string; func : opt_func }.

Definition optget : list sock_opt :=
  [ SockOpt "reuseaddr" (fun fd _ => opt_get_reuseaddr fd);
    SockOpt "error" (fun fd _ => opt_get_error fd) ].

(** [while (o->name && strcmp(name, o->name)) o++;] followed by the
    test of [o->func]: [None] is the terminating entry. *)
Fixpoint find_opt (nm : string) (o : list sock_opt) : option opt_func :=
  match o with
  | [] => None
  | e :: o' => if negb (strcmp nm (name e) =? 0) then find_opt nm o' else Some (func e)
  end.

(** [sprintf(msg, "unsupported option '%.35s'", name)] *)
Definition unsupported_option_msg (nm : string) : string :=
  ("unsupported option '" ++ String.substring 0 35 (c_str nm) ++ "'")%string.

Definition eco_socket_getoption (fd : Z) (nm : string) (env : list reply) : run :=
  let fd := to_int fd in
  match find_opt nm optget with
  | None => luaL_argerror 2 (unsupported_option_msg nm) env
  | Some f => f fd LNil env
  end.

Definition opt_set (fd level name : Z) (val : list Z) (len : Z)
    (env : list reply) : run :=
  call (SYS_setsockopt fd level name val len) env
    (fun r env =>
       if to_int (ret r) <? 0
       then finished (Return [LBool false; LStr (strerror (errno r))]) env
       else finished (Return [LBool true]) env).

Definition opt_setboolean (fd level name : Z) (arg : lua_value)
    (env : list reply) : run :=
  match arg with
  | LBool b =>
      let val := if b then 1 else 0 in
      opt_set fd level name (bytes32 val) 4 env
  | _ => luaL_argerror 3 ("boolean expected, got " ++ luaL_typename arg)%string env
  end.

(** [luaL_checkinteger]: the integer, or the message of the argument
    error it raises: "number has no integer representation" for a
    number that is no integer, the type error otherwise. *)
Definition luaL_checkinteger (v : lua_value) : Z + string :=
  match v with
  | LInt n => inl n
  | LStr s =>
      match lua_str2number s with
      | StrInteger n => inl n
      | StrFloat => inr "number has no integer representation"%string
      | NotANumber => inr ("number expected, got " ++ luaL_typename v)%string
      end
  | _ => inr ("number expected, got " ++ luaL_typename v)%string
  end.

(** [luaL_checkstring]: a string, or a number in its decimal text. *)
Definition luaL_checkstring (v : lua_value) : string + string :=
  match v with
  | LStr s => inl s
  | LInt n => inl (pretty n)
  | _ => inr ("string expected, got " ++ luaL_typename v)%string
  end.

Definition opt_setint (fd level name : Z) (arg : lua_value)
    (env : list reply) : run :=
  match luaL_checkinteger arg with
  | inl n =>
      let val := to_int n in
      opt_set fd level name (bytes32 (to_u32 val)) 4 env
  | inr msg => luaL_argerror 3 msg env
  end.

Definition opt_set_reuseaddr : opt_func :=
  fun fd => opt_setboolean fd SOL_SOCKET SO_REUSEADDR.
Definition opt_set_reuseport : opt_func :=
  fun fd => opt_setboolean fd SOL_SOCKET SO_REUSEPORT.
Definition opt_set_keepalive : opt_func :=
  fun fd => opt_setboolean fd SOL_SOCKET SO_KEEPALIVE.
Definition opt_set_tcp_keepidle : opt_func :=
  fun fd => opt_setint fd SOL_TCP TCP_KEEPIDLE.
Definition opt_set_tcp_keepintvl : opt_func :=
  fun fd => opt_setint fd SOL_TCP TCP_KEEPINTVL.
Definition opt_set_tcp_keepcnt : opt_func :=
  fun fd => opt_setint fd SOL_TCP TCP_KEEPCNT.
Definition opt_set_tcp_fastopen : opt_func :=
  fun fd => opt_setint fd SOL_TCP TCP_FASTOPEN.
Definition opt_set_tcp_nodelay : opt_func :=
  fun fd => opt_setboolean fd IPPROTO_TCP TCP_NODELAY.
Definition opt_set_ipv6_v6only : opt_func :=
  fun fd => opt_setboolean fd IPPROTO_IPV6 IPV6_V6ONLY.

Definition opt_set_bindtodevice : opt_func :=
  fun fd arg env =>
    match luaL_checkstring arg with
    | inr msg => luaL_argerror 3 msg env
    | inl ifname =>
        let ifr := zeros sizeof_ifreq in
        if strlen ifname >=? IFNAMSIZ
        then luaL_argerror 3 "ifname too long" env
        else
          let ifr := strcpy ifr 0 ifname in
          opt_set fd SOL_SOCKET SO_BINDTODEVICE ifr sizeof_ifreq env
    end.

Definition opt_set_netlink_add_membership : opt_func :=
  fun fd => opt_setint fd SOL_NETLINK NETLINK_ADD_MEMBERSHIP.
Definition opt_set_netlink_drop_membership : opt_func :=
  fun fd => opt_setint fd SOL_NETLINK NETLINK_DROP_MEMBERSHIP.

Definition optset : list sock_opt :=
  [ SockOpt "reuseaddr" opt_set_reuseaddr;
    SockOpt "reuseport" opt_set_reuseport;
    SockOpt "keepalive" opt_set_keepalive;
    SockOpt "tcp_keepidle" opt_set_tcp_keepidle;
    SockOpt "tcp_keepintvl" opt_set_tcp_keepintvl;
    SockOpt "tcp_keepcnt" opt_set_tcp_keepcnt;
    SockOpt "tcp_fastopen" opt_set_tcp_fastopen;
    SockOpt "tcp_nodelay" opt_set_tcp_nodelay;
    SockOpt "ipv6_v6only" opt_set_ipv6_v6only;
    SockOpt "bindtodevice" opt_set_bindtodevice;
    SockOpt "netlink_add_membership" opt_set_netlink_add_membership;
    SockOpt "netlink_drop_membership" opt_set_netlink_drop_membership ].

Definition eco_socket_setoption (fd : Z) (nm : string) (arg : lua_value)
    (env : list reply) : run :=
  let fd := to_int fd in
  match find_opt nm optset with
  | None => luaL_argerror 2 (unsupported_option_msg nm) env
  | Some f => f fd arg env
  end.

(** *** Interface names *)

Definition eco_socket_if_nametoindex (ifname : string) (env : list reply) : run :=
  call (SYS_if_nametoindex (c_str ifname)) env
    (fun r env =>
       let ifidx := to_u32 (ret r) in
       if ifidx =? 0
       then finished (Return [LNil]) env
       else finished (Return [LInt ifidx]) env).

(** [if_indextoname] fills the buffer only when it finds the
    interface; the source does not look at what it returns. *)
Definition eco_socket_if_indextoname (index : Z) (env : list reply) : run :=
  let index := to_int index in
  let ifname := zeros IF_NAMESIZE in
  call (SYS_if_indextoname (to_u32 index)) env
    (fun r env =>
       let ifname :=
         if ret r =? 0 then ifname else store_bytes ifname 0 (out_buf r) in
       finished
         (Return [lua_pushlstring ifname 0 (mem_strlen ifname)]) env).

End Socket.

(** ** A C library to run the functions with

    Executable stand-ins for the library functions the module takes as
    given: enough of glibc's behaviour to evaluate the functions on
    concrete inputs. *)

Module Libc.

Definition digit_of_char (c : ascii) : option Z :=
  let b := byte_of_char c in
  if (48 <=? b) && (b <=? 57) then Some (b - 48) else None.

(** Dotted-quad text, decimal octets without leading zeros. *)
Fixpoint pton4 (s : string) (cur : option Z) (acc : list Z) : option (list Z) :=
  match s with
  | EmptyString =>
      match cur with
      | Some v => if (List.length acc =? 3)%nat then Some (acc ++ [v]) else None
      | None => None
      end
  | String c s' =>
      if Ascii.eqb c "."%char then
        match cur with
        | Some v => pton4 s' None (acc ++ [v])
        | None => None
        end
      else
        match digit_of_char c, cur with
        | Some d, None => pton4 s' (Some d) acc
        | Some d, Some v =>
            if (v =? 0) || (255 <? v * 10 + d) then None
            else pton4 s' (Some (v * 10 + d)) acc
        | None, _ => None
        end
  end.

Definition ntop4 (b : list Z) : option string :=
  match b with
  | [b0; b1; b2; b3] =>
      Some (pretty b0 +:+ "." +:+ pretty b1 +:+ "." +:+ pretty b2 +:+ "." +:+ pretty b3)
  | _ => None
  end.

(** For IPv6 only the unspecified and the loopback address. *)
Definition pton6 (s : string) : option (list Z) :=
  if String.eqb s "::" then Some (zeros 16)
  else if String.eqb s "::1" then Some (zeros 15 ++ [1])
  else None.

Definition ntop6 (b : list Z) : option string :=
  if bool_decide (b = zeros 16) then Some "::"%string
  else if bool_decide (b = zeros 15 ++ [1]) then Some "::1"%string
  else None.

Definition inet_pton (family : Z) (s : string) : option (list Z) :=
  if family =? AF_INET then pton4 s None []
  else if family =? AF_INET6 then pton6 s
  else None.

Definition inet_ntop (family : Z) (b : list Z) : option string :=
  if family =? AF_INET then ntop4 b
  else if family =? AF_INET6 then ntop6 b
  else None.

Definition strerror (e : Z) : string :=
  if e =? EINTR then "Interrupted system call"
  else if e =? 9 then "Bad file descriptor"
  else if e =? 11 then "Resource temporarily unavailable"
  else if e =? ENOMEM then "Cannot allocate memory"
  else if e =? EPIPE then "Broken pipe"
  else if e =? ECONNRESET then "Connection reset by peer"
  else if e =? ECONNREFUSED then "Connection refused"
  else if e =? EINPROGRESS then "Operation now in progress"
  else "Unknown error " +:+ pretty e.

Fixpoint str2int_digits (s : string) (acc : Z) : option Z :=
  match s with
  | EmptyString => Some acc
  | String c s' =>
      match digit_of_char c with
      | Some d => str2int_digits s' (acc * 10 + d)
      | None => None
      end
  end.

(** Decimal digits only; every other string is no number. *)
Definition lua_str2number (s : string) : str_number :=
  match s with
  | EmptyString => NotANumber
  | _ =>
      match str2int_digits s 0 with
      | Some n => StrInteger n
      | None => NotANumber
      end
  end.

End Libc.

(** ** What the kernel records about a descriptor

    The descriptor table as the manual pages of [socket(2)] and
    [accept4(2)] describe it: a successful call installs the descriptor
    it returns, non-blocking when [SOCK_NONBLOCK] is among the flags of
    that call and close-on-exec when [SOCK_CLOEXEC] is.  No other call of
    the module touches the two flags. *)

Record fd_flags := FdFlags { nonblock : bool; cloexec : bool }.

Definition has_flag (bits flag : Z) : bool := Z.land bits flag =? flag.

Definition flags_of (bits : Z) : fd_flags :=
  FdFlags (has_flag bits SOCK_NONBLOCK) (has_flag bits SOCK_CLOEXEC).

Definition install (bits : Z) (r : reply) (tbl : gmap Z fd_flags) : gmap Z fd_flags :=
  let fd := to_int (ret r) in
  if fd <? 0 then tbl else <[fd := flags_of bits]> tbl.

Definition kernel_step (tbl : gmap Z fd_flags) (e : request * reply) : gmap Z fd_flags :=
  match e with
  | (SYS_socket _ type _, r) => install type r tbl
  | (SYS_accept4 _ _ flags, r) => install flags r tbl
  | _ => tbl
  end.

Definition kernel_run (tbl : gmap Z fd_flags) (l : list (request * reply)) : gmap Z fd_flags :=
  List.fold_left kernel_step l tbl.

(** A reply that reports an interrupted call. *)
Definition interrupted (r : reply) : Prop := ret r = -1 /\ errno r = EINTR.

(** The log entries of [n] interrupted attempts of one request. *)
Definition attempts (rq : request) (ints : list reply) : list (request * reply) :=
  List.map (fun i => (rq, i)) ints.

Definition prepend (l : list (request * reply)) (r : run) : run :=
  Run (outcome r) (l ++ log r) (rest r).




(** ** Logical addresses

    The address families of the module's callers, with the arguments the
    [bind] family takes for each. *)

Inductive SocketAddress :=
| Inet (ip : string) (port : Z)
| Inet6 (ip : string) (port : Z)
| Unix (path : string)
| Netlink (pid groups : Z).

(** The address a run hands to [bind(2)]. *)
Definition bound_address (r : run) : option (list Z * Z) :=
  match trace r with
  | [SYS_bind _ addr addrlen] => Some (addr, addrlen)
  | _ => None
  end.

Section Codec.

Variable big_endian : bool.
Variable inet_pton : Z -> string -> option (list Z).
Variable inet_ntop : Z -> list Z -> option string.

(** Encoding is what [eco_socket_bind], [eco_socket_bind6],
    [eco_socket_bind_unix] and [eco_socket_bind_nl] build before they
    call [bind]; decoding is [push_socket_addr]. *)
Definition encode (a : SocketAddress) : option (list Z * Z) :=
  match a with
  | Inet ip port =>
      bound_address (eco_socket_bind big_endian inet_pton 0 (Some ip) port [returning 0])
  | Inet6 ip port =>
      bound_address (eco_socket_bind6 big_endian inet_pton 0 (Some ip) port [returning 0])
  | Unix path =>
      bound_address (eco_socket_bind_unix big_endian 0 path [returning 0])
  | Netlink pid groups =>
      bound_address (eco_socket_bind_nl big_endian 0 (Some groups) (Some pid) [returning 0])
  end.

Definition decode (w : list Z * Z) : gmap string lua_value :=
  push_socket_addr big_endian inet_ntop (fst w) (snd w).

(** The inputs the encoders accept and represent exactly: a port and
    a pid that fit their fields, a text address in the form
    [inet_ntop] prints, a path without NUL that fits [sun_path]. *)
Definition canonical_text (family : Z) (size : nat) (ip : string) : Prop :=
  exists b, inet_pton family (c_str ip) = Some b /\
            List.length b = size /\
            inet_ntop family b = Some ip.

Definition valid (a : SocketAddress) : Prop :=
  match a with
  | Inet ip port => 0 <= port < 65536 /\ canonical_text AF_INET 4 ip
  | Inet6 ip port => 0 <= port < 65536 /\ canonical_text AF_INET6 16 ip
  | Unix path => no_nul path /\ strlen path < sizeof_sun_path
  | Netlink pid groups => 0 <= pid < 2 ^ 32 /\ 0 <= groups < 2 ^ 32
  end.

End Codec.

(** The address the UNIX encoders pass on for a path that fits. *)
Definition sockaddr_un_of (big_endian : bool) (path : string) : list Z :=
  bytes16 big_endian AF_UNIX ++ bytes_of_string (c_str path)
    ++ 0 :: zeros (sizeof_sun_path - strlen path - 1).

(** A string of [n] copies of a character, to build paths and names of
    a given length. *)
Fixpoint string_repeat (c : ascii) (n : nat) : string :=
  match n with
  | O => EmptyString
  | S n => String c (string_repeat c n)
  end.

(** The record a logical address is at the boundary, as the decoder
    builds it: [family] always, then the fields of the family. *)
Definition record_of (a : SocketAddress) : gmap string lua_value :=
  match a with
  | Inet ip port =>
      {[ "family" := LInt AF_INET; "port" := LInt port; "ipaddr" := LStr ip ]}
  | Inet6 ip port =>
      {[ "family" := LInt AF_INET6; "port" := LInt port; "ipaddr" := LStr ip ]}
  | Unix path =>
      {[ "family" := LInt AF_UNIX; "path" := LStr path ]}
  | Netlink pid groups =>
      {[ "family" := LInt AF_NETLINK; "pid" := LInt pid ]}
  end.

(** The record of the data model [Netlink{pid, groups}], in which the
    group mask is a field of the address as well. *)
Definition spec_record_of (a : SocketAddress) : gmap string lua_value :=
  match a with
  | Netlink pid groups => <["groups" := LInt groups]> (record_of a)
  | _ => record_of a
  end.

(** What is left of a returned value for a caller that does not
    interpret error numbers: every integer looks the same. *)
Definition without_numbers (v : lua_value) : lua_value :=
  match v with
  | LInt _ => LInt 0
  | _ => v
  end.

(** The values a finished run returns to Lua. *)
Definition values (r : run) : list lua_value :=
  match outcome r with
  | Finished (Return vs) => vs
  | _ => []
  end.

(** The way a failure is reported as second value. *)
Inductive report :=
| by_number (e : Z)          (* [lua_pushinteger(L, errno)] *)
| by_message (msg : string). (* [lua_pushstring(L, ...)] *)

Definition report_of (v : lua_value) : option report :=
  match v with
  | LInt e => Some (by_number e)
  | LStr s => Some (by_message s)
  | _ => None
  end.

(** ASCII lower case, to compare option names up to case. *)
Definition lower_char (c : ascii) : ascii :=
  let b := byte_of_char c in
  if (65 <=? b) && (b <=? 90) then char_of_byte (b + 32) else c.

Fixpoint lower (s : string) : string :=
  match s with
  | EmptyString => EmptyString
  | String c s' => String (lower_char c) (lower s')
  end.

Definition option_names (tbl : list sock_opt) : list string := List.map name tbl.

(** ** Text and binary forms of an address

    The utility functions of the module make no system call; they return
    their Lua result directly. *)

(** What [inet_pton(3)] answers: 1 with the address stored, 0 for a text
    that does not parse, -1 for a family it does not know. *)
Inductive pton_result :=
| Parsed (b : list Z)
| Unparsable
| NoSupport.

Definition pton_rc (r : pton_result) : Z :=
  match r with
  | Parsed _ => 1
  | Unparsable => 0
  | NoSupport => -1
  end.

(** The bytes [inet_ntop(3)] reads from its source for a family. *)
Definition in_addr_size (family : Z) : Z :=
  if family =? AF_INET then 4 else if family =? AF_INET6 then 16 else 0.

Section Utilities.

Variable big_endian : bool.
Variable inet_pton_r : Z -> string -> pton_result.
Variable inet_ntop : Z -> list Z -> option string.
(** [inet_aton(3)]: the four bytes it stores when it accepts the text. *)
Variable inet_aton : string -> option (list Z).
Variable inet_ntoa : list Z -> string.

(** The view of [inet_pton] the encoders have, which test [!= 1]. *)
Definition inet_pton_1 (family : Z) (s : string) : option (list Z) :=
  match inet_pton_r family s with
  | Parsed b => Some b
  | _ => None
  end.

Definition eco_socket_is_ipv4_address (ip : string) : lua_result :=
  Return [LBool (pton_rc (inet_pton_r AF_INET (c_str ip)) =? 1)].

Definition eco_socket_is_ipv6_address (ip : string) : lua_result :=
  Return [LBool (pton_rc (inet_pton_r AF_INET6 (c_str ip)) =? 1)].

(** [struct in_addr in = {}; inet_aton(src, &in);] and then the
    host-order value of [in.s_addr], whether the text was accepted or
    not. *)
Definition eco_socket_inet_aton (src : string) : lua_result :=
  let ina := zeros 4 in
  let ina :=
    match inet_aton (c_str src) with
    | Some b => store_bytes ina 0 (List.firstn 4 b)
    | None => ina
    end in
  Return [LInt (load32 big_endian ina 0)].

(** [in.s_addr = (uint32_t)luaL_checknumber(L, 1)]: the argument is the
    integer value of the Lua number; C defines the conversion for the
    values of [uint32_t] only, and the model has no result outside. *)
Definition eco_socket_inet_ntoa (n : Z) : option lua_result :=
  if (0 <=? n) && (n <? 2 ^ 32)
  then Some (Return [LStr (inet_ntoa (bytes32 big_endian n))])
  else None.

(** [inet_ntop(family, src, dst, sizeof(dst))] on the bytes of the Lua
    string: the library reads [in_addr_size family] of them.  A shorter
    string makes it read past the string, for which the model has no
    result. *)
Definition eco_socket_inet_ntop (family : Z) (src : string) : option lua_result :=
  let family := to_int family in
  if Z.of_nat (String.length src) <? in_addr_size family
  then None
  else
    Some (Return [lua_pushstring
                    (inet_ntop family
                       (load_bytes (bytes_of_string src) 0 (in_addr_size family)))]).

(** [char dst[sizeof(struct in6_addr)]] is not initialised: [stack] is
    what the sixteen bytes hold on entry.  Any non-zero answer of
    [inet_pton] returns all sixteen. *)
Definition eco_socket_inet_pton (family : Z) (src : string) (stack : list Z) : lua_result :=
  let family := to_int family in
  let dst := List.firstn 16 (stack ++ zeros 16) in
  let answer := inet_pton_r family (c_str src) in
  let dst :=
    match answer with
    | Parsed b => store_bytes dst 0 b
    | _ => dst
    end in
  if negb (pton_rc answer =? 0)
  then Return [lua_pushlstring dst 0 16]
  else Return [LNil].

End Utilities.

(** Stand-ins for the text conversions, from the dotted-quad functions
    of [Libc]. *)
Module LibcText.

Definition inet_pton_r (family : Z) (s : string) : pton_result :=
  if (family =? AF_INET) || (family =? AF_INET6) then
    match Libc.inet_pton family s with
    | Some b => Parsed b
    | None => Unparsable
    end
  else NoSupport.

Definition inet_aton (s : string) : option (list Z) := Libc.pton4 s None [].

Definition inet_ntoa (b : list Z) : string := default ""%string (Libc.ntop4 b).

End LibcText.

(** The address a run hands to [connect(2)] or [sendto(2)]. *)
Definition peer_address (r : run) : option (list Z * Z) :=
  match trace r with
  | [SYS_connect _ addr addrlen] => Some (addr, addrlen)
  | [SYS_sendto _ _ _ _ addr addrlen] => Some (addr, addrlen)
  | _ => None
  end.

Section PeerCodec.

Variable big_endian : bool.
Variable inet_pton : Z -> string -> option (list Z).
Variable strerror : Z -> string.

(** What the [connect] family and the [sendto] family build for an
    address; neither takes a group mask. *)
Definition connect_address (a : SocketAddress) : option (list Z * Z) :=
  match a with
  | Inet ip port =>
      peer_address (eco_socket_connect big_endian inet_pton 0 ip port [returning 0])
  | Inet6 ip port =>
      peer_address (eco_socket_connect6 big_endian inet_pton 0 ip port [returning 0])
  | Unix path =>
      peer_address (eco_socket_connect_unix big_endian 0 path [returning 0])
  | Netlink pid _ =>
      peer_address (eco_socket_connect_nl big_endian 0 pid [returning 0])
  end.

Definition sendto_address (a : SocketAddress) (data : string) : option (list Z * Z) :=
  match a with
  | Inet ip port =>
      peer_address
        (eco_socket_sendto big_endian inet_pton strerror 0 data ip port None [returning 0])
  | Inet6 ip port =>
      peer_address
        (eco_socket_sendto6 big_endian inet_pton strerror 0 data ip port None [returning 0])
  | Unix path =>
      peer_address
        (eco_socket_sendto_unix big_endian strerror 0 data path None [returning 0])
  | Netlink pid _ =>
      peer_address
        (eco_socket_sendto_nl big_endian strerror 0 data (Some pid) None [returning 0])
  end.

End PeerCodec.

(** The options of each value shape with the level and the option they
    set, as the handlers of the table name them. *)
Definition boolean_options : list (string * (Z * Z)) :=
  [ ("reuseaddr", (SOL_SOCKET, SO_REUSEADDR));
    ("reuseport", (SOL_SOCKET, SO_REUSEPORT));
    ("keepalive", (SOL_SOCKET, SO_KEEPALIVE));
    ("tcp_nodelay", (IPPROTO_TCP, TCP_NODELAY));
    ("ipv6_v6only", (IPPROTO_IPV6, IPV6_V6ONLY)) ]%string.


Definition is_boolean (v : lua_value) : bool :=
  match v with
  | LBool _ => true
  | _ => false
  end.

Definition byte_range (l : list Z) : Prop := Forall (fun b => 0 <= b < 256) l.

(** What [recv] and [recvfrom] push as data for a block of [n] bytes
    allocated with reply [m] and a call answered by [r]. *)
Definition received (n : Z) (m r : reply) : lua_value :=
  lua_pushlstring
    (store_bytes (malloc_memory n m) 0 (List.firstn (Z.to_nat n) (out_buf r))) 0 (ret r).

(** A run that raises an argument error has made no call before. *)
Definition raises_early (r : run) : Prop :=
  forall arg msg, outcome r = Finished (ArgError arg msg) -> log r = [].

(** A run that raises no argument error: said of the calls a function
    makes once its arguments are converted. *)
Definition never_raises (r : run) : Prop :=
  forall arg msg, outcome r <> Finished (ArgError arg msg).

(** An address family [push_socket_addr] has no fields for. *)
Definition other_family (f : Z) : Prop :=
  f <> AF_NETLINK /\ f <> AF_UNIX /\ f <> AF_INET /\ f <> AF_INET6.

(** * Properties *)

Ltac zdm := Z.div_mod_to_equations; lia.

(** ** Bytes and C strings *)

Lemma byte_of_char_range (c : ascii) : 0 <= byte_of_char c < 256.
Proof.
  unfold byte_of_char. pose proof (N_ascii_bounded c). lia.
Qed.

Lemma char_of_byte_of_char (c : ascii) : char_of_byte (byte_of_char c) = c.
Proof.
  unfold char_of_byte. pose proof (byte_of_char_range c) as Hc.
  rewrite Z.mod_small by exact Hc.
  unfold byte_of_char. rewrite N2Z.id. apply ascii_N_embedding.
Qed.

Lemma byte_of_char_zero (c : ascii) : byte_of_char c = 0 -> c = NUL.
Proof.
  intros H. rewrite <- (char_of_byte_of_char c), H. reflexivity.
Qed.

Lemma string_of_bytes_of_string (s : string) :
  string_of_bytes (bytes_of_string s) = s.
Proof.
  unfold string_of_bytes, bytes_of_string.
  induction s as [|c s IH]; simpl; [reflexivity|].
  rewrite char_of_byte_of_char. f_equal. exact IH.
Qed.

Lemma length_bytes_of_string (s : string) :
  List.length (bytes_of_string s) = String.length s.
Proof.
  unfold bytes_of_string. induction s as [|c s IH]; simpl; [reflexivity|].
  f_equal. exact IH.
Qed.

Lemma length_string_of_bytes (l : list Z) :
  String.length (string_of_bytes l) = List.length l.
Proof.
  unfold string_of_bytes. induction l as [|b l IH]; simpl; [reflexivity|].
  f_equal. exact IH.
Qed.

Lemma c_str_no_nul (s : string) : no_nul s -> c_str s = s.
Proof.
  induction s as [|c s IH]; simpl; [reflexivity|].
  intros [Hc Hs]. destruct (Ascii.eqb_spec c NUL) as [->|_]; [contradiction|].
  f_equal. auto.
Qed.

Lemma no_nul_c_str (s : string) : no_nul (c_str s).
Proof.
  induction s as [|c s IH]; simpl; [exact I|].
  destruct (Ascii.eqb_spec c NUL); simpl; auto.
Qed.

Lemma strlen_nonneg (s : string) : 0 <= strlen s.
Proof. unfold strlen. lia. Qed.

(** On C strings [strcmp] returns 0 exactly on equal strings. *)
Lemma strcmp_eq (a b : string) :
  no_nul a -> no_nul b -> (strcmp a b = 0 <-> a = b).
Proof.
  revert b. induction a as [|c a IH]; intros [|d b]; simpl.
  - tauto.
  - intros _ [Hd _]. split; [|discriminate].
    intros H. exfalso. apply Hd, byte_of_char_zero. lia.
  - intros [Hc _] _. split; [|discriminate].
    intros H. exfalso. apply Hc, byte_of_char_zero. exact H.
  - intros [Hc Ha] [Hd Hb].
    destruct (Ascii.eqb_spec c d) as [->|Hne].
    + destruct (Ascii.eqb_spec d NUL) as [->|_]; [contradiction|].
      rewrite (IH b Ha Hb). split; [intros ->; reflexivity | intros [= ->]; reflexivity].
    + split; [|intros [= -> _]; contradiction].
      intros H. exfalso. apply Hne.
      rewrite <- (char_of_byte_of_char c), <- (char_of_byte_of_char d).
      f_equal. lia.
Qed.

(** [strcmp] looks at its first argument up to the first NUL only. *)
Lemma strcmp_c_str (a b : string) : strcmp (c_str a) b = strcmp a b.
Proof.
  revert b. induction a as [|c a IH]; intros b; [reflexivity|].
  cbn [c_str]. destruct (Ascii.eqb_spec c NUL) as [->|Hc].
  - destruct b as [|d b]; [reflexivity|]. cbn [strcmp].
    destruct (Ascii.eqb_spec NUL d) as [<-|_]; reflexivity.
  - destruct b as [|d b]; [reflexivity|]. cbn [strcmp].
    destruct (Ascii.eqb_spec c d) as [<-|_]; [|reflexivity].
    destruct (Ascii.eqb_spec c NUL); [contradiction | apply IH].
Qed.

(** The C string stored in memory has the length of the string copied. *)
Lemma mem_strlen_c_str (s : string) (tail : list Z) :
  mem_strlen (bytes_of_string (c_str s) ++ 0 :: tail) = strlen s.
Proof.
  unfold strlen, bytes_of_string.
  induction s as [|c s IH]; simpl; [reflexivity|].
  destruct (Ascii.eqb_spec c NUL) as [->|Hc]; simpl; [reflexivity|].
  destruct (Z.eqb_spec (byte_of_char c) 0) as [H0|_].
  - exfalso. apply Hc, byte_of_char_zero, H0.
  - rewrite IH. lia.
Qed.

(** ** Memory *)

Lemma length_zeros (n : Z) : List.length (zeros n) = Z.to_nat n.
Proof. apply List.repeat_length. Qed.

Lemma skipn_repeat_zero (k n : nat) :
  List.skipn k (List.repeat 0 n) = List.repeat 0 (n - k).
Proof.
  revert n. induction k as [|k IH]; intros [|n]; simpl; auto.
Qed.

Lemma skipn_zeros (k : nat) (n : Z) :
  List.skipn k (zeros n) = zeros (n - Z.of_nat k).
Proof.
  unfold zeros. rewrite skipn_repeat_zero. f_equal. lia.
Qed.

(** Storing right after a prefix replaces what follows it. *)
Lemma store_bytes_after (pre mem src : list Z) (off : Z) :
  Z.to_nat off = List.length pre ->
  (List.length src <= List.length mem)%nat ->
  store_bytes (pre ++ mem) off src = pre ++ src ++ List.skipn (List.length src) mem.
Proof.
  intros Hoff Hlen. unfold store_bytes. rewrite Hoff.
  assert (Hpre : List.firstn (List.length pre) (pre ++ mem) = pre).
  { rewrite List.firstn_app, List.firstn_all, Nat.sub_diag. simpl.
    apply List.app_nil_r. }
  assert (Hpost : List.skipn (List.length pre + List.length src) (pre ++ mem)
                  = List.skipn (List.length src) mem).
  { rewrite List.skipn_app, List.skipn_all2 by lia. simpl. f_equal. lia. }
  rewrite Hpre, Hpost.
  apply List.firstn_all2.
  rewrite !List.length_app, List.length_skipn. lia.
Qed.

Lemma load_bytes_after (pre mem : list Z) (off n : Z) :
  Z.to_nat off = List.length pre ->
  load_bytes (pre ++ mem) off n = List.firstn (Z.to_nat n) mem.
Proof.
  intros Hoff. unfold load_bytes. rewrite Hoff.
  rewrite List.skipn_app, List.skipn_all, Nat.sub_diag. reflexivity.
Qed.

(** ** Layout of the address structures *)

Section Layout.

Variable big_endian : bool.

Local Abbreviation htons := (htons big_endian).
Local Abbreviation ntohs := (ntohs big_endian).
Local Abbreviation bytes16 := (bytes16 big_endian).
Local Abbreviation bytes32 := (bytes32 big_endian).
Local Abbreviation load16 := (load16 big_endian).
Local Abbreviation load32 := (load32 big_endian).

Lemma length_bytes16 (x : Z) : List.length (bytes16 x) = 2%nat.
Proof. unfold Wire.bytes16. destruct big_endian; reflexivity. Qed.

Lemma length_bytes32 (x : Z) : List.length (bytes32 x) = 4%nat.
Proof. unfold Wire.bytes32. destruct big_endian; reflexivity. Qed.

Lemma to_u16_range (x : Z) : 0 <= to_u16 x < 65536.
Proof. unfold to_u16, wrap_unsigned. change (2 ^ 16) with 65536. zdm. Qed.

Lemma to_u32_small (x : Z) : 0 <= x < 2 ^ 32 -> to_u32 x = x.
Proof. intros H. unfold to_u32, wrap_unsigned. apply Z.mod_small, H. Qed.

Lemma to_u16_small (x : Z) : 0 <= x < 65536 -> to_u16 x = x.
Proof. intros H. unfold to_u16, wrap_unsigned. apply Z.mod_small, H. Qed.

Lemma to_int_small (x : Z) : - 2 ^ 31 <= x < 2 ^ 31 -> to_int x = x.
Proof.
  intros H. unfold to_int, wrap_signed.
  change (2 ^ 32) with 4294967296 in *. change (2 ^ (32 - 1)) with 2147483648 in *.
  change (2 ^ 31) with 2147483648 in *.
  destruct (Z.ltb_spec (x mod 4294967296) 2147483648); zdm.
Qed.

Lemma swap16_range (x : Z) : 0 <= swap16 x < 65536.
Proof. unfold swap16. zdm. Qed.

Lemma swap16_involutive (x : Z) : 0 <= x < 65536 -> swap16 (swap16 x) = x.
Proof. intros H. unfold swap16. zdm. Qed.

Lemma htons_range (p : Z) : 0 <= htons p < 65536.
Proof.
  unfold Wire.htons. destruct big_endian;
    [apply to_u16_range | apply swap16_range].
Qed.

(** The port read back is the port stored, reduced to sixteen bits. *)
Lemma ntohs_htons (p : Z) : ntohs (htons p) = to_u16 p.
Proof.
  unfold Wire.ntohs, Wire.htons. pose proof (to_u16_range p) as Hp.
  destruct big_endian.
  - apply to_u16_small, to_u16_range.
  - rewrite (to_u16_small (swap16 _)) by apply swap16_range.
    apply swap16_involutive, Hp.
Qed.

Lemma load_byte_after (pre mem : list Z) (off k : Z) :
  0 <= k -> off = Z.of_nat (List.length pre) ->
  load_byte (pre ++ mem) (off + k) = load_byte mem k.
Proof.
  intros Hk ->. unfold load_byte.
  rewrite List.app_nth2 by lia. f_equal. lia.
Qed.

Lemma load16_bytes16 (x : Z) (tail : list Z) :
  0 <= x < 65536 -> load16 (bytes16 x ++ tail) 0 = x.
Proof.
  intros H. unfold Wire.load16, Wire.bytes16, load_byte.
  destruct big_endian; simpl; zdm.
Qed.

Lemma load32_bytes32 (x : Z) (tail : list Z) :
  0 <= x < 2 ^ 32 -> load32 (bytes32 x ++ tail) 0 = x.
Proof.
  intros H. change (2 ^ 32) with 4294967296 in H.
  unfold Wire.load32, Wire.bytes32, load_byte.
  destruct big_endian; simpl; zdm.
Qed.

Lemma load16_after (pre mem : list Z) (off : Z) :
  off = Z.of_nat (List.length pre) ->
  load16 (pre ++ mem) off = load16 mem 0.
Proof.
  intros H. unfold Wire.load16.
  pose proof (load_byte_after pre mem off 0 ltac:(lia) H) as H0.
  rewrite Z.add_0_r in H0.
  rewrite H0, !(load_byte_after pre mem off) by (lia || exact H).
  reflexivity.
Qed.

Lemma load32_after (pre mem : list Z) (off : Z) :
  off = Z.of_nat (List.length pre) ->
  load32 (pre ++ mem) off = load32 mem 0.
Proof.
  intros H. unfold Wire.load32.
  pose proof (load_byte_after pre mem off 0 ltac:(lia) H) as H0.
  rewrite Z.add_0_r in H0.
  rewrite H0, !(load_byte_after pre mem off) by (lia || exact H).
  reflexivity.
Qed.

(** The objects the encoders build, field by field. *)
Lemma sockaddr_in_layout (port : Z) (b : list Z) :
  List.length b = 4%nat ->
  set_sin_addr (sockaddr_in_init big_endian port) b
  = bytes16 AF_INET ++ bytes16 (htons port) ++ b ++ zeros 8.
Proof.
  intros Hb. do 5 (destruct b as [|? b]; try discriminate Hb).
  unfold Wire.bytes16. destruct big_endian; reflexivity.
Qed.

Lemma sockaddr_in6_layout (port : Z) (b : list Z) :
  List.length b = 16%nat ->
  set_sin6_addr (sockaddr_in6_init big_endian port) b
  = bytes16 AF_INET6 ++ bytes16 (htons port) ++ zeros 4 ++ b ++ zeros 4.
Proof.
  intros Hb. do 17 (destruct b as [|? b]; try discriminate Hb).
  unfold Wire.bytes16. destruct big_endian; reflexivity.
Qed.

Lemma sockaddr_un_layout :
  sockaddr_un_init big_endian = bytes16 AF_UNIX ++ zeros sizeof_sun_path.
Proof. unfold Wire.bytes16. destruct big_endian; reflexivity. Qed.

Lemma sockaddr_nl_layout (groups pid : Z) :
  sockaddr_nl_init big_endian groups pid
  = bytes16 AF_NETLINK ++ [0; 0] ++ bytes32 (to_u32 pid) ++ bytes32 (to_u32 groups).
Proof.
  unfold Wire.bytes16, Wire.bytes32.
  destruct big_endian; reflexivity.
Qed.

(** A path that fits is stored whole, followed by zero bytes. *)
Lemma sockaddr_un_path_layout (path : string) :
  strlen path < sizeof_sun_path ->
  strcpy (sockaddr_un_init big_endian) offsetof_sun_path path
  = bytes16 AF_UNIX ++ bytes_of_string (c_str path)
      ++ 0 :: zeros (sizeof_sun_path - strlen path - 1).
Proof.
  intros Hlen. pose proof (strlen_nonneg path) as Hnn.
  unfold strcpy. rewrite sockaddr_un_layout.
  unfold sizeof_sun_path in *.
  assert (Hl : List.length (bytes_of_string (c_str path)) = Z.to_nat (strlen path)).
  { rewrite length_bytes_of_string. unfold strlen. lia. }
  rewrite store_bytes_after.
  - rewrite <- List.app_assoc. simpl. do 3 f_equal.
    rewrite List.length_app, Hl. simpl.
    rewrite skipn_zeros. f_equal. lia.
  - rewrite length_bytes16. reflexivity.
  - rewrite List.length_app, Hl, length_zeros. simpl. lia.
Qed.

Lemma SUN_LEN_path (path : string) :
  strlen path < sizeof_sun_path ->
  SUN_LEN (strcpy (sockaddr_un_init big_endian) offsetof_sun_path path)
  = offsetof_sun_path + strlen path.
Proof.
  intros Hlen. rewrite sockaddr_un_path_layout by exact Hlen.
  unfold SUN_LEN. f_equal.
  rewrite List.skipn_app, List.skipn_all2 by (rewrite length_bytes16; reflexivity).
  rewrite length_bytes16. simpl. apply mem_strlen_c_str.
Qed.

End Layout.

(** ** Encoding an address and decoding it again *)

Section RoundTrip.

Variable big_endian : bool.
Variable inet_pton : Z -> string -> option (list Z).
Variable inet_ntop : Z -> list Z -> option string.

Local Abbreviation bytes16 := (bytes16 big_endian).
Local Abbreviation bytes32 := (bytes32 big_endian).
Local Abbreviation htons := (htons big_endian).
Local Abbreviation push_addr := (push_socket_addr big_endian inet_ntop).

Ltac family_is f :=
  unfold push_socket_addr; cbv zeta;
  rewrite !(load16_bytes16 big_endian f) by (vm_compute; split; congruence);
  cbn [Z.eqb Pos.eqb AF_INET AF_INET6 AF_UNIX AF_NETLINK].

Lemma push_inet (port : Z) (b : list Z) (len : Z) :
  List.length b = 4%nat ->
  push_addr (bytes16 AF_INET ++ bytes16 (htons port) ++ b ++ zeros 8) len
  = lua_setfield "ipaddr" (lua_pushstring (inet_ntop AF_INET b))
      (lua_setfield "port" (LInt (to_u16 port))
         (lua_setfield "family" (LInt AF_INET) ∅)).
Proof.
  intros Hb. family_is AF_INET.
  rewrite (load16_after big_endian (bytes16 AF_INET)) by (rewrite length_bytes16; reflexivity).
  rewrite load16_bytes16 by apply htons_range.
  rewrite ntohs_htons.
  rewrite (List.app_assoc (bytes16 AF_INET)).
  rewrite load_bytes_after by (rewrite List.length_app, !length_bytes16; reflexivity).
  rewrite List.firstn_app, Hb, List.firstn_all2 by (rewrite Hb; reflexivity).
  simpl. rewrite List.app_nil_r. reflexivity.
Qed.

Lemma push_inet6 (port : Z) (b : list Z) (len : Z) :
  List.length b = 16%nat ->
  push_addr
    (bytes16 AF_INET6 ++ bytes16 (htons port) ++ zeros 4 ++ b ++ zeros 4) len
  = lua_setfield "ipaddr" (lua_pushstring (inet_ntop AF_INET6 b))
      (lua_setfield "port" (LInt (to_u16 port))
         (lua_setfield "family" (LInt AF_INET6) ∅)).
Proof.
  intros Hb. family_is AF_INET6.
  rewrite (load16_after big_endian (bytes16 AF_INET6)) by (rewrite length_bytes16; reflexivity).
  rewrite load16_bytes16 by apply htons_range.
  rewrite ntohs_htons.
  rewrite (List.app_assoc (bytes16 AF_INET6)).
  rewrite (List.app_assoc (bytes16 AF_INET6 ++ _)).
  rewrite load_bytes_after
    by (rewrite !List.length_app, !length_bytes16, length_zeros; reflexivity).
  rewrite List.firstn_app, Hb, List.firstn_all2 by (rewrite Hb; reflexivity).
  simpl. rewrite List.app_nil_r. reflexivity.
Qed.

Lemma push_unix (path : string) (tail : list Z) :
  strlen path < sizeof_sun_path ->
  push_addr (bytes16 AF_UNIX ++ bytes_of_string (c_str path) ++ tail)
    (offsetof_sun_path + strlen path)
  = lua_setfield "path" (LStr (c_str path))
      (lua_setfield "family" (LInt AF_UNIX) ∅).
Proof.
  intros Hlen. pose proof (strlen_nonneg path) as Hnn.
  unfold sizeof_sun_path in Hlen.
  family_is AF_UNIX.
  unfold lua_pushlstring, offsetof_sun_path.
  rewrite load_bytes_after by (rewrite length_bytes16; reflexivity).
  replace (to_size_t (to_u32 (2 + strlen path - 2))) with (strlen path).
  - rewrite List.firstn_app, List.firstn_all2
      by (rewrite length_bytes_of_string; unfold strlen; lia).
    replace (Z.to_nat (strlen path) - List.length (bytes_of_string (c_str path)))%nat
      with 0%nat by (rewrite length_bytes_of_string; unfold strlen; lia).
    simpl. rewrite List.app_nil_r, string_of_bytes_of_string. reflexivity.
  - replace (2 + strlen path - 2) with (strlen path) by lia.
    unfold to_size_t, to_u32, wrap_unsigned.
    change (2 ^ 32) with 4294967296. change (2 ^ 64) with 18446744073709551616.
    rewrite (Z.mod_small (strlen path)) by lia.
    rewrite Z.mod_small by lia. reflexivity.
Qed.

Lemma push_netlink (pid groups : Z) (len : Z) :
  0 <= pid < 2 ^ 32 ->
  push_addr (bytes16 AF_NETLINK ++ [0; 0] ++ bytes32 pid ++ bytes32 groups) len
  = lua_setfield "pid" (LInt pid) (lua_setfield "family" (LInt AF_NETLINK) ∅).
Proof.
  intros Hpid. family_is AF_NETLINK.
  rewrite (List.app_assoc (bytes16 AF_NETLINK)).
  rewrite (load32_after big_endian (bytes16 AF_NETLINK ++ [0; 0]))
    by (rewrite List.length_app, length_bytes16; reflexivity).
  rewrite load32_bytes32 by exact Hpid.
  reflexivity.
Qed.

End RoundTrip.

Lemma bound_address_bind_common (fd : Z) (addr : list Z) (addrlen : Z)
    (r : reply) (env : list reply) :
  bound_address (eco_socket_bind_common fd addr addrlen (r :: env)) = Some (addr, addrlen).
Proof.
  unfold eco_socket_bind_common, call, bound_address, trace.
  destruct (negb _); reflexivity.
Qed.

Lemma port_int_u16 (port : Z) : 0 <= port < 65536 -> to_u16 (to_int port) = port.
Proof.
  intros H. rewrite to_int_small by (change (2 ^ 31) with 2147483648; lia).
  apply to_u16_small, H.
Qed.

(** C1 (as the code has it): for every valid address of the four
    families, decoding the encoded address gives the record of the
    address back: family, port and text address for Inet and Inet6, the
    whole path for Unix, and for Netlink the pid, the group mask being
    no field of the decoded record. *)
Theorem decode_encode_address
    (big_endian : bool)
    (inet_pton : Z -> string -> option (list Z))
    (inet_ntop : Z -> list Z -> option string)
    (a : SocketAddress) :
  valid inet_pton inet_ntop a ->
  exists w, encode big_endian inet_pton a = Some w /\
            decode big_endian inet_ntop w = record_of a.
Proof.
  destruct a as [ip port | ip port | path | pid groups]; cbn [valid encode].
  - intros [Hport (b & Hpton & Hlen & Hntop)].
    unfold eco_socket_bind. cbv zeta. rewrite Hpton, bound_address_bind_common.
    eexists. split; [reflexivity|]. unfold decode. cbn [fst snd].
    rewrite sockaddr_in_layout, push_inet by exact Hlen.
    rewrite Hntop, port_int_u16 by exact Hport. reflexivity.
  - intros [Hport (b & Hpton & Hlen & Hntop)].
    unfold eco_socket_bind6. cbv zeta. rewrite Hpton, bound_address_bind_common.
    eexists. split; [reflexivity|]. unfold decode. cbn [fst snd].
    rewrite sockaddr_in6_layout, push_inet6 by exact Hlen.
    rewrite Hntop, port_int_u16 by exact Hport. reflexivity.
  - intros [Hnul Hlen].
    unfold eco_socket_bind_unix. cbv zeta.
    destruct (strlen path >=? sizeof_sun_path) eqn:E; [apply Z.geb_le in E; lia|].
    rewrite bound_address_bind_common.
    eexists. split; [reflexivity|]. unfold decode. cbn [fst snd].
    rewrite SUN_LEN_path, sockaddr_un_path_layout by exact Hlen.
    rewrite push_unix by exact Hlen.
    rewrite c_str_no_nul by exact Hnul. reflexivity.
  - intros [Hpid Hgroups].
    unfold eco_socket_bind_nl. cbv zeta. rewrite bound_address_bind_common.
    eexists. split; [reflexivity|]. unfold decode. cbn [fst snd default].
    rewrite sockaddr_nl_layout, !to_u32_small by assumption.
    rewrite push_netlink by exact Hpid. reflexivity.
Qed.

Lemma decode_encode_address_witness :
  valid Libc.inet_pton Libc.inet_ntop (Inet "127.0.0.1" 8080) /\
  exists w, encode true Libc.inet_pton (Inet "127.0.0.1" 8080) = Some w /\
            decode true Libc.inet_ntop w = record_of (Inet "127.0.0.1" 8080).
Proof.
  assert (H : valid Libc.inet_pton Libc.inet_ntop (Inet "127.0.0.1" 8080)).
  { split; [lia|]. exists [127; 0; 0; 1]. repeat split; reflexivity. }
  split; [exact H|].
  exact (decode_encode_address true Libc.inet_pton Libc.inet_ntop
           (Inet "127.0.0.1" 8080) H).
Defined.

(** C1, as stated, fails on the group mask of a Netlink address: the
    mask is written to the wire but the decoded record has no field for
    it, so the record differs from the address that was encoded and two
    addresses that differ in their groups decode alike. *)
Lemma netlink_groups_not_decoded :
  valid Libc.inet_pton Libc.inet_ntop (Netlink 7 1) /\
  exists w w',
    encode false Libc.inet_pton (Netlink 7 1) = Some w /\
    encode false Libc.inet_pton (Netlink 7 2) = Some w' /\
    w <> w' /\
    decode false Libc.inet_ntop w !! "groups" = None /\
    decode false Libc.inet_ntop w <> spec_record_of (Netlink 7 1) /\
    decode false Libc.inet_ntop w = decode false Libc.inet_ntop w'.
Proof.
  split; [simpl; lia|].
  eexists. eexists.
  split; [reflexivity|]. split; [reflexivity|].
  split; [discriminate|].
  split; [reflexivity|].
  split; [|reflexivity].
  intros H. apply (f_equal (fun t => t !! "groups")) in H.
  vm_compute in H. discriminate H.
Qed.

(** ** Interrupted system calls *)

Lemma prepend_nil (r : run) : prepend [] r = r.
Proof. destruct r; reflexivity. Qed.



(** A function that answers an interrupted reply by issuing the same
    request again skips any number of interruptions. *)
Lemma retry_prefix (f : list reply -> run) (rq : request) :
  (forall i env, interrupted i -> f (i :: env) = logged (rq, i) (f env)) ->
  forall ints env,
    Forall interrupted ints ->
    f (ints ++ env) = prepend (attempts rq ints) (f env).
Proof.
  intros Hstep ints env Hints.
  induction Hints as [|i ints Hi _ IH]; simpl.
  - symmetry. apply prepend_nil.
  - rewrite Hstep by exact Hi. rewrite IH. reflexivity.
Qed.









Section Retry.

Variable big_endian : bool.
Variable inet_ntop : Z -> list Z -> option string.
Variable strerror : Z -> string.



Lemma recv_interrupted (fd : Z) (buf : list Z) (n flags : Z) (i : reply) (env : list reply) :
  interrupted i ->
  eco_socket_recv_again strerror fd buf n flags (i :: env)
  = logged (SYS_recv fd n flags, i)
      (eco_socket_recv_again strerror fd buf n flags env).
Proof. intros [Hr He]. cbn [eco_socket_recv_again]. rewrite Hr, He. reflexivity. Qed.


Lemma recvfrom_interrupted (fd : Z) (buf : list Z) (n flags : Z) (addr : list Z)
    (addrlen : Z) (i : reply) (env : list reply) :
  interrupted i ->
  eco_socket_recvfrom_again big_endian inet_ntop strerror fd buf n flags addr addrlen (i :: env)
  = logged (SYS_recvfrom fd n flags addrlen, i)
      (eco_socket_recvfrom_again big_endian inet_ntop strerror fd buf n flags addr addrlen env).
Proof. intros [Hr He]. cbn [eco_socket_recvfrom_again]. rewrite Hr, He. reflexivity. Qed.






End Retry.





(** [connect] is not one of these loops: the call is made once and an
    [EINTR] failure is returned to the caller like any other error
    number, the reply that follows being left unread. *)
Example connect_surfaces_eintr :
  interrupted (failing EINTR) /\
  eco_socket_connect false Libc.inet_pton 3 "127.0.0.1" 80 [failing EINTR; returning 0]
  = Run (Finished (Return [LBool false; LInt EINTR]))
      [(SYS_connect 3 [2; 0; 0; 80; 127; 0; 0; 1; 0; 0; 0; 0; 0; 0; 0; 0] 16,
        failing EINTR)]
      [returning 0].
Proof. split; [split; reflexivity | reflexivity]. Qed.

(** ** How failures are reported *)

Section Reports.

Variable big_endian : bool.
Variable inet_ntop : Z -> list Z -> option string.
Variable strerror : Z -> string.

Lemma to_int_minus_one : to_int (-1) = -1.
Proof. reflexivity. Qed.

(** C2 (the code at its failing input): a [send] that fails with
    [EPIPE] reports the string ["closed"], whereas the loop shared by
    the [sendto] functions reports [strerror(EPIPE)] like any other
    failure. *)
Theorem epipe_report_of_send_and_sendto
    (fd : Z) (data : string) (flags : option Z)
    (len : Z) (addr : list Z) (addrlen flags' : Z) (env : list reply) :
  values (eco_socket_send strerror fd data flags (failing EPIPE :: env))
    = [LNil; LStr "closed"] /\
  values (eco_socket_sendto_common strerror fd data len addr addrlen flags'
            (failing EPIPE :: env))
    = [LNil; LStr (strerror EPIPE)].
Proof. split; reflexivity. Qed.

(** C5 (as the code has it): a failed system call is reported by a
    second value computed from [errno] alone.  [socket], [bind],
    [listen], [accept] and [connect] return the error number itself;
    [send], [recv], [recvfrom], [getsockname], [getpeername] and the
    option handlers return the text [strerror(errno)], and so does
    [sendto] for every error other than [EPIPE]; [send] returns
    ["closed"] for [EPIPE]; the [error] option returns the number as its
    value. *)
Theorem failure_reports
    (r : reply) (env : list reply) :
  ret r = -1 -> errno r <> EINTR ->
  let e := errno r in
  (forall domain type protocol,
      values (eco_socket_socket domain type protocol (r :: env)) = [LNil; LInt e]) /\
  (forall fd addr addrlen,
      values (eco_socket_bind_common fd addr addrlen (r :: env)) = [LBool false; LInt e]) /\
  (forall fd backlog,
      values (eco_socket_listen fd backlog (r :: env)) = [LBool false; LInt e]) /\
  (forall lfd,
      values (eco_socket_accept big_endian inet_ntop lfd (r :: env)) = [LNil; LInt e]) /\
  (forall fd addr addrlen,
      values (eco_socket_connect_common fd addr addrlen (r :: env)) = [LBool false; LInt e]) /\
  (forall fd data flags,
      values (eco_socket_send strerror fd data flags (r :: env))
      = [LNil; LStr (if e =? EPIPE then "closed"%string else strerror e)]) /\
  (forall fd n flags m,
      1 <= to_size_t n -> ret m <> 0 ->
      values (eco_socket_recv strerror fd n flags (m :: r :: env))
      = [LNil; LStr (strerror e)]) /\
  (forall fd data len addr addrlen flags,
      e <> EPIPE ->
      values (eco_socket_sendto_common strerror fd data len addr addrlen flags (r :: env))
      = [LNil; LStr (strerror e)]) /\
  (forall fd n flags m,
      1 <= to_size_t n -> ret m <> 0 ->
      values (eco_socket_recvfrom big_endian inet_ntop strerror fd n flags (m :: r :: env))
      = [LNil; LStr (strerror e)]) /\
  (forall fd,
      values (eco_socket_getsockname big_endian inet_ntop strerror fd (r :: env))
      = [LNil; LStr (strerror e)]) /\
  (forall fd,
      values (eco_socket_getpeername big_endian inet_ntop strerror fd (r :: env))
      = [LNil; LStr (strerror e)]) /\
  (forall fd level name,
      values (opt_getboolean strerror fd level name (r :: env))
      = [LNil; LStr (strerror e)]) /\
  (forall fd level name val len,
      values (opt_set strerror fd level name val len (r :: env))
      = [LBool false; LStr (strerror e)]) /\
  (forall fd,
      values (opt_get_error fd (r :: env)) = [LInt e]).
Proof.
  intros Hr He e. apply Z.eqb_neq in He.
  repeat match goal with |- _ /\ _ => split end; intros.
  all: try (unfold values, eco_socket_socket, eco_socket_bind_common,
            eco_socket_listen, eco_socket_accept, eco_socket_connect_common,
            eco_socket_send, eco_socket_getsockname, eco_socket_getpeername,
            opt_getboolean, opt_set, opt_get_error, call;
            cbn [eco_socket_accept_again eco_socket_send_again
                 eco_socket_sendto_common logged outcome];
            rewrite ?Hr, ?to_int_minus_one, ?He; subst e;
            try destruct (errno r =? EPIPE); reflexivity).
  all: unfold values, eco_socket_recv, eco_socket_recvfrom, call; cbv zeta;
    match goal with
    | H : 1 <= to_size_t ?n |- _ =>
        destruct (Z.ltb_spec (to_size_t n) 1) as [Hlt|_]; [lia|]
    end;
    match goal with
    | H : ret ?m <> 0 |- _ => apply Z.eqb_neq in H; rewrite H
    end;
    cbn [eco_socket_recv_again eco_socket_recvfrom_again logged outcome];
    rewrite Hr, He; reflexivity.
Qed.

End Reports.

(** The same through [eco.socket.sendto] with glibc's messages. *)
Example sendto_epipe_is_broken_pipe :
  values (eco_socket_sendto false Libc.inet_pton Libc.strerror 3 "x" "127.0.0.1" 80 None
            [failing EPIPE])
  = [LNil; LStr "Broken pipe"].
Proof. reflexivity. Qed.

Lemma failure_reports_witness :
  ret (failing ECONNRESET) = -1 /\ errno (failing ECONNRESET) <> EINTR /\
  values (eco_socket_accept true Libc.inet_ntop 3 [failing ECONNRESET])
    = [LNil; LInt ECONNRESET] /\
  values (eco_socket_recv Libc.strerror 3 16 None [returning 1; failing ECONNRESET])
    = [LNil; LStr "Connection reset by peer"].
Proof.
  assert (H1 : ret (failing ECONNRESET) = -1) by reflexivity.
  assert (H2 : errno (failing ECONNRESET) <> EINTR) by discriminate.
  assert (H3 : 1 <= to_size_t 16) by (vm_compute; discriminate).
  assert (H4 : ret (returning 1) <> 0) by discriminate.
  pose proof (failure_reports true Libc.inet_ntop Libc.strerror
                (failing ECONNRESET) [] H1 H2) as H.
  split; [exact H1 | split; [exact H2 | split]].
  - exact (proj1 (proj2 (proj2 (proj2 H))) 3).
  - exact (proj1 (proj2 (proj2 (proj2 (proj2 (proj2 (proj2 H))))))
             3 16 None (returning 1) H3 H4).
Defined.

(** C5, as stated, fails on [recv] (and on every operation that reports
    through [strerror]): the caller receives the message text of the
    error, not its number. *)
Lemma recv_failure_is_message_text :
  exists v,
    values (eco_socket_recv Libc.strerror 3 16 None [returning 1; failing ECONNRESET])
      = [LNil; v] /\
    report_of v = Some (by_message "Connection reset by peer") /\
    report_of v <> Some (by_number ECONNRESET).
Proof.
  eexists. split; [reflexivity|]. split; [reflexivity | discriminate].
Qed.

(** C6 (as the code has it): a [connect] that fails returns [false] and
    the error number, whatever the error; the result for a connection
    in progress differs from the result for any other failure in that
    number only, so the caller tells them apart by comparing it with
    [EINPROGRESS]. *)
Theorem connect_failure_is_errno
    (fd : Z) (addr : list Z) (addrlen : Z) (r r' : reply) (env : list reply) :
  ret r = -1 -> ret r' = -1 ->
  values (eco_socket_connect_common fd addr addrlen (r :: env))
    = [LBool false; LInt (errno r)] /\
  List.map without_numbers (values (eco_socket_connect_common fd addr addrlen (r :: env)))
    = List.map without_numbers (values (eco_socket_connect_common fd addr addrlen (r' :: env))).
Proof.
  intros Hr Hr'.
  unfold values, eco_socket_connect_common, call. cbn [logged outcome].
  rewrite Hr, Hr'. split; reflexivity.
Qed.

Lemma connect_failure_is_errno_witness :
  ret (failing EINPROGRESS) = -1 /\ ret (failing ECONNREFUSED) = -1 /\
  values (eco_socket_connect_common 3 [] 0 [failing EINPROGRESS])
    = [LBool false; LInt EINPROGRESS] /\
  List.map without_numbers (values (eco_socket_connect_common 3 [] 0 [failing EINPROGRESS]))
    = List.map without_numbers (values (eco_socket_connect_common 3 [] 0 [failing ECONNREFUSED])).
Proof.
  split; [reflexivity | split; [reflexivity|]].
  exact (connect_failure_is_errno 3 [] 0 (failing EINPROGRESS) (failing ECONNREFUSED) []
           eq_refl eq_refl).
Defined.

(** C6, as stated, fails: a connection in progress is returned with the
    failure marker [false] and the raw number [EINPROGRESS], in the form
    of a refused connection; without reading the number the two results
    are the same. *)
Lemma connect_in_progress_is_failure :
  eco_socket_connect false Libc.inet_pton 3 "127.0.0.1" 80 [failing EINPROGRESS]
  = Run (Finished (Return [LBool false; LInt EINPROGRESS]))
      [(SYS_connect 3 [2; 0; 0; 80; 127; 0; 0; 1; 0; 0; 0; 0; 0; 0; 0; 0] 16,
        failing EINPROGRESS)] [] /\
  values (eco_socket_connect false Libc.inet_pton 3 "127.0.0.1" 80 [failing ECONNREFUSED])
  = [LBool false; LInt ECONNREFUSED] /\
  List.map without_numbers
    (values (eco_socket_connect false Libc.inet_pton 3 "127.0.0.1" 80 [failing EINPROGRESS]))
  = List.map without_numbers
    (values (eco_socket_connect false Libc.inet_pton 3 "127.0.0.1" 80 [failing ECONNREFUSED])).
Proof. repeat split. Qed.

(** ** Flags of the descriptors the module creates *)

Lemma land_lor_absorb (a b : Z) : Z.land (Z.lor a b) b = b.
Proof.
  apply Z.bits_inj'. intros n _.
  rewrite Z.land_spec, Z.lor_spec.
  destruct (Z.testbit a n), (Z.testbit b n); reflexivity.
Qed.

Lemma land_lor_absorb_l (a b c : Z) : Z.land (Z.lor (Z.lor a b) c) b = b.
Proof.
  apply Z.bits_inj'. intros n _.
  rewrite Z.land_spec, !Z.lor_spec.
  destruct (Z.testbit a n), (Z.testbit b n), (Z.testbit c n); reflexivity.
Qed.

Lemma has_both_flags (type : Z) :
  flags_of (Z.lor (Z.lor type SOCK_NONBLOCK) SOCK_CLOEXEC) = FdFlags true true.
Proof.
  unfold flags_of, has_flag.
  rewrite land_lor_absorb_l, land_lor_absorb, !Z.eqb_refl. reflexivity.
Qed.

Section Flags.

Variable big_endian : bool.
Variable inet_ntop : Z -> list Z -> option string.

(** Every call [accept] makes is the same [accept4] with both flags,
    and the descriptor it returns is installed with both. *)
Lemma accept_again_flags (lfd : Z) (addr : list Z) (addrlen : Z) (env : list reply) :
  forall tbl fd vals,
    outcome (eco_socket_accept_again big_endian inet_ntop lfd addr addrlen env)
      = Finished (Return (LInt fd :: vals)) ->
    kernel_run tbl (log (eco_socket_accept_again big_endian inet_ntop lfd addr addrlen env))
      !! fd = Some (FdFlags true true) /\
    Forall (eq (SYS_accept4 lfd addrlen (Z.lor SOCK_NONBLOCK SOCK_CLOEXEC)))
      (trace (eco_socket_accept_again big_endian inet_ntop lfd addr addrlen env)).
Proof.
  induction env as [|r env IH]; intros tbl fd vals.
  - discriminate.
  - cbn -[to_int]. unfold trace. cbn -[to_int].
    destruct (to_int (ret r) <? 0) eqn:Hneg.
    + destruct (errno r =? EINTR).
      * intros H. destruct (IH (install (Z.lor SOCK_NONBLOCK SOCK_CLOEXEC) r tbl) fd vals H)
          as [Hfd Htr].
        split; [exact Hfd | constructor; [reflexivity | exact Htr]].
      * discriminate.
    + intros [= <- _]. split.
      * unfold kernel_run, install. cbn -[to_int]. rewrite Hneg.
        apply lookup_insert_eq.
      * repeat constructor.
Qed.

End Flags.

(** C3: a descriptor returned by [socket] or by [accept] is non-blocking
    and close-on-exec in the kernel's table, and the log of the run
    holds nothing but the creating call ([socket] once, [accept4] once
    per attempt) with both flags among its arguments. *)
Theorem created_descriptors_nonblocking_cloexec
    (big_endian : bool) (inet_ntop : Z -> list Z -> option string)
    (tbl : gmap Z fd_flags) (fd : Z) (vals : list lua_value) (env : list reply) :
  (forall domain type protocol,
      outcome (eco_socket_socket domain type protocol env)
        = Finished (Return (LInt fd :: vals)) ->
      kernel_run tbl (log (eco_socket_socket domain type protocol env)) !! fd
        = Some (FdFlags true true) /\
      exists type',
        trace (eco_socket_socket domain type protocol env)
          = [SYS_socket (to_int domain) type' (to_int protocol)] /\
        has_flag type' SOCK_NONBLOCK = true /\
        has_flag type' SOCK_CLOEXEC = true) /\
  (forall lfd,
      outcome (eco_socket_accept big_endian inet_ntop lfd env)
        = Finished (Return (LInt fd :: vals)) ->
      kernel_run tbl (log (eco_socket_accept big_endian inet_ntop lfd env)) !! fd
        = Some (FdFlags true true) /\
      Forall (fun rq =>
                exists flags,
                  rq = SYS_accept4 (to_int lfd) sizeof_addr_union flags /\
                  has_flag flags SOCK_NONBLOCK = true /\
                  has_flag flags SOCK_CLOEXEC = true)
        (trace (eco_socket_accept big_endian inet_ntop lfd env))).
Proof.
  split.
  - intros domain type protocol.
    unfold eco_socket_socket, call. destruct env as [|r env']; [discriminate|].
    cbn -[to_int]. unfold trace. cbn -[to_int].
    destruct (to_int (ret r) <? 0) eqn:Hneg; [discriminate|].
    intros [= <- _]. split.
    + unfold kernel_run, install. cbn -[to_int]. rewrite Hneg.
      rewrite has_both_flags. apply lookup_insert_eq.
    + eexists. split; [reflexivity|].
      pose proof (has_both_flags (to_int type)) as H.
      unfold flags_of in H. injection H as H1 H2. auto.
  - intros lfd H. unfold eco_socket_accept in *.
    destruct (accept_again_flags big_endian inet_ntop _ _ _ env tbl fd vals H) as [Hfd Htr].
    split; [exact Hfd|].
    eapply Forall_impl; [exact Htr|].
    intros rq <-. eexists. split; [reflexivity|]. split; reflexivity.
Qed.

Lemma created_descriptors_nonblocking_cloexec_witness :
  outcome (eco_socket_socket AF_INET 1 0 [returning 5]) = Finished (Return [LInt 5]) /\
  kernel_run ∅ (log (eco_socket_socket AF_INET 1 0 [returning 5])) !! 5
    = Some (FdFlags true true) /\
  exists vals,
    outcome (eco_socket_accept false Libc.inet_ntop 3
               [failing EINTR; Reply 6 0 [] [2; 0; 31; 144; 10; 0; 0; 1] 16 0])
      = Finished (Return (LInt 6 :: vals)) /\
    kernel_run ∅ (log (eco_socket_accept false Libc.inet_ntop 3
                         [failing EINTR; Reply 6 0 [] [2; 0; 31; 144; 10; 0; 0; 1] 16 0])) !! 6
      = Some (FdFlags true true).
Proof.
  split; [reflexivity|]. split.
  - exact (proj1 (proj1 (created_descriptors_nonblocking_cloexec false Libc.inet_ntop
                           ∅ 5 [] [returning 5]) AF_INET 1 0 eq_refl)).
  - eexists. split; [reflexivity|].
    exact (proj1 (proj2 (created_descriptors_nonblocking_cloexec false Libc.inet_ntop
                           ∅ 6 _ [failing EINTR; Reply 6 0 [] [2; 0; 31; 144; 10; 0; 0; 1] 16 0])
                    3 eq_refl)).
Defined.

(** ** UNIX-domain paths *)

Lemma trace_bind_common (fd : Z) (addr : list Z) (addrlen : Z) (r : reply) (env : list reply) :
  trace (eco_socket_bind_common fd addr addrlen (r :: env)) = [SYS_bind fd addr addrlen].
Proof.
  unfold eco_socket_bind_common, call, trace. destruct (negb _); reflexivity.
Qed.

Lemma trace_connect_common (fd : Z) (addr : list Z) (addrlen : Z) (r : reply) (env : list reply) :
  trace (eco_socket_connect_common fd addr addrlen (r :: env)) = [SYS_connect fd addr addrlen].
Proof.
  unfold eco_socket_connect_common, call, trace. destruct (_ <? 0); reflexivity.
Qed.

Lemma unix_path_fits (big_endian : bool) (fd : Z) (path : string) (r : reply) (env : list reply) :
  strlen path < sizeof_sun_path ->
  trace (eco_socket_bind_unix big_endian fd path (r :: env))
    = [SYS_bind (to_int fd) (sockaddr_un_of big_endian path) (offsetof_sun_path + strlen path)] /\
  trace (eco_socket_connect_unix big_endian fd path (r :: env))
    = [SYS_connect (to_int fd) (sockaddr_un_of big_endian path) (offsetof_sun_path + strlen path)].
Proof.
  intros Hlen. unfold eco_socket_bind_unix, eco_socket_connect_unix. cbv zeta.
  destruct (strlen path >=? sizeof_sun_path) eqn:E; [apply Z.geb_le in E; lia|].
  rewrite trace_bind_common, trace_connect_common.
  rewrite SUN_LEN_path, sockaddr_un_path_layout by exact Hlen.
  split; reflexivity.
Qed.

Lemma unix_path_too_long (big_endian : bool) (fd : Z) (path : string) (env : list reply) :
  sizeof_sun_path <= strlen path ->
  eco_socket_bind_unix big_endian fd path env
    = Run (Finished (ArgError 2 "path too long")) [] env /\
  eco_socket_connect_unix big_endian fd path env
    = Run (Finished (ArgError 2 "path too long")) [] env.
Proof.
  intros Hlen. unfold eco_socket_bind_unix, eco_socket_connect_unix. cbv zeta.
  destruct (strlen path >=? sizeof_sun_path) eqn:E.
  - split; reflexivity.
  - exfalso. pose proof (proj2 (Z.geb_le _ _) Hlen) as E'. congruence.
Qed.

(** C7 (as the code has it): the length that counts is [strlen], the
    number of bytes before the first NUL byte of the path.  [bind_unix]
    and [connect_unix] pass a path of that length one less than the size
    of [sun_path] on to the system call, with all its bytes and the
    length that covers them; a path of that length equal to the size of
    [sun_path] raises the "path too long" error and no call is made. *)
Theorem unix_path_length_limit
    (big_endian : bool) (fd : Z) (path : string) (r : reply) (env : list reply) :
  (strlen path = sizeof_sun_path - 1 ->
     let addr := bytes16 big_endian AF_UNIX ++ bytes_of_string (c_str path) ++ [0] in
     trace (eco_socket_bind_unix big_endian fd path (r :: env))
       = [SYS_bind (to_int fd) addr (sizeof_sockaddr_un - 1)] /\
     trace (eco_socket_connect_unix big_endian fd path (r :: env))
       = [SYS_connect (to_int fd) addr (sizeof_sockaddr_un - 1)]) /\
  (strlen path = sizeof_sun_path ->
     eco_socket_bind_unix big_endian fd path env
       = Run (Finished (ArgError 2 "path too long")) [] env /\
     eco_socket_connect_unix big_endian fd path env
       = Run (Finished (ArgError 2 "path too long")) [] env).
Proof.
  split; intros Hlen.
  - destruct (unix_path_fits big_endian fd path r env) as [Hb Hc]; [lia|].
    rewrite Hb, Hc. unfold sockaddr_un_of. rewrite Hlen. split; reflexivity.
  - apply unix_path_too_long. lia.
Qed.

Lemma unix_path_length_limit_witness :
  strlen (string_repeat "a" 107) = sizeof_sun_path - 1 /\
  strlen (string_repeat "a" 108) = sizeof_sun_path /\
  trace (eco_socket_bind_unix false 3 (string_repeat "a" 107) [returning 0])
    = [SYS_bind (to_int 3)
         (bytes16 false AF_UNIX ++ bytes_of_string (c_str (string_repeat "a" 107)) ++ [0])
         (sizeof_sockaddr_un - 1)] /\
  eco_socket_connect_unix false 3 (string_repeat "a" 108) [returning 0]
    = Run (Finished (ArgError 2 "path too long")) [] [returning 0].
Proof.
  assert (H1 : strlen (string_repeat "a" 107) = sizeof_sun_path - 1) by reflexivity.
  assert (H2 : strlen (string_repeat "a" 108) = sizeof_sun_path) by reflexivity.
  split; [exact H1 | split; [exact H2 | split]].
  - exact (proj1 (proj1 (unix_path_length_limit false 3 (string_repeat "a" 107)
                           (returning 0) []) H1)).
  - exact (proj2 (proj2 (unix_path_length_limit false 3 (string_repeat "a" 108)
                           (returning 0) [returning 0]) H2)).
Defined.

(** C7, as stated for the length of the path the caller passes, fails:
    a path of 108 bytes, the size of [sun_path], whose second byte is
    NUL raises no error; [bind_unix] and [connect_unix] make the call
    with the one byte before the NUL as the path. *)
Lemma unix_path_with_nul_is_cut :
  let path := String "a" (String NUL (string_repeat "b" 106)) in
  Z.of_nat (String.length path) = sizeof_sun_path /\
  eco_socket_bind_unix false 3 path [returning 0]
  = Run (Finished (Return [LBool true]))
      [(SYS_bind 3 (bytes16 false AF_UNIX ++ [97] ++ zeros 107) 3, returning 0)] [] /\
  eco_socket_connect_unix false 3 path [returning 0]
  = Run (Finished (Return [LBool true]))
      [(SYS_connect 3 (bytes16 false AF_UNIX ++ [97] ++ zeros 107) 3, returning 0)] [].
Proof. repeat split. Qed.

(** ** The option registry *)

Section Options.

Variable big_endian : bool.
Variable strerror : Z -> string.
Variable lua_str2number : string -> str_number.

Local Abbreviation optget := (optget strerror).
Local Abbreviation optset := (optset big_endian strerror lua_str2number).

Lemma find_opt_none (nm : string) (tbl : list sock_opt) :
  Forall (fun e => no_nul (name e)) tbl ->
  ~ In (c_str nm) (option_names tbl) ->
  find_opt nm tbl = None.
Proof.
  intros Htbl. induction Htbl as [|e tbl He _ IH]; simpl; [reflexivity|].
  intros Hnot.
  destruct (Z.eqb_spec (strcmp nm (name e)) 0) as [H0|_]; simpl.
  - exfalso. apply Hnot. left. symmetry.
    rewrite <- strcmp_c_str in H0.
    apply (strcmp_eq (c_str nm) (name e)); [apply no_nul_c_str | exact He | exact H0].
  - apply IH. intros Hin. apply Hnot. right. exact Hin.
Qed.

Lemma optget_names_no_nul : Forall (fun e => no_nul (name e)) optget.
Proof. repeat constructor; discriminate. Qed.

Lemma optset_names_no_nul : Forall (fun e => no_nul (name e)) optset.
Proof. repeat constructor; discriminate. Qed.

Lemma optget_names_lower : Forall (fun n => lower n = n) (option_names optget).
Proof. repeat constructor. Qed.

Lemma optset_names_lower : Forall (fun n => lower n = n) (option_names optset).
Proof. repeat constructor. Qed.

(** A name that differs from its lower-case form is in no table of
    lower-case names. *)
Lemma mixed_case_not_in (nm : string) (names : list string) :
  Forall (fun n => lower n = n) names -> nm <> lower nm -> ~ In nm names.
Proof.
  intros Hall Hne Hin. rewrite List.Forall_forall in Hall.
  apply Hne. symmetry. apply Hall, Hin.
Qed.

End Options.

(** C8 (as the code has it): the name that is looked up is the C string
    of the argument, [c_str nm], its bytes before the first NUL byte.
    When that is in the table of neither [getoption] nor [setoption],
    both raise the error "unsupported option '...'" that quotes its
    first 35 characters, before any call is made; it is compared
    exactly, so a name that differs from a registered one in case only
    is rejected as well. *)
Theorem unknown_option_is_rejected
    (big_endian : bool) (strerror : Z -> string) (lua_str2number : string -> str_number)
    (fd : Z) (nm : string) (arg : lua_value) (env : list reply) :
  let rejected :=
    Run (Finished (ArgError 2
           ("unsupported option '" ++ String.substring 0 35 (c_str nm) ++ "'")%string))
      [] env in
  (~ In (c_str nm) (option_names (optget strerror)) ->
     eco_socket_getoption strerror fd nm env = rejected) /\
  (~ In (c_str nm) (option_names (optset big_endian strerror lua_str2number)) ->
     eco_socket_setoption big_endian strerror lua_str2number fd nm arg env = rejected) /\
  (c_str nm <> lower (c_str nm) ->
     eco_socket_getoption strerror fd nm env = rejected /\
     eco_socket_setoption big_endian strerror lua_str2number fd nm arg env = rejected).
Proof.
  intros rejected.
  assert (Hget : ~ In (c_str nm) (option_names (optget strerror)) ->
                 eco_socket_getoption strerror fd nm env = rejected).
  { intros Hnot. unfold eco_socket_getoption. cbv zeta.
    rewrite find_opt_none by (auto using optget_names_no_nul). reflexivity. }
  assert (Hset : ~ In (c_str nm) (option_names (optset big_endian strerror lua_str2number)) ->
                 eco_socket_setoption big_endian strerror lua_str2number fd nm arg env = rejected).
  { intros Hnot. unfold eco_socket_setoption. cbv zeta.
    rewrite find_opt_none by (auto using optset_names_no_nul). reflexivity. }
  split; [exact Hget | split; [exact Hset|]].
  intros Hcase. split.
  - apply Hget, mixed_case_not_in; [apply optget_names_lower | exact Hcase].
  - apply Hset, mixed_case_not_in; [apply optset_names_lower | exact Hcase].
Qed.

Lemma unknown_option_is_rejected_witness :
  ~ In (c_str "TCP_NODELAY") (option_names (optset false Libc.strerror Libc.lua_str2number)) /\
  c_str "TCP_NODELAY" <> lower (c_str "TCP_NODELAY") /\
  eco_socket_setoption false Libc.strerror Libc.lua_str2number 3 "TCP_NODELAY" (LBool true)
    [returning 0]
  = Run (Finished (ArgError 2 "unsupported option 'TCP_NODELAY'")) [] [returning 0] /\
  eco_socket_getoption Libc.strerror 3 "TCP_NODELAY" [returning 0]
  = Run (Finished (ArgError 2 "unsupported option 'TCP_NODELAY'")) [] [returning 0].
Proof.
  assert (H2 : ~ In (c_str "TCP_NODELAY")
                 (option_names (optset false Libc.strerror Libc.lua_str2number))).
  { simpl. intros H. repeat (destruct H as [H|H]; [discriminate H|]). exact H. }
  assert (H3 : c_str "TCP_NODELAY" <> lower (c_str "TCP_NODELAY")) by discriminate.
  pose proof (unknown_option_is_rejected false Libc.strerror Libc.lua_str2number
                3 "TCP_NODELAY" (LBool true) [returning 0]) as H.
  split; [exact H2 | split; [exact H3 | split]].
  - exact (proj1 (proj2 H) H2).
  - exact (proj1 (proj2 (proj2 H) H3)).
Defined.

(** C8, as stated for the name the caller passes, fails: the name made
    of "reuseaddr", a NUL byte and "JUNK" is in neither table, yet
    [getoption] and [setoption] take it for "reuseaddr" and make the
    system call. *)
Lemma option_name_with_nul_is_cut :
  let nm := ("reuseaddr" ++ String NUL "JUNK")%string in
  ~ In nm (option_names (optget Libc.strerror)) /\
  ~ In nm (option_names (optset false Libc.strerror Libc.lua_str2number)) /\
  eco_socket_getoption Libc.strerror 3 nm [Reply 0 0 [] [] 0 1]
  = Run (Finished (Return [LBool true]))
      [(SYS_getsockopt 3 SOL_SOCKET SO_REUSEADDR 4, Reply 0 0 [] [] 0 1)] [] /\
  eco_socket_setoption false Libc.strerror Libc.lua_str2number 3 nm (LBool true) [returning 0]
  = Run (Finished (Return [LBool true]))
      [(SYS_setsockopt 3 SOL_SOCKET SO_REUSEADDR (bytes32 false 1) 4, returning 0)] [].
Proof.
  cbv zeta. split; [|split; [|split; reflexivity]].
  - simpl. intros H. repeat (destruct H as [H|H]; [discriminate H|]). exact H.
  - simpl. intros H. repeat (destruct H as [H|H]; [discriminate H|]). exact H.
Qed.

(** ** Receiving *)

Lemma wrap_signed_64_small (x : Z) : 0 <= x < 2 ^ 63 -> wrap_signed 64 x = x.
Proof.
  intros H. unfold wrap_signed.
  change (2 ^ 64) with 18446744073709551616 in *.
  change (2 ^ (64 - 1)) with 9223372036854775808 in *.
  change (2 ^ 63) with 9223372036854775808 in *.
  rewrite Z.mod_small by lia.
  destruct (Z.ltb_spec x 9223372036854775808); lia.
Qed.

Lemma to_size_t_small (x : Z) : 0 <= x < 2 ^ 64 -> to_size_t x = x.
Proof. intros H. unfold to_size_t, wrap_unsigned. apply Z.mod_small, H. Qed.

Lemma length_malloc_block (n : Z) (m : reply) :
  List.length (malloc_block n m) = Z.to_nat n.
Proof.
  unfold malloc_block. rewrite List.length_firstn, List.length_app, length_zeros. lia.
Qed.

Lemma length_store_bytes_0 (mem src : list Z) :
  List.length (store_bytes mem 0 src) = List.length mem.
Proof.
  unfold store_bytes. simpl.
  rewrite List.length_firstn, List.length_app, List.length_skipn. lia.
Qed.

(** The string pushed from a buffer of [n] bytes has the length asked
    for, whatever the buffer holds. *)
Lemma length_malloc_memory (n : Z) (m : reply) :
  (Z.to_nat n <= List.length (malloc_memory n m))%nat.
Proof.
  unfold malloc_memory. rewrite List.length_app, length_malloc_block. lia.
Qed.

Lemma length_pushed (buf : list Z) (k : Z) (s : string) :
  0 <= k <= Z.of_nat (List.length buf) ->
  lua_pushlstring buf 0 k = LStr s ->
  Z.of_nat (String.length s) = k.
Proof.
  intros Hk [= <-]. rewrite length_string_of_bytes.
  unfold load_bytes. change (Z.to_nat 0) with 0%nat. rewrite List.skipn_O.
  rewrite List.length_firstn. lia.
Qed.

Lemma trace_prepend (l : list (request * reply)) (r : run) :
  trace (prepend l r) = List.map fst l ++ trace r.
Proof. unfold trace, prepend. simpl. apply List.map_app. Qed.

Lemma requests_of_attempts (rq : request) (ints : list reply) :
  List.map fst (attempts rq ints) = List.repeat rq (List.length ints).
Proof.
  unfold attempts. induction ints as [|i ints IH]; simpl; [reflexivity|].
  f_equal. exact IH.
Qed.

Lemma repeat_snoc (rq : request) (k : nat) :
  List.repeat rq k ++ [rq] = List.repeat rq (S k).
Proof. induction k as [|k IH]; simpl; [reflexivity|]. f_equal. exact IH. Qed.

Section Receive.

Variable big_endian : bool.
Variable inet_ntop : Z -> list Z -> option string.
Variable strerror : Z -> string.

Lemma recv_again_reads (fd : Z) (buf : list Z) (n flags : Z)
    (ints : list reply) (r : reply) (env : list reply) :
  Forall interrupted ints -> 0 <= ret r < 2 ^ 63 ->
  eco_socket_recv_again strerror fd buf n flags (ints ++ r :: env)
  = prepend (attempts (SYS_recv fd n flags) ints)
      (Run (Finished (Return [lua_pushlstring
                                (store_bytes buf 0 (List.firstn (Z.to_nat n) (out_buf r)))
                                0 (ret r)]))
         [(SYS_recv fd n flags, r)] env).
Proof.
  intros Hints Hr.
  rewrite (retry_prefix _ _ (recv_interrupted strerror fd buf n flags)) by exact Hints.
  f_equal. cbn -[wrap_signed]. rewrite wrap_signed_64_small by exact Hr.
  destruct (Z.ltb_spec (ret r) 0); [lia | reflexivity].
Qed.

Lemma recvfrom_again_reads (fd : Z) (buf : list Z) (n flags : Z) (addr : list Z)
    (addrlen : Z) (ints : list reply) (r : reply) (env : list reply) :
  Forall interrupted ints -> 0 <= ret r < 2 ^ 63 ->
  exists more,
    eco_socket_recvfrom_again big_endian inet_ntop strerror fd buf n flags addr addrlen
      (ints ++ r :: env)
    = prepend (attempts (SYS_recvfrom fd n flags addrlen) ints)
        (Run (Finished (Return (lua_pushlstring
                                  (store_bytes buf 0 (List.firstn (Z.to_nat n) (out_buf r)))
                                  0 (ret r)
                                  :: more)))
           [(SYS_recvfrom fd n flags addrlen, r)] env).
Proof.
  intros Hints Hr.
  rewrite (retry_prefix _ _
             (recvfrom_interrupted big_endian inet_ntop strerror fd buf n flags addr addrlen))
    by exact Hints.
  cbn -[wrap_signed to_u32]. rewrite wrap_signed_64_small by exact Hr.
  destruct (Z.ltb_spec (ret r) 0); [lia|].
  destruct (negb (to_u32 (out_addrlen r) =? 0)); eexists; reflexivity.
Qed.

End Receive.

(** X22: [recv] and [recvfrom] asked for 0 bytes raise the argument
    error and make no call, not even the allocation.  Asked for [n >= 1]
    bytes they allocate a block of [n] bytes and pass [n] as the length
    of every attempt; when the call reports no more than [n] bytes, the
    first value returned is a string whose length is the number of bytes
    the call reports. *)
Theorem recv_length_contract
    (big_endian : bool) (inet_ntop : Z -> list Z -> option string)
    (strerror : Z -> string) (fd : Z) (flags : option Z) :
  (forall env,
      eco_socket_recv strerror fd 0 flags env
        = Run (Finished (ArgError 2 "must be greater than 0")) [] env /\
      eco_socket_recvfrom big_endian inet_ntop strerror fd 0 flags env
        = Run (Finished (ArgError 2 "must be greater than 0")) [] env) /\
  (forall n m ints r env,
      1 <= n < 2 ^ 63 -> ret m <> 0 -> Forall interrupted ints -> 0 <= ret r <= n ->
      List.length (malloc_block n m) = Z.to_nat n /\
      (trace (eco_socket_recv strerror fd n flags (m :: ints ++ r :: env))
         = LIBC_malloc n
             :: List.repeat (SYS_recv (to_int fd) n (to_int (default 0 flags)))
                  (S (List.length ints)) /\
       exists s,
         values (eco_socket_recv strerror fd n flags (m :: ints ++ r :: env)) = [LStr s] /\
         Z.of_nat (String.length s) = ret r) /\
      (trace (eco_socket_recvfrom big_endian inet_ntop strerror fd n flags
                (m :: ints ++ r :: env))
         = LIBC_malloc n
             :: List.repeat (SYS_recvfrom (to_int fd) n (to_int (default 0 flags))
                               sizeof_addr_union)
                  (S (List.length ints)) /\
       exists s more,
         values (eco_socket_recvfrom big_endian inet_ntop strerror fd n flags
                   (m :: ints ++ r :: env)) = LStr s :: more /\
         Z.of_nat (String.length s) = ret r)).
Proof.
  split; [intros env; split; reflexivity|].
  intros n m ints r env Hn Hm Hints Hr.
  assert (Hsz : to_size_t n = n)
    by (apply to_size_t_small; change (2 ^ 63) with 9223372036854775808 in Hn;
        change (2 ^ 64) with 18446744073709551616; lia).
  assert (Hr63 : 0 <= ret r < 2 ^ 63) by lia.
  assert (Hbuf : 0 <= ret r
                 <= Z.of_nat (List.length (store_bytes (malloc_memory n m) 0
                                             (List.firstn (Z.to_nat n) (out_buf r))))).
  { rewrite length_store_bytes_0. pose proof (length_malloc_memory n m). lia. }
  apply Z.eqb_neq in Hm.
  split; [apply length_malloc_block|]. split.
  - unfold eco_socket_recv, call. cbv zeta. rewrite Hsz.
    destruct (Z.ltb_spec n 1) as [Hlt|_]; [lia|]. rewrite Hm.
    rewrite recv_again_reads by assumption.
    split.
    + unfold trace. cbn [logged log List.map fst].
      fold (trace (prepend (attempts (SYS_recv (to_int fd) n (to_int (default 0 flags))) ints)
                     (Run (Finished (Return [lua_pushlstring
                        (store_bytes (malloc_memory n m) 0
                           (List.firstn (Z.to_nat n) (out_buf r))) 0 (ret r)]))
                        [(SYS_recv (to_int fd) n (to_int (default 0 flags)), r)] env))).
      rewrite trace_prepend, requests_of_attempts. unfold trace. simpl.
      rewrite repeat_snoc. reflexivity.
    + eexists. split; [reflexivity|].
      eapply length_pushed; [exact Hbuf | reflexivity].
  - unfold eco_socket_recvfrom, call. cbv zeta. rewrite Hsz.
    destruct (Z.ltb_spec n 1) as [Hlt|_]; [lia|]. rewrite Hm.
    destruct (recvfrom_again_reads big_endian inet_ntop strerror (to_int fd)
                (malloc_memory n m) n (to_int (default 0 flags))
                (zeros sizeof_addr_union) sizeof_addr_union ints r env Hints Hr63)
      as [more ->].
    split.
    + unfold trace. cbn [logged log List.map fst prepend].
      rewrite List.map_app, requests_of_attempts. simpl.
      rewrite repeat_snoc. reflexivity.
    + eexists. eexists. split; [reflexivity|].
      eapply length_pushed; [exact Hbuf | reflexivity].
Qed.

Lemma recv_length_contract_witness :
  1 <= 4 < 2 ^ 63 /\ ret (returning 1) <> 0 /\
  Forall interrupted [failing EINTR] /\
  0 <= ret (Reply 2 0 [104; 105] [] 0 0) <= 4 /\
  trace (eco_socket_recv Libc.strerror 3 4 None
           (returning 1 :: [failing EINTR] ++ Reply 2 0 [104; 105] [] 0 0 :: []))
    = LIBC_malloc 4
        :: List.repeat (SYS_recv (to_int 3) 4 (to_int (default 0 None)))
             (S (List.length [failing EINTR])) /\
  exists s,
    values (eco_socket_recv Libc.strerror 3 4 None
              (returning 1 :: [failing EINTR] ++ Reply 2 0 [104; 105] [] 0 0 :: []))
      = [LStr s] /\
    Z.of_nat (String.length s) = ret (Reply 2 0 [104; 105] [] 0 0).
Proof.
  assert (H1 : 1 <= 4 < 2 ^ 63) by (split; [lia | reflexivity]).
  assert (H2 : ret (returning 1) <> 0) by discriminate.
  assert (H3 : Forall interrupted [failing EINTR]) by (repeat constructor).
  assert (H4 : 0 <= ret (Reply 2 0 [104; 105] [] 0 0) <= 4) by (simpl; lia).
  split; [exact H1 | split; [exact H2 | split; [exact H3 | split; [exact H4|]]]].
  exact (proj1 (proj2 (proj2 (recv_length_contract true Libc.inet_ntop Libc.strerror 3 None)
                         4 (returning 1) [failing EINTR] (Reply 2 0 [104; 105] [] 0 0) []
                         H1 H2 H3 H4))).
Defined.

Lemma received_past_block (n : Z) (m r : reply) :
  0 <= n < ret r ->
  n <= Z.of_nat (List.length (out_buf r)) ->
  ret r <= Z.of_nat (List.length (out_buf m)) ->
  received n m r
  = LStr (string_of_bytes
            (List.firstn (Z.to_nat n) (out_buf r)
               ++ List.firstn (Z.to_nat (ret r - n)) (List.skipn (Z.to_nat n) (out_buf m)))).
Proof.
  intros Hn Hr Hm.
  assert (Hsrc : List.length (List.firstn (Z.to_nat n) (out_buf r)) = Z.to_nat n)
    by (rewrite List.length_firstn; lia).
  assert (Hmem : malloc_memory n m = out_buf m).
  { unfold malloc_memory, malloc_block. rewrite List.firstn_app.
    replace (Z.to_nat n - List.length (out_buf m))%nat with 0%nat by lia.
    rewrite List.firstn_O, List.app_nil_r. apply List.firstn_skipn. }
  unfold received. rewrite Hmem.
  unfold lua_pushlstring, load_bytes, store_bytes.
  change (Z.to_nat 0) with 0%nat.
  rewrite List.skipn_O, List.firstn_O, Nat.add_0_l, List.app_nil_l, Hsrc.
  rewrite (List.firstn_all2 (n := List.length (out_buf m)))
    by (rewrite List.length_app, Hsrc, List.length_skipn; lia).
  rewrite List.firstn_app, Hsrc.
  rewrite (List.firstn_all2 (n := Z.to_nat (ret r)))
    by (rewrite List.length_firstn; lia).
  do 3 f_equal. f_equal. lia.
Qed.

(** C9 (the code at its failing input): when the call reports more bytes
    than the [n] asked for, as it does for a datagram longer than [n]
    received with [MSG_TRUNC], [recv] and [recvfrom] have allocated [n]
    bytes and asked for [n] bytes, but return a string of the reported
    length: the [n] bytes received, followed by the bytes that lie in
    memory behind the block. *)
Theorem recv_reads_past_block
    (big_endian : bool) (inet_ntop : Z -> list Z -> option string)
    (strerror : Z -> string) (fd n : Z) (flags : option Z) (m r : reply)
    (env : list reply) :
  1 <= n < 2 ^ 63 -> ret m <> 0 ->
  n < ret r < 2 ^ 63 ->
  n <= Z.of_nat (List.length (out_buf r)) ->
  ret r <= Z.of_nat (List.length (out_buf m)) ->
  let behind := List.firstn (Z.to_nat (ret r - n)) (List.skipn (Z.to_nat n) (out_buf m)) in
  let s := string_of_bytes (List.firstn (Z.to_nat n) (out_buf r) ++ behind) in
  List.length (malloc_block n m) = Z.to_nat n /\
  n < Z.of_nat (String.length s) /\
  Z.of_nat (String.length s) = ret r /\
  eco_socket_recv strerror fd n flags (m :: r :: env)
  = Run (Finished (Return [LStr s]))
      [(LIBC_malloc n, m); (SYS_recv (to_int fd) n (to_int (default 0 flags)), r)] env /\
  exists more,
    eco_socket_recvfrom big_endian inet_ntop strerror fd n flags (m :: r :: env)
    = Run (Finished (Return (LStr s :: more)))
        [(LIBC_malloc n, m);
         (SYS_recvfrom (to_int fd) n (to_int (default 0 flags)) sizeof_addr_union, r)] env.
Proof.
  intros Hn Hm Hret Hr Hmem behind s.
  assert (Hsz : to_size_t n = n)
    by (apply to_size_t_small; change (2 ^ 63) with 9223372036854775808 in Hn;
        change (2 ^ 64) with 18446744073709551616; lia).
  assert (Hr63 : 0 <= ret r < 2 ^ 63) by lia.
  assert (Hlen : Z.of_nat (String.length s) = ret r).
  { unfold s, behind. rewrite length_string_of_bytes, List.length_app, !List.length_firstn,
      List.length_skipn. lia. }
  pose proof (received_past_block n m r ltac:(lia) Hr Hmem) as Hrec.
  fold behind in Hrec. fold s in Hrec. unfold received in Hrec.
  apply Z.eqb_neq in Hm.
  split; [apply length_malloc_block|]. split; [lia|]. split; [exact Hlen|]. split.
  - unfold eco_socket_recv, call. cbv zeta. rewrite Hsz.
    destruct (Z.ltb_spec n 1) as [Hlt|_]; [lia|]. rewrite Hm.
    pose proof (recv_again_reads strerror (to_int fd) (malloc_memory n m) n
                  (to_int (default 0 flags)) [] r env (List.Forall_nil _) Hr63) as Hrun.
    cbn [app] in Hrun. rewrite Hrun, Hrec. reflexivity.
  - unfold eco_socket_recvfrom, call. cbv zeta. rewrite Hsz.
    destruct (Z.ltb_spec n 1) as [Hlt|_]; [lia|]. rewrite Hm.
    destruct (recvfrom_again_reads big_endian inet_ntop strerror (to_int fd)
                (malloc_memory n m) n (to_int (default 0 flags))
                (zeros sizeof_addr_union) sizeof_addr_union [] r env (List.Forall_nil _) Hr63)
      as [more Hrun].
    cbn [app] in Hrun. rewrite Hrun, Hrec. exists more. reflexivity.
Qed.

Lemma recv_reads_past_block_witness :
  let m := Reply 1 0 [0; 0; 0; 0; 115; 101; 99; 114; 101; 116] [] 0 0 in
  let r := Reply 10 0 [100; 97; 116; 97; 103; 114; 97; 109; 33; 33] [] 0 0 in
  1 <= 4 < 2 ^ 63 /\ ret m <> 0 /\ 4 < ret r < 2 ^ 63 /\
  4 <= Z.of_nat (List.length (out_buf r)) /\
  ret r <= Z.of_nat (List.length (out_buf m)) /\
  eco_socket_recv Libc.strerror 3 4 (Some MSG_TRUNC) [m; r]
  = Run (Finished (Return [LStr "datasecret"]))
      [(LIBC_malloc 4, m); (SYS_recv 3 4 MSG_TRUNC, r)] [].
Proof.
  intros m r.
  assert (H1 : 1 <= 4 < 2 ^ 63) by (split; [lia | reflexivity]).
  assert (H2 : ret m <> 0) by discriminate.
  assert (H3 : 4 < ret r < 2 ^ 63) by (split; [simpl; lia | reflexivity]).
  assert (H4 : 4 <= Z.of_nat (List.length (out_buf r))) by (simpl; lia).
  assert (H5 : ret r <= Z.of_nat (List.length (out_buf m))) by (simpl; lia).
  split; [exact H1 | split; [exact H2 | split; [exact H3 | split; [exact H4 |
    split; [exact H5|]]]]].
  exact (proj1 (proj2 (proj2 (proj2
           (recv_reads_past_block true Libc.inet_ntop Libc.strerror 3 4 (Some MSG_TRUNC)
              m r [] H1 H2 H3 H4 H5))))).
Defined.

(** ** Interface names *)

(** C10: when the lookup of an index finds no interface,
    [if_indextoname] returns the empty string, the failure of the
    library call being ignored; when the lookup of a name finds no
    interface, [if_nametoindex] returns nil. *)
Theorem unknown_interface_results
    (index : Z) (ifname : string) (r : reply) (env : list reply) :
  ret r = 0 ->
  eco_socket_if_indextoname index (r :: env)
    = Run (Finished (Return [LStr ""]))
        [(SYS_if_indextoname (to_u32 (to_int index)), r)] env /\
  eco_socket_if_nametoindex ifname (r :: env)
    = Run (Finished (Return [LNil])) [(SYS_if_nametoindex (c_str ifname), r)] env.
Proof.
  intros Hr. unfold eco_socket_if_indextoname, eco_socket_if_nametoindex, call.
  cbv zeta. rewrite Hr. split; reflexivity.
Qed.

Lemma unknown_interface_results_witness :
  ret (returning 0) = 0 /\
  eco_socket_if_indextoname 99 [returning 0]
    = Run (Finished (Return [LStr ""]))
        [(SYS_if_indextoname (to_u32 (to_int 99)), returning 0)] [] /\
  eco_socket_if_nametoindex "nosuch0" [returning 0]
    = Run (Finished (Return [LNil])) [(SYS_if_nametoindex (c_str "nosuch0"), returning 0)] [].
Proof.
  split; [reflexivity|].
  exact (unknown_interface_results 99 "nosuch0" (returning 0) [] eq_refl).
Defined.

(** * Further properties of the module *)

(** ** Addresses the kernel reports *)

Lemma store_in_zeros (n : Z) (w : list Z) :
  (List.length w <= Z.to_nat n)%nat ->
  store_bytes (zeros n) 0 w = w ++ zeros (n - Z.of_nat (List.length w)).
Proof.
  intros H.
  pose proof (store_bytes_after [] (zeros n) w 0 eq_refl) as E.
  simpl in E. rewrite E by (rewrite length_zeros; exact H).
  rewrite skipn_zeros. reflexivity.
Qed.

Lemma bytes_of_string_of_bytes (l : list Z) :
  byte_range l -> bytes_of_string (string_of_bytes l) = l.
Proof.
  unfold bytes_of_string, string_of_bytes.
  induction 1 as [|b l Hb _ IH]; simpl; [reflexivity|].
  f_equal; [|exact IH].
  unfold byte_of_char, char_of_byte.
  rewrite N_ascii_embedding.
  - rewrite Z2N.id by zdm. apply Z.mod_small, Hb.
  - change 256%N with (Z.to_N 256). apply Z2N.inj_lt; zdm.
Qed.

Lemma byte_range_bytes_of_string (s : string) : byte_range (bytes_of_string s).
Proof.
  unfold byte_range, bytes_of_string.
  induction s as [|c s IH]; simpl; constructor; [apply byte_of_char_range | exact IH].
Qed.

Section KernelAddresses.

Variable big_endian : bool.
Variable inet_pton : Z -> string -> option (list Z).
Variable inet_ntop : Z -> list Z -> option string.
Variable strerror : Z -> string.

Local Abbreviation bytes16 := (bytes16 big_endian).
Local Abbreviation bytes32 := (bytes32 big_endian).
Local Abbreviation htons := (htons big_endian).
Local Abbreviation push_addr := (push_socket_addr big_endian inet_ntop).

Ltac family_of f :=
  unfold push_socket_addr; cbv zeta;
  rewrite !(load16_bytes16 big_endian f) by (vm_compute; split; congruence);
  cbn [Z.eqb Pos.eqb AF_INET AF_INET6 AF_UNIX AF_NETLINK].

Lemma push_inet_tail (port : Z) (b tail : list Z) (len : Z) :
  List.length b = 4%nat ->
  push_addr (bytes16 AF_INET ++ bytes16 (htons port) ++ b ++ tail) len
  = lua_setfield "ipaddr" (lua_pushstring (inet_ntop AF_INET b))
      (lua_setfield "port" (LInt (to_u16 port))
         (lua_setfield "family" (LInt AF_INET) ∅)).
Proof.
  intros Hb. family_of AF_INET.
  rewrite (load16_after big_endian (bytes16 AF_INET)) by (rewrite length_bytes16; reflexivity).
  rewrite load16_bytes16 by apply htons_range.
  rewrite ntohs_htons.
  rewrite (List.app_assoc (bytes16 AF_INET)).
  rewrite load_bytes_after by (rewrite List.length_app, !length_bytes16; reflexivity).
  rewrite List.firstn_app, Hb, List.firstn_all2 by (rewrite Hb; reflexivity).
  simpl. rewrite List.app_nil_r. reflexivity.
Qed.

Lemma push_inet6_tail (port : Z) (b tail : list Z) (len : Z) :
  List.length b = 16%nat ->
  push_addr (bytes16 AF_INET6 ++ bytes16 (htons port) ++ zeros 4 ++ b ++ tail) len
  = lua_setfield "ipaddr" (lua_pushstring (inet_ntop AF_INET6 b))
      (lua_setfield "port" (LInt (to_u16 port))
         (lua_setfield "family" (LInt AF_INET6) ∅)).
Proof.
  intros Hb. family_of AF_INET6.
  rewrite (load16_after big_endian (bytes16 AF_INET6)) by (rewrite length_bytes16; reflexivity).
  rewrite load16_bytes16 by apply htons_range.
  rewrite ntohs_htons.
  rewrite (List.app_assoc (bytes16 AF_INET6)).
  rewrite (List.app_assoc (bytes16 AF_INET6 ++ _)).
  rewrite load_bytes_after
    by (rewrite !List.length_app, !length_bytes16, length_zeros; reflexivity).
  rewrite List.firstn_app, Hb, List.firstn_all2 by (rewrite Hb; reflexivity).
  simpl. rewrite List.app_nil_r. reflexivity.
Qed.

Lemma push_netlink_tail (pid : Z) (tail : list Z) (len : Z) :
  0 <= pid < 2 ^ 32 ->
  push_addr (bytes16 AF_NETLINK ++ [0; 0] ++ bytes32 pid ++ tail) len
  = lua_setfield "pid" (LInt pid) (lua_setfield "family" (LInt AF_NETLINK) ∅).
Proof.
  intros Hpid. family_of AF_NETLINK.
  rewrite (List.app_assoc (bytes16 AF_NETLINK)).
  rewrite (load32_after big_endian (bytes16 AF_NETLINK ++ [0; 0]))
    by (rewrite List.length_app, length_bytes16; reflexivity).
  rewrite load32_bytes32 by exact Hpid.
  reflexivity.
Qed.

(** The path of a UNIX address is counted, not terminated: the bytes of
    [sun_path] that the length covers, whatever they are. *)
Lemma push_unix_counted (p tail : list Z) :
  Z.of_nat (List.length p) <= sizeof_sun_path ->
  push_addr (bytes16 AF_UNIX ++ p ++ tail) (offsetof_sun_path + Z.of_nat (List.length p))
  = lua_setfield "path" (LStr (string_of_bytes p))
      (lua_setfield "family" (LInt AF_UNIX) ∅).
Proof.
  intros Hlen. unfold sizeof_sun_path in Hlen.
  family_of AF_UNIX.
  unfold lua_pushlstring, offsetof_sun_path.
  rewrite load_bytes_after by (rewrite length_bytes16; reflexivity).
  replace (to_size_t (to_u32 (2 + Z.of_nat (List.length p) - 2)))
    with (Z.of_nat (List.length p)).
  - rewrite Nat2Z.id, List.firstn_app, List.firstn_all, Nat.sub_diag.
    simpl. rewrite List.app_nil_r. reflexivity.
  - replace (2 + Z.of_nat (List.length p) - 2) with (Z.of_nat (List.length p)) by lia.
    unfold to_size_t, to_u32, wrap_unsigned.
    change (2 ^ 32) with 4294967296. change (2 ^ 64) with 18446744073709551616.
    rewrite (Z.mod_small (Z.of_nat (List.length p))) by lia.
    rewrite Z.mod_small by lia. reflexivity.
Qed.

(** An address the module encodes, written by the kernel into the
    receiving union, decodes to the record of the address. *)
Lemma decode_in_union (a : SocketAddress) (w : list Z * Z) :
  valid inet_pton inet_ntop a ->
  encode big_endian inet_pton a = Some w ->
  push_addr (store_bytes (zeros sizeof_addr_union) 0 (fst w)) (to_u32 (snd w))
  = record_of a.
Proof.
  unfold sizeof_addr_union.
  destruct a as [ip port | ip port | path | pid groups]; cbn [valid encode].
  - intros [Hport (b & Hpton & Hlen & Hntop)].
    unfold eco_socket_bind. cbv zeta. rewrite Hpton, bound_address_bind_common.
    intros [= <-]. cbn [fst snd].
    rewrite sockaddr_in_layout by exact Hlen.
    rewrite store_in_zeros
      by (rewrite !List.length_app, !length_bytes16, Hlen, length_zeros; simpl; lia).
    rewrite <- !List.app_assoc.
    rewrite push_inet_tail by exact Hlen.
    rewrite Hntop, port_int_u16 by exact Hport. reflexivity.
  - intros [Hport (b & Hpton & Hlen & Hntop)].
    unfold eco_socket_bind6. cbv zeta. rewrite Hpton, bound_address_bind_common.
    intros [= <-]. cbn [fst snd].
    rewrite sockaddr_in6_layout by exact Hlen.
    rewrite store_in_zeros
      by (rewrite !List.length_app, !length_bytes16, Hlen, !length_zeros; simpl; lia).
    rewrite <- !List.app_assoc.
    rewrite push_inet6_tail by exact Hlen.
    rewrite Hntop, port_int_u16 by exact Hport. reflexivity.
  - intros [Hnul Hlen]. pose proof (strlen_nonneg path) as Hnn.
    unfold eco_socket_bind_unix. cbv zeta.
    destruct (strlen path >=? sizeof_sun_path) eqn:E; [apply Z.geb_le in E; lia|].
    rewrite bound_address_bind_common.
    intros [= <-]. cbn [fst snd].
    rewrite SUN_LEN_path, sockaddr_un_path_layout by exact Hlen.
    unfold sizeof_sun_path, offsetof_sun_path in *.
    rewrite store_in_zeros.
    + rewrite <- !List.app_assoc.
      rewrite (to_u32_small (2 + strlen path)) by (change (2 ^ 32) with 4294967296; lia).
      rewrite (push_unix big_endian inet_ntop path) by exact Hlen.
      rewrite c_str_no_nul by exact Hnul. reflexivity.
    + rewrite !List.length_app, length_bytes16, length_bytes_of_string.
      simpl. rewrite length_zeros. unfold strlen in *. lia.
  - intros [Hpid Hgroups].
    unfold eco_socket_bind_nl. cbv zeta. rewrite bound_address_bind_common.
    intros [= <-]. cbn [fst snd default].
    rewrite sockaddr_nl_layout, !to_u32_small by assumption.
    rewrite store_in_zeros
      by (rewrite !List.length_app, length_bytes16, !length_bytes32; simpl; lia).
    rewrite <- !List.app_assoc.
    rewrite push_netlink_tail by exact Hpid. reflexivity.
Qed.

End KernelAddresses.

Lemma push_other_family (big_endian : bool) (inet_ntop : Z -> list Z -> option string)
    (addr : list Z) (len : Z) :
  other_family (load16 big_endian addr 0) ->
  push_socket_addr big_endian inet_ntop addr len
  = {[ "family"%string := LInt (load16 big_endian addr 0) ]}.
Proof.
  intros (Hnl & Hun & Hin & Hin6). unfold push_socket_addr. cbv zeta.
  apply Z.eqb_neq in Hnl, Hun, Hin, Hin6.
  rewrite Hnl, Hun, Hin, Hin6. reflexivity.
Qed.

Lemma encoded_length (big_endian : bool)
    (inet_pton : Z -> string -> option (list Z))
    (inet_ntop : Z -> list Z -> option string)
    (a : SocketAddress) (w : list Z * Z) :
  valid inet_pton inet_ntop a ->
  encode big_endian inet_pton a = Some w ->
  2 <= snd w <= 110.
Proof.
  destruct a as [ip port | ip port | path | pid groups]; cbn [valid encode].
  - intros [_ (b & Hpton & _)].
    unfold eco_socket_bind. cbv zeta. rewrite Hpton, bound_address_bind_common.
    intros [= <-]. simpl. unfold sizeof_sockaddr_in. lia.
  - intros [_ (b & Hpton & _)].
    unfold eco_socket_bind6. cbv zeta. rewrite Hpton, bound_address_bind_common.
    intros [= <-]. simpl. unfold sizeof_sockaddr_in6. lia.
  - intros [_ Hlen]. pose proof (strlen_nonneg path).
    unfold eco_socket_bind_unix. cbv zeta.
    destruct (strlen path >=? sizeof_sun_path) eqn:E; [apply Z.geb_le in E; lia|].
    rewrite bound_address_bind_common. intros [= <-]. cbn [snd].
    rewrite SUN_LEN_path by exact Hlen.
    unfold offsetof_sun_path, sizeof_sun_path in *. lia.
  - intros _. unfold eco_socket_bind_nl. cbv zeta. rewrite bound_address_bind_common.
    intros [= <-]. simpl. unfold sizeof_sockaddr_nl. lia.
Qed.

(** X1: when the kernel answers [getsockname] or [getpeername] with an
    address as the [bind] family encodes it, the caller gets one value,
    the record of that address. *)
Theorem getsockname_returns_bound_address
    (big_endian : bool)
    (inet_pton : Z -> string -> option (list Z))
    (inet_ntop : Z -> list Z -> option string)
    (strerror : Z -> string)
    (a : SocketAddress) (w : list Z * Z) (fd : Z) (r : reply) (env : list reply) :
  valid inet_pton inet_ntop a ->
  encode big_endian inet_pton a = Some w ->
  ret r = 0 -> out_addr r = fst w -> out_addrlen r = snd w ->
  values (eco_socket_getsockname big_endian inet_ntop strerror fd (r :: env))
    = [LTable (record_of a)] /\
  values (eco_socket_getpeername big_endian inet_ntop strerror fd (r :: env))
    = [LTable (record_of a)].
Proof.
  intros Hv He Hr Ha Hl.
  unfold values, eco_socket_getsockname, eco_socket_getpeername, call.
  cbn [logged outcome]. rewrite Hr, Ha, Hl.
  rewrite (decode_in_union big_endian inet_pton inet_ntop a w Hv He).
  split; reflexivity.
Qed.

Lemma getsockname_returns_bound_address_witness :
  values (eco_socket_getsockname false Libc.inet_ntop Libc.strerror 3
            [Reply 0 0 [] [2; 0; 31; 144; 127; 0; 0; 1; 0; 0; 0; 0; 0; 0; 0; 0] 16 0])
    = [LTable (record_of (Inet "127.0.0.1" 8080))].
Proof.
  assert (Hv : valid Libc.inet_pton Libc.inet_ntop (Inet "127.0.0.1" 8080)).
  { split; [lia|]. exists [127; 0; 0; 1]. repeat split; reflexivity. }
  exact (proj1 (getsockname_returns_bound_address false Libc.inet_pton Libc.inet_ntop
                  Libc.strerror (Inet "127.0.0.1" 8080)
                  ([2; 0; 31; 144; 127; 0; 0; 1; 0; 0; 0; 0; 0; 0; 0; 0], 16) 3
                  (Reply 0 0 [] [2; 0; 31; 144; 127; 0; 0; 1; 0; 0; 0; 0; 0; 0; 0; 0] 16 0) []
                  Hv eq_refl eq_refl eq_refl eq_refl)).
Defined.

(** X2: [accept] returns the new descriptor and, as second value, the
    record of the peer address the kernel stored with it. *)
Theorem accept_returns_descriptor_and_peer
    (big_endian : bool)
    (inet_pton : Z -> string -> option (list Z))
    (inet_ntop : Z -> list Z -> option string)
    (a : SocketAddress) (w : list Z * Z) (lfd : Z) (r : reply) (env : list reply) :
  valid inet_pton inet_ntop a ->
  encode big_endian inet_pton a = Some w ->
  0 <= ret r < 2 ^ 31 -> out_addr r = fst w -> out_addrlen r = snd w ->
  eco_socket_accept big_endian inet_ntop lfd (r :: env)
  = Run (Finished (Return [LInt (ret r); LTable (record_of a)]))
      [(SYS_accept4 (to_int lfd) sizeof_addr_union (Z.lor SOCK_NONBLOCK SOCK_CLOEXEC), r)]
      env.
Proof.
  intros Hv He Hr Ha Hl.
  unfold eco_socket_accept. cbn [eco_socket_accept_again].
  rewrite (to_int_small (ret r)) by (change (2 ^ 31) with 2147483648 in *; lia).
  destruct (Z.ltb_spec (ret r) 0) as [Hneg|_]; [lia|].
  rewrite Ha, Hl.
  rewrite (decode_in_union big_endian inet_pton inet_ntop a w Hv He).
  reflexivity.
Qed.

Lemma accept_returns_descriptor_and_peer_witness :
  eco_socket_accept true Libc.inet_ntop 3
    [Reply 7 0 [] [0; 2; 31; 144; 127; 0; 0; 1; 0; 0; 0; 0; 0; 0; 0; 0] 16 0]
  = Run (Finished (Return [LInt 7; LTable (record_of (Inet "127.0.0.1" 8080))]))
      [(SYS_accept4 (to_int 3) sizeof_addr_union (Z.lor SOCK_NONBLOCK SOCK_CLOEXEC),
        Reply 7 0 [] [0; 2; 31; 144; 127; 0; 0; 1; 0; 0; 0; 0; 0; 0; 0; 0] 16 0)]
      [].
Proof.
  assert (Hv : valid Libc.inet_pton Libc.inet_ntop (Inet "127.0.0.1" 8080)).
  { split; [lia|]. exists [127; 0; 0; 1]. repeat split; reflexivity. }
  assert (Hr : 0 <= 7 < 2 ^ 31) by (split; [lia | reflexivity]).
  exact (accept_returns_descriptor_and_peer true Libc.inet_pton Libc.inet_ntop
           (Inet "127.0.0.1" 8080)
           ([0; 2; 31; 144; 127; 0; 0; 1; 0; 0; 0; 0; 0; 0; 0; 0], 16) 3
           (Reply 7 0 [] [0; 2; 31; 144; 127; 0; 0; 1; 0; 0; 0; 0; 0; 0; 0; 0] 16 0) []
           Hv eq_refl Hr eq_refl eq_refl).
Defined.

(** X3: [recvfrom] returns the data alone when the kernel reports an
    address length of zero, and the data followed by the record of the
    sender when it reports an address the module encodes. *)
Theorem recvfrom_source_address
    (big_endian : bool)
    (inet_pton : Z -> string -> option (list Z))
    (inet_ntop : Z -> list Z -> option string)
    (strerror : Z -> string)
    (fd n : Z) (flags : option Z) (m r : reply) (env : list reply) :
  1 <= to_size_t n -> ret m <> 0 -> 0 <= ret r < 2 ^ 63 ->
  let data := received (to_size_t n) m r in
  (to_u32 (out_addrlen r) = 0 ->
     values (eco_socket_recvfrom big_endian inet_ntop strerror fd n flags (m :: r :: env))
       = [data]) /\
  (forall a w,
      valid inet_pton inet_ntop a ->
      encode big_endian inet_pton a = Some w ->
      out_addr r = fst w -> out_addrlen r = snd w ->
      values (eco_socket_recvfrom big_endian inet_ntop strerror fd n flags (m :: r :: env))
        = [data; LTable (record_of a)]).
Proof.
  intros Hn Hm Hr data.
  assert (Hrun : forall vs,
             (if negb (to_u32 (out_addrlen r) =? 0)
              then [data; LTable (push_socket_addr big_endian inet_ntop
                                    (store_bytes (zeros sizeof_addr_union) 0 (out_addr r))
                                    (to_u32 (out_addrlen r)))]
              else [data]) = vs ->
             values (eco_socket_recvfrom big_endian inet_ntop strerror fd n flags
                       (m :: r :: env)) = vs).
  { intros vs <-.
    unfold values, eco_socket_recvfrom, call. cbv zeta.
    destruct (Z.ltb_spec (to_size_t n) 1) as [Hlt|_]; [lia|].
    apply Z.eqb_neq in Hm. rewrite Hm.
    cbn -[wrap_signed to_u32 to_int to_size_t].
    rewrite wrap_signed_64_small by exact Hr.
    destruct (Z.ltb_spec (ret r) 0) as [Hneg|_]; [lia|].
    destruct (negb (to_u32 (out_addrlen r) =? 0)); reflexivity. }
  split.
  - intros H0. apply Hrun. rewrite H0. reflexivity.
  - intros a w Hv He Ha Hl. apply Hrun.
    pose proof (encoded_length big_endian inet_pton inet_ntop a w Hv He) as Hlen.
    rewrite Ha, Hl.
    rewrite (decode_in_union big_endian inet_pton inet_ntop a w Hv He).
    rewrite to_u32_small by (change (2 ^ 32) with 4294967296; lia).
    destruct (Z.eqb_spec (snd w) 0); [lia | reflexivity].
Qed.

Lemma recvfrom_source_address_witness :
  values (eco_socket_recvfrom false Libc.inet_ntop Libc.strerror 3 4 None
            [returning 1;
             Reply 2 0 [104; 105] [2; 0; 31; 144; 127; 0; 0; 1; 0; 0; 0; 0; 0; 0; 0; 0] 16 0])
    = [LStr "hi"; LTable (record_of (Inet "127.0.0.1" 8080))] /\
  values (eco_socket_recvfrom false Libc.inet_ntop Libc.strerror 3 4 None
            [returning 1; Reply 2 0 [104; 105] [] 0 0])
    = [LStr "hi"].
Proof.
  assert (Hv : valid Libc.inet_pton Libc.inet_ntop (Inet "127.0.0.1" 8080)).
  { split; [lia|]. exists [127; 0; 0; 1]. repeat split; reflexivity. }
  assert (H1 : 1 <= to_size_t 4) by (vm_compute; discriminate).
  assert (H2 : ret (returning 1) <> 0) by discriminate.
  assert (H3 : 0 <= 2 < 2 ^ 63) by (split; [lia | reflexivity]).
  split.
  - exact (proj2 (recvfrom_source_address false Libc.inet_pton Libc.inet_ntop Libc.strerror
                    3 4 None (returning 1)
                    (Reply 2 0 [104; 105] [2; 0; 31; 144; 127; 0; 0; 1; 0; 0; 0; 0; 0; 0; 0; 0] 16 0)
                    [] H1 H2 H3)
             (Inet "127.0.0.1" 8080)
             ([2; 0; 31; 144; 127; 0; 0; 1; 0; 0; 0; 0; 0; 0; 0; 0], 16)
             Hv eq_refl eq_refl eq_refl).
  - exact (proj1 (recvfrom_source_address false Libc.inet_pton Libc.inet_ntop Libc.strerror
                    3 4 None (returning 1) (Reply 2 0 [104; 105] [] 0 0) [] H1 H2 H3)
             eq_refl).
Defined.

Lemma load16_prefix (big_endian : bool) (w tail : list Z) :
  (2 <= List.length w)%nat ->
  load16 big_endian (w ++ tail) 0 = load16 big_endian w 0.
Proof.
  intros H. unfold load16, load_byte.
  rewrite !List.app_nth1; [reflexivity | |]; simpl; lia.
Qed.

(** X4: for an address of a family other than the four the module
    knows (AF_UNSPEC, AF_PACKET, ...), [getsockname] and [getpeername]
    return a record that holds the family and nothing else. *)
Theorem other_family_has_family_only
    (big_endian : bool)
    (inet_ntop : Z -> list Z -> option string)
    (strerror : Z -> string)
    (fd : Z) (r : reply) (env : list reply) :
  ret r = 0 ->
  (2 <= List.length (out_addr r) <= 112)%nat ->
  other_family (load16 big_endian (out_addr r) 0) ->
  values (eco_socket_getsockname big_endian inet_ntop strerror fd (r :: env))
    = [LTable {[ "family"%string := LInt (load16 big_endian (out_addr r) 0) ]}] /\
  values (eco_socket_getpeername big_endian inet_ntop strerror fd (r :: env))
    = [LTable {[ "family"%string := LInt (load16 big_endian (out_addr r) 0) ]}].
Proof.
  intros Hr Hlen Hother.
  unfold values, eco_socket_getsockname, eco_socket_getpeername, call.
  cbn [logged outcome]. rewrite Hr.
  unfold sizeof_addr_union.
  rewrite store_in_zeros by (simpl; lia).
  rewrite push_other_family; rewrite load16_prefix by lia; [|exact Hother].
  split; reflexivity.
Qed.

Lemma other_family_has_family_only_witness :
  values (eco_socket_getsockname false Libc.inet_ntop Libc.strerror 3
            [Reply 0 0 [] [17; 0; 8; 0; 2; 0; 0; 0] 8 0])
    = [LTable {[ "family"%string := LInt 17 ]}].
Proof.
  assert (H : other_family (load16 false [17; 0; 8; 0; 2; 0; 0; 0] 0))
    by (repeat split; discriminate).
  exact (proj1 (other_family_has_family_only false Libc.inet_ntop Libc.strerror 3
                  (Reply 0 0 [] [17; 0; 8; 0; 2; 0; 0; 0] 8 0) []
                  eq_refl ltac:(simpl; lia) H)).
Defined.

(** X5: the path of a UNIX address the kernel reports is returned by
    its counted length: the bytes of [sun_path] that the address length
    covers, NUL bytes included (the name of an abstract socket), and the
    empty string for an unnamed socket. *)
Theorem unix_path_is_counted
    (big_endian : bool)
    (inet_ntop : Z -> list Z -> option string)
    (strerror : Z -> string)
    (fd : Z) (p : list Z) (r : reply) (env : list reply) :
  byte_range p ->
  Z.of_nat (List.length p) <= sizeof_sun_path ->
  ret r = 0 ->
  out_addr r = bytes16 big_endian AF_UNIX ++ p ->
  out_addrlen r = offsetof_sun_path + Z.of_nat (List.length p) ->
  exists s,
    values (eco_socket_getsockname big_endian inet_ntop strerror fd (r :: env))
      = [LTable {[ "family"%string := LInt AF_UNIX; "path"%string := LStr s ]}] /\
    bytes_of_string s = p /\
    String.length s = List.length p.
Proof.
  intros Hp Hlen Hr Ha Hl. exists (string_of_bytes p).
  split; [|split].
  - unfold values, eco_socket_getsockname, call.
    cbn [logged outcome]. rewrite Hr, Ha, Hl.
    unfold sizeof_addr_union, sizeof_sun_path, offsetof_sun_path in *.
    rewrite store_in_zeros by (rewrite List.length_app, length_bytes16; simpl; lia).
    rewrite <- List.app_assoc.
    rewrite to_u32_small by (change (2 ^ 32) with 4294967296; lia).
    rewrite (push_unix_counted big_endian inet_ntop p) by exact Hlen.
    reflexivity.
  - apply bytes_of_string_of_bytes, Hp.
  - apply length_string_of_bytes.
Qed.

Lemma unix_path_is_counted_witness :
  exists s,
    values (eco_socket_getsockname false Libc.inet_ntop Libc.strerror 3
              [Reply 0 0 [] [1; 0; 0; 101; 99; 111] 6 0])
      = [LTable {[ "family"%string := LInt AF_UNIX; "path"%string := LStr s ]}] /\
    bytes_of_string s = [0; 101; 99; 111] /\
    String.length s = 4%nat.
Proof.
  assert (Hp : byte_range [0; 101; 99; 111]) by (repeat constructor; lia).
  exact (unix_path_is_counted false Libc.inet_ntop Libc.strerror 3 [0; 101; 99; 111]
           (Reply 0 0 [] [1; 0; 0; 101; 99; 111] 6 0) []
           Hp ltac:(simpl; unfold sizeof_sun_path; lia) eq_refl eq_refl eq_refl).
Defined.

(** ** The encoders of [connect] and [sendto] *)

Lemma peer_address_connect_common (fd : Z) (addr : list Z) (addrlen : Z)
    (r : reply) (env : list reply) :
  peer_address (eco_socket_connect_common fd addr addrlen (r :: env)) = Some (addr, addrlen).
Proof. unfold peer_address. rewrite trace_connect_common. reflexivity. Qed.

(** The first request of the [sendto] loop, whatever the replies. *)
Lemma head_sendto_common (strerror : Z -> string) (fd : Z) (data : string) (len : Z)
    (addr : list Z) (addrlen flags : Z) (r : reply) (env : list reply) :
  List.hd_error (trace (eco_socket_sendto_common strerror fd data len addr addrlen flags
                          (r :: env)))
  = Some (SYS_sendto fd data len flags addr addrlen).
Proof. reflexivity. Qed.

Lemma peer_address_sendto_common (strerror : Z -> string) (fd : Z) (data : string) (len : Z)
    (addr : list Z) (addrlen flags : Z) (env : list reply) :
  peer_address (eco_socket_sendto_common strerror fd data len addr addrlen flags
                  (returning 0 :: env))
  = Some (addr, addrlen).
Proof. reflexivity. Qed.

Lemma to_int_congruent (x : Z) : (to_int x) mod 2 ^ 32 = x mod 2 ^ 32.
Proof.
  unfold to_int, wrap_signed.
  change (2 ^ 32) with 4294967296. change (2 ^ (32 - 1)) with 2147483648.
  destruct (Z.ltb_spec (x mod 4294967296) 2147483648); zdm.
Qed.

Lemma to_u32_to_int (x : Z) : to_u32 (to_int x) = x mod 2 ^ 32.
Proof. unfold to_u32, wrap_unsigned. apply to_int_congruent. Qed.

Lemma to_u16_to_int (x : Z) : to_u16 (to_int x) = x mod 65536.
Proof.
  pose proof (to_int_congruent x) as H. change (2 ^ 32) with 4294967296 in H.
  unfold to_u16, wrap_unsigned. change (2 ^ 16) with 65536. zdm.
Qed.

Lemma zeros_cons (n : Z) : 0 < n -> zeros n = 0 :: zeros (n - 1).
Proof.
  intros H. unfold zeros.
  replace (Z.to_nat n) with (S (Z.to_nat (n - 1))) by lia. reflexivity.
Qed.

(** The length of a C string in memory stops at the first NUL of the
    bytes copied, or at the zero byte that follows them. *)
Lemma mem_strlen_counted (s : string) (tail : list Z) :
  mem_strlen (bytes_of_string s ++ 0 :: tail) = strlen s.
Proof.
  unfold strlen, bytes_of_string.
  induction s as [|c s IH]; simpl; [reflexivity|].
  destruct (Ascii.eqb_spec c NUL) as [->|Hc]; simpl; [reflexivity|].
  destruct (Z.eqb_spec (byte_of_char c) 0) as [H0|_].
  - exfalso. apply Hc, byte_of_char_zero, H0.
  - rewrite IH. lia.
Qed.

Section PeerEncoders.

Variable big_endian : bool.
Variable inet_pton : Z -> string -> option (list Z).
Variable inet_ntop : Z -> list Z -> option string.
Variable strerror : Z -> string.

(** [memcpy] of a counted path that fits copies all its bytes. *)
Lemma sockaddr_un_memcpy_layout (path : string) :
  Z.of_nat (String.length path) < sizeof_sun_path ->
  memcpy (sockaddr_un_init big_endian) offsetof_sun_path path
  = bytes16 big_endian AF_UNIX ++ bytes_of_string path
      ++ 0 :: zeros (sizeof_sun_path - Z.of_nat (String.length path) - 1).
Proof.
  intros Hlen. unfold memcpy. rewrite sockaddr_un_layout.
  unfold sizeof_sun_path in *.
  rewrite store_bytes_after.
  - do 2 f_equal. rewrite length_bytes_of_string, skipn_zeros.
    rewrite <- zeros_cons by lia. reflexivity.
  - rewrite length_bytes16. reflexivity.
  - rewrite length_bytes_of_string, length_zeros. lia.
Qed.

Lemma SUN_LEN_memcpy (path : string) :
  Z.of_nat (String.length path) < sizeof_sun_path ->
  SUN_LEN (memcpy (sockaddr_un_init big_endian) offsetof_sun_path path)
  = offsetof_sun_path + strlen path.
Proof.
  intros Hlen. rewrite sockaddr_un_memcpy_layout by exact Hlen.
  unfold SUN_LEN. f_equal.
  rewrite List.skipn_app, List.skipn_all2 by (rewrite length_bytes16; reflexivity).
  rewrite length_bytes16. simpl. apply mem_strlen_counted.
Qed.

End PeerEncoders.

(** X6: for every valid address, [connect] and [sendto] of its family
    hand the kernel one and the same address, and that address decodes
    to the record of the address (for Netlink with the pid, neither
    function taking groups). *)
Theorem connect_and_sendto_encode_alike
    (big_endian : bool)
    (inet_pton : Z -> string -> option (list Z))
    (inet_ntop : Z -> list Z -> option string)
    (strerror : Z -> string)
    (a : SocketAddress) (data : string) :
  valid inet_pton inet_ntop a ->
  exists w,
    connect_address big_endian inet_pton a = Some w /\
    sendto_address big_endian inet_pton strerror a data = Some w /\
    decode big_endian inet_ntop w = record_of a.
Proof.
  destruct a as [ip port | ip port | path | pid groups];
    cbn [valid connect_address sendto_address].
  - intros [Hport (b & Hpton & Hlen & Hntop)].
    unfold eco_socket_connect, eco_socket_sendto. cbv zeta.
    rewrite Hpton, peer_address_connect_common, peer_address_sendto_common.
    eexists. split; [reflexivity|]. split; [reflexivity|].
    unfold decode. cbn [fst snd].
    rewrite sockaddr_in_layout, push_inet by exact Hlen.
    rewrite Hntop, port_int_u16 by exact Hport. reflexivity.
  - intros [Hport (b & Hpton & Hlen & Hntop)].
    unfold eco_socket_connect6, eco_socket_sendto6. cbv zeta.
    rewrite Hpton, peer_address_connect_common, peer_address_sendto_common.
    eexists. split; [reflexivity|]. split; [reflexivity|].
    unfold decode. cbn [fst snd].
    rewrite sockaddr_in6_layout, push_inet6 by exact Hlen.
    rewrite Hntop, port_int_u16 by exact Hport. reflexivity.
  - intros [Hnul Hlen].
    assert (Hcount : Z.of_nat (String.length path) = strlen path)
      by (unfold strlen; rewrite c_str_no_nul by exact Hnul; reflexivity).
    unfold eco_socket_connect_unix, eco_socket_sendto_unix. cbv zeta.
    rewrite Hcount.
    destruct (strlen path >=? sizeof_sun_path) eqn:E; [apply Z.geb_le in E; lia|].
    rewrite peer_address_connect_common, peer_address_sendto_common.
    rewrite SUN_LEN_path, sockaddr_un_path_layout by exact Hlen.
    rewrite SUN_LEN_memcpy, sockaddr_un_memcpy_layout by (rewrite Hcount; exact Hlen).
    rewrite Hcount, c_str_no_nul by exact Hnul.
    eexists. split; [reflexivity|]. split; [reflexivity|].
    unfold decode. cbn [fst snd].
    rewrite <- (c_str_no_nul path Hnul) at 1.
    rewrite push_unix by exact Hlen.
    rewrite c_str_no_nul by exact Hnul. reflexivity.
  - intros [Hpid Hgroups].
    unfold eco_socket_connect_nl, eco_socket_sendto_nl. cbv zeta.
    rewrite peer_address_connect_common. cbn [default].
    rewrite peer_address_sendto_common.
    eexists. split; [reflexivity|]. split; [reflexivity|].
    unfold decode. cbn [fst snd].
    rewrite sockaddr_nl_layout, to_u32_to_int.
    rewrite Z.mod_small by exact Hpid.
    rewrite push_netlink by exact Hpid. reflexivity.
Qed.

Lemma connect_and_sendto_encode_alike_witness :
  exists w,
    connect_address true Libc.inet_pton (Unix "/tmp/eco.sock") = Some w /\
    sendto_address true Libc.inet_pton Libc.strerror (Unix "/tmp/eco.sock") "ping" = Some w /\
    decode true Libc.inet_ntop w = record_of (Unix "/tmp/eco.sock").
Proof.
  assert (Hv : valid Libc.inet_pton Libc.inet_ntop (Unix "/tmp/eco.sock")).
  { split; [repeat split; discriminate | reflexivity]. }
  exact (connect_and_sendto_encode_alike true Libc.inet_pton Libc.inet_ntop Libc.strerror
           (Unix "/tmp/eco.sock") "ping" Hv).
Defined.

(** X7: a port outside 0..65535 and a netlink pid outside 32 bits are
    not rejected: the address is encoded with the port reduced modulo
    65536, respectively the pid reduced modulo 2^32, and decodes to the
    record of that reduced address. *)
Theorem port_and_pid_wrap_around
    (big_endian : bool)
    (inet_pton : Z -> string -> option (list Z))
    (inet_ntop : Z -> list Z -> option string) :
  (forall ip port,
      canonical_text inet_pton inet_ntop AF_INET 4 ip ->
      exists w, encode big_endian inet_pton (Inet ip port) = Some w /\
                decode big_endian inet_ntop w = record_of (Inet ip (port mod 65536))) /\
  (forall ip port,
      canonical_text inet_pton inet_ntop AF_INET6 16 ip ->
      exists w, encode big_endian inet_pton (Inet6 ip port) = Some w /\
                decode big_endian inet_ntop w = record_of (Inet6 ip (port mod 65536))) /\
  (forall pid groups,
      exists w, encode big_endian inet_pton (Netlink pid groups) = Some w /\
                decode big_endian inet_ntop w = record_of (Netlink (pid mod 2 ^ 32) groups)).
Proof.
  split; [|split].
  - intros ip port (b & Hpton & Hlen & Hntop). cbn [encode].
    unfold eco_socket_bind. cbv zeta. rewrite Hpton, bound_address_bind_common.
    eexists. split; [reflexivity|]. unfold decode. cbn [fst snd].
    rewrite sockaddr_in_layout, push_inet by exact Hlen.
    rewrite Hntop, to_u16_to_int. reflexivity.
  - intros ip port (b & Hpton & Hlen & Hntop). cbn [encode].
    unfold eco_socket_bind6. cbv zeta. rewrite Hpton, bound_address_bind_common.
    eexists. split; [reflexivity|]. unfold decode. cbn [fst snd].
    rewrite sockaddr_in6_layout, push_inet6 by exact Hlen.
    rewrite Hntop, to_u16_to_int. reflexivity.
  - intros pid groups. cbn [encode].
    unfold eco_socket_bind_nl. cbv zeta. rewrite bound_address_bind_common.
    eexists. split; [reflexivity|]. unfold decode. cbn [fst snd default].
    rewrite sockaddr_nl_layout.
    rewrite push_netlink
      by (unfold to_u32, wrap_unsigned; change (2 ^ 32) with 4294967296; zdm).
    reflexivity.
Qed.

Lemma port_and_pid_wrap_around_witness :
  canonical_text Libc.inet_pton Libc.inet_ntop AF_INET 4 "10.0.0.1" /\
  exists w, encode false Libc.inet_pton (Inet "10.0.0.1" 65616) = Some w /\
            decode false Libc.inet_ntop w = record_of (Inet "10.0.0.1" 80).
Proof.
  assert (H : canonical_text Libc.inet_pton Libc.inet_ntop AF_INET 4 "10.0.0.1").
  { exists [10; 0; 0; 1]. repeat split; reflexivity. }
  split; [exact H|].
  exact (proj1 (port_and_pid_wrap_around false Libc.inet_pton Libc.inet_ntop)
           "10.0.0.1"%string 65616 H).
Defined.

(** X8: [sendto_unix] checks the counted length of the path: a path of
    108 bytes or more raises "path too long" (as argument 2) and no call
    is made.  A shorter path is copied whole, but the address length
    passed with it is [SUN_LEN], which ends at the first NUL byte: for a
    name that begins with NUL the length covers the family only. *)
Theorem sendto_unix_path_rules
    (big_endian : bool) (strerror : Z -> string)
    (fd : Z) (data path : string) (flags : option Z) :
  (sizeof_sun_path <= Z.of_nat (String.length path) ->
     forall env,
       eco_socket_sendto_unix big_endian strerror fd data path flags env
       = Run (Finished (ArgError 2 "path too long")) [] env) /\
  (Z.of_nat (String.length path) < sizeof_sun_path ->
     forall r env,
       List.hd_error
         (trace (eco_socket_sendto_unix big_endian strerror fd data path flags (r :: env)))
       = Some (SYS_sendto (to_int fd) data (Z.of_nat (String.length data))
                 (to_int (default 0 flags))
                 (bytes16 big_endian AF_UNIX ++ bytes_of_string path
                    ++ zeros (sizeof_sun_path - Z.of_nat (String.length path)))
                 (offsetof_sun_path + strlen path))).
Proof.
  split; intros Hlen.
  - intros env. unfold eco_socket_sendto_unix. cbv zeta.
    destruct (Z.of_nat (String.length path) >=? sizeof_sun_path) eqn:E; [reflexivity|].
    exfalso. pose proof (proj2 (Z.geb_le _ _) Hlen) as E'. congruence.
  - intros r env. unfold eco_socket_sendto_unix. cbv zeta.
    destruct (Z.of_nat (String.length path) >=? sizeof_sun_path) eqn:E;
      [apply Z.geb_le in E; lia|].
    rewrite head_sendto_common.
    rewrite SUN_LEN_memcpy, sockaddr_un_memcpy_layout by exact Hlen.
    rewrite <- zeros_cons by lia. reflexivity.
Qed.

Lemma sendto_unix_path_rules_witness :
  List.hd_error
    (trace (eco_socket_sendto_unix false Libc.strerror 3 "ping"
              (String NUL "eco") None [returning 4]))
  = Some (SYS_sendto (to_int 3) "ping" 4 (to_int (default 0 None))
            (bytes16 false AF_UNIX ++ bytes_of_string (String NUL "eco")
               ++ zeros (sizeof_sun_path - 4))
            2) /\
  eco_socket_sendto_unix false Libc.strerror 3 "ping" (string_repeat "a" 108) None []
  = Run (Finished (ArgError 2 "path too long")) [] [].
Proof.
  split.
  - exact (proj2 (sendto_unix_path_rules false Libc.strerror 3 "ping" (String NUL "eco") None)
             ltac:(vm_compute; reflexivity) (returning 4) []).
  - exact (proj1 (sendto_unix_path_rules false Libc.strerror 3 "ping"
                    (string_repeat "a" 108) None)
             ltac:(vm_compute; discriminate) []).
Defined.

(** ** Registered options *)

Lemma strcmp_same (a : string) : no_nul a -> strcmp a a = 0.
Proof. intros H. apply (strcmp_eq a a H H). reflexivity. Qed.

(** In a table of distinct names, each entry is found under its name. *)
Lemma find_opt_found (tbl : list sock_opt) (e : sock_opt) :
  Forall (fun e => no_nul (name e)) tbl ->
  List.NoDup (option_names tbl) ->
  In e tbl ->
  find_opt (name e) tbl = Some (func e).
Proof.
  intros Hnul. induction Hnul as [|h tl Hh Htl IH]; simpl; [contradiction|].
  intros Hdup [->|Hin].
  - rewrite strcmp_same by exact Hh. reflexivity.
  - apply List.NoDup_cons_iff in Hdup. destruct Hdup as [Hnotin Hdup].
    assert (Hne : name e <> name h).
    { intros Heq. apply Hnotin. rewrite <- Heq.
      unfold option_names. apply List.in_map, Hin. }
    assert (He : no_nul (name e)).
    { rewrite List.Forall_forall in Htl. apply Htl, Hin. }
    destruct (Z.eqb_spec (strcmp (name e) (name h)) 0) as [H0|_]; simpl.
    + exfalso. apply Hne. apply (strcmp_eq (name e) (name h)); assumption.
    + apply IH; assumption.
Qed.

Section Registry.

Variable big_endian : bool.
Variable strerror : Z -> string.
Variable lua_str2number : string -> str_number.

Local Abbreviation optget := (optget strerror).
Local Abbreviation optset := (optset big_endian strerror lua_str2number).
Local Abbreviation setoption := (eco_socket_setoption big_endian strerror lua_str2number).
Local Abbreviation getoption := (eco_socket_getoption strerror).

Lemma optget_names_distinct : List.NoDup (option_names optget).
Proof.
  repeat (apply List.NoDup_cons;
          [simpl; intros H; repeat (destruct H as [H|H]; [discriminate H|]); exact H|]).
  apply List.NoDup_nil.
Qed.

Lemma optset_names_distinct : List.NoDup (option_names optset).
Proof.
  repeat (apply List.NoDup_cons;
          [simpl; intros H; repeat (destruct H as [H|H]; [discriminate H|]); exact H|]).
  apply List.NoDup_nil.
Qed.

Lemma trace_opt_set (fd level nm : Z) (val : list Z) (len : Z) (r : reply) (env : list reply) :
  trace (opt_set strerror fd level nm val len (r :: env))
  = [SYS_setsockopt fd level nm val len].
Proof. unfold opt_set, call, trace. destruct (_ <? 0); reflexivity. Qed.


End Registry.

(** X9: every name of the two option tables reaches the handler
    registered with it: [getoption] and [setoption] called with the name
    of an entry run that entry's function on the descriptor. *)
Theorem registered_option_is_dispatched
    (big_endian : bool) (strerror : Z -> string) (lua_str2number : string -> str_number)
    (fd : Z) (arg : lua_value) (env : list reply) (e : sock_opt) :
  (In e (optget strerror) ->
     eco_socket_getoption strerror fd (name e) env = func e (to_int fd) LNil env) /\
  (In e (optset big_endian strerror lua_str2number) ->
     eco_socket_setoption big_endian strerror lua_str2number fd (name e) arg env
     = func e (to_int fd) arg env).
Proof.
  split; intros Hin.
  - unfold eco_socket_getoption. cbv zeta.
    rewrite find_opt_found;
      [reflexivity | apply optget_names_no_nul | apply optget_names_distinct | exact Hin].
  - unfold eco_socket_setoption. cbv zeta.
    rewrite find_opt_found;
      [reflexivity | apply optset_names_no_nul | apply optset_names_distinct | exact Hin].
Qed.

Lemma registered_option_is_dispatched_witness :
  eco_socket_setoption false Libc.strerror Libc.lua_str2number 3 "tcp_keepcnt" (LInt 5)
    [returning 0]
  = opt_set_tcp_keepcnt false Libc.strerror Libc.lua_str2number (to_int 3) (LInt 5) [returning 0].
Proof.
  exact (proj2 (registered_option_is_dispatched false Libc.strerror Libc.lua_str2number 3
                  (LInt 5) [returning 0]
                  (SockOpt "tcp_keepcnt"
                     (opt_set_tcp_keepcnt false Libc.strerror Libc.lua_str2number)))
           ltac:(simpl; tauto)).
Defined.

(** X10: the five boolean options take a Lua boolean only: any other
    value, the absent one included, raises the error "boolean expected,
    got <type>" for argument 3 and no call is made; [true] and [false]
    are passed to [setsockopt] as the 4-byte integers 1 and 0, at the
    level and under the option of the name. *)
Theorem boolean_options_are_strict
    (big_endian : bool) (strerror : Z -> string) (lua_str2number : string -> str_number)
    (fd : Z) (nm : string) (level opt : Z) :
  In (nm, (level, opt)) boolean_options ->
  (forall arg env,
      is_boolean arg = false ->
      eco_socket_setoption big_endian strerror lua_str2number fd nm arg env
      = Run (Finished (ArgError 3 ("boolean expected, got " ++ luaL_typename arg))) [] env) /\
  (forall b r env,
      trace (eco_socket_setoption big_endian strerror lua_str2number fd nm (LBool b) (r :: env))
      = [SYS_setsockopt (to_int fd) level opt
           (bytes32 big_endian (if b then 1 else 0)) 4]).
Proof.
  intros Hin. simpl in Hin.
  repeat (destruct Hin as [Hin|Hin]; [injection Hin as <- <- <-|]); try contradiction.
  all: split;
    [ intros arg env Harg; destruct arg; try discriminate Harg; reflexivity
    | intros b r env;
      match goal with
      | |- _ = [SYS_setsockopt ?f ?l ?o ?v ?n] =>
          exact (trace_opt_set strerror f l o v n r env)
      end ].
Qed.

Lemma boolean_options_are_strict_witness :
  In ("tcp_nodelay"%string, (IPPROTO_TCP, TCP_NODELAY)) boolean_options /\
  eco_socket_setoption false Libc.strerror Libc.lua_str2number 3 "tcp_nodelay" (LInt 1)
    [returning 0]
  = Run (Finished (ArgError 3 "boolean expected, got number")) [] [returning 0] /\
  trace (eco_socket_setoption false Libc.strerror Libc.lua_str2number 3 "tcp_nodelay"
           (LBool true) [returning 0])
  = [SYS_setsockopt (to_int 3) IPPROTO_TCP TCP_NODELAY (bytes32 false 1) 4].
Proof.
  assert (Hin : In ("tcp_nodelay"%string, (IPPROTO_TCP, TCP_NODELAY)) boolean_options)
    by (simpl; tauto).
  pose proof (boolean_options_are_strict false Libc.strerror Libc.lua_str2number 3
                "tcp_nodelay" IPPROTO_TCP TCP_NODELAY Hin) as [Hbad Hok].
  split; [exact Hin | split].
  - exact (Hbad (LInt 1) [returning 0] eq_refl).
  - exact (Hok true (returning 0) []).
Defined.





(** X13: [getoption "error"] always returns one integer: the pending
    error the kernel reports when the query succeeds, and [errno] when
    the query itself fails, so that the two cases cannot be told apart;
    [getoption "reuseaddr"] returns whether the stored integer is
    non-zero, and nil with the message when the query fails. *)
Theorem getoption_results
    (strerror : Z -> string) (fd : Z) (r : reply) (env : list reply) :
  trace (eco_socket_getoption strerror fd "error" (r :: env))
    = [SYS_getsockopt (to_int fd) SOL_SOCKET SO_ERROR 4] /\
  trace (eco_socket_getoption strerror fd "reuseaddr" (r :: env))
    = [SYS_getsockopt (to_int fd) SOL_SOCKET SO_REUSEADDR 4] /\
  (to_int (ret r) < 0 ->
     values (eco_socket_getoption strerror fd "error" (r :: env)) = [LInt (errno r)] /\
     values (eco_socket_getoption strerror fd "reuseaddr" (r :: env))
       = [LNil; LStr (strerror (errno r))]) /\
  (0 <= to_int (ret r) ->
     values (eco_socket_getoption strerror fd "error" (r :: env))
       = [LInt (to_int (out_int r))] /\
     values (eco_socket_getoption strerror fd "reuseaddr" (r :: env))
       = [LBool (negb (to_int (out_int r) =? 0))]) /\
  (forall r',
      to_int (ret r) < 0 -> 0 <= to_int (ret r') -> to_int (out_int r') = errno r ->
      values (eco_socket_getoption strerror fd "error" (r :: env))
      = values (eco_socket_getoption strerror fd "error" (r' :: env))).
Proof.
  change (eco_socket_getoption strerror fd "error")
    with (opt_get_error (to_int fd)).
  change (eco_socket_getoption strerror fd "reuseaddr")
    with (opt_get_reuseaddr strerror (to_int fd)).
  unfold opt_get_error, opt_get_reuseaddr, opt_getboolean, call, trace, values.
  cbn [logged outcome log List.map fst].
  split; [reflexivity|].
  split; [destruct (to_int (ret r) <? 0); reflexivity|].
  split; [|split].
  - intros Hneg. apply Z.ltb_lt in Hneg. rewrite Hneg. split; reflexivity.
  - intros Hpos. apply Z.ltb_ge in Hpos. rewrite Hpos. split; reflexivity.
  - intros r' Hneg Hpos Heq.
    apply Z.ltb_lt in Hneg. apply Z.ltb_ge in Hpos.
    rewrite Hneg, Hpos, Heq. reflexivity.
Qed.

Lemma getoption_results_witness :
  to_int (ret (failing ECONNREFUSED)) < 0 /\
  0 <= to_int (ret (Reply 0 0 [] [] 0 ECONNREFUSED)) /\
  values (eco_socket_getoption Libc.strerror 3 "error" [failing ECONNREFUSED])
  = values (eco_socket_getoption Libc.strerror 3 "error" [Reply 0 0 [] [] 0 ECONNREFUSED]).
Proof.
  assert (H1 : to_int (ret (failing ECONNREFUSED)) < 0) by reflexivity.
  assert (H2 : 0 <= to_int (ret (Reply 0 0 [] [] 0 ECONNREFUSED)))
    by (vm_compute; discriminate).
  split; [exact H1 | split; [exact H2|]].
  exact (proj2 (proj2 (proj2 (proj2
           (getoption_results Libc.strerror 3 (failing ECONNREFUSED) []))))
           (Reply 0 0 [] [] 0 ECONNREFUSED) H1 H2 eq_refl).
Defined.

(** X14: the two tables differ: of the options that can be set only
    [reuseaddr] can be read, every other one being unsupported for
    [getoption]; and [error], which can be read, is unsupported for
    [setoption]. *)
Theorem get_and_set_tables_differ
    (big_endian : bool) (strerror : Z -> string) (lua_str2number : string -> str_number)
    (fd : Z) (arg : lua_value) (env : list reply) :
  (forall nm,
      In nm (option_names (optset big_endian strerror lua_str2number)) ->
      nm <> "reuseaddr"%string ->
      eco_socket_getoption strerror fd nm env
      = Run (Finished (ArgError 2 ("unsupported option '" ++ nm ++ "'")%string)) [] env) /\
  eco_socket_setoption big_endian strerror lua_str2number fd "error" arg env
  = Run (Finished (ArgError 2 "unsupported option 'error'")) [] env.
Proof.
  split; [|reflexivity].
  intros nm Hin Hne. simpl in Hin.
  repeat (destruct Hin as [<-|Hin]; [try reflexivity; contradiction|]).
  contradiction.
Qed.

Lemma get_and_set_tables_differ_witness :
  In "tcp_nodelay"%string (option_names (optset false Libc.strerror Libc.lua_str2number)) /\
  "tcp_nodelay"%string <> "reuseaddr"%string /\
  eco_socket_getoption Libc.strerror 3 "tcp_nodelay" [returning 0]
  = Run (Finished (ArgError 2 "unsupported option 'tcp_nodelay'")) [] [returning 0].
Proof.
  assert (H1 : In "tcp_nodelay"%string
                 (option_names (optset false Libc.strerror Libc.lua_str2number)))
    by (simpl; tauto).
  assert (H2 : "tcp_nodelay"%string <> "reuseaddr"%string) by discriminate.
  split; [exact H1 | split; [exact H2|]].
  exact (proj1 (get_and_set_tables_differ false Libc.strerror Libc.lua_str2number 3 LNil
                  [returning 0]) "tcp_nodelay"%string H1 H2).
Defined.

(** ** Text addresses *)

(** X15: the checks [is_ipv4_address] and [is_ipv6_address] agree with
    the encoders: a text they answer [false] for makes [bind],
    [connect] and [sendto] of that family raise the invalid-address
    error without a call, and a text they answer [true] for is accepted
    by all three, which then pass one and the same address. *)
Theorem address_check_agrees_with_encoders
    (big_endian : bool) (inet_pton_r : Z -> string -> pton_result)
    (strerror : Z -> string)
    (fd : Z) (ip data : string) (port : Z) (flags : option Z) :
  let inet_pton := inet_pton_1 inet_pton_r in
  (eco_socket_is_ipv4_address inet_pton_r ip = Return [LBool false] ->
     forall env,
       let refused := Run (Finished (ArgError 2 "not a valid IPv4 address")) [] env in
       eco_socket_bind big_endian inet_pton fd (Some ip) port env = refused /\
       eco_socket_connect big_endian inet_pton fd ip port env = refused /\
       eco_socket_sendto big_endian inet_pton strerror fd data ip port flags env = refused) /\
  (eco_socket_is_ipv4_address inet_pton_r ip = Return [LBool true] ->
     forall r env,
     exists addr,
       trace (eco_socket_bind big_endian inet_pton fd (Some ip) port (r :: env))
         = [SYS_bind (to_int fd) addr sizeof_sockaddr_in] /\
       trace (eco_socket_connect big_endian inet_pton fd ip port (r :: env))
         = [SYS_connect (to_int fd) addr sizeof_sockaddr_in] /\
       List.hd_error
         (trace (eco_socket_sendto big_endian inet_pton strerror fd data ip port flags
                   (r :: env)))
         = Some (SYS_sendto (to_int fd) data (Z.of_nat (String.length data))
                   (to_int (default 0 flags)) addr sizeof_sockaddr_in)) /\
  (eco_socket_is_ipv6_address inet_pton_r ip = Return [LBool false] ->
     forall env,
       let refused := Run (Finished (ArgError 2 "not a valid IPv6 address")) [] env in
       eco_socket_bind6 big_endian inet_pton fd (Some ip) port env = refused /\
       eco_socket_connect6 big_endian inet_pton fd ip port env = refused /\
       eco_socket_sendto6 big_endian inet_pton strerror fd data ip port flags env = refused) /\
  (eco_socket_is_ipv6_address inet_pton_r ip = Return [LBool true] ->
     forall r env,
     exists addr,
       trace (eco_socket_bind6 big_endian inet_pton fd (Some ip) port (r :: env))
         = [SYS_bind (to_int fd) addr sizeof_sockaddr_in6] /\
       trace (eco_socket_connect6 big_endian inet_pton fd ip port (r :: env))
         = [SYS_connect (to_int fd) addr sizeof_sockaddr_in6] /\
       List.hd_error
         (trace (eco_socket_sendto6 big_endian inet_pton strerror fd data ip port flags
                   (r :: env)))
         = Some (SYS_sendto (to_int fd) data (Z.of_nat (String.length data))
                   (to_int (default 0 flags)) addr sizeof_sockaddr_in6)).
Proof.
  intros inet_pton.
  unfold eco_socket_is_ipv4_address, eco_socket_is_ipv6_address.
  unfold eco_socket_bind, eco_socket_connect, eco_socket_sendto,
    eco_socket_bind6, eco_socket_connect6, eco_socket_sendto6.
  subst inet_pton. unfold inet_pton_1. cbv zeta.
  split; [|split; [|split]].
  - destruct (inet_pton_r AF_INET (c_str ip)); [discriminate | |];
      intros _ env; repeat split.
  - destruct (inet_pton_r AF_INET (c_str ip)); [|discriminate|discriminate].
    intros _ r env. eexists.
    rewrite trace_bind_common, trace_connect_common, head_sendto_common.
    repeat split.
  - destruct (inet_pton_r AF_INET6 (c_str ip)); [discriminate | |];
      intros _ env; repeat split.
  - destruct (inet_pton_r AF_INET6 (c_str ip)); [|discriminate|discriminate].
    intros _ r env. eexists.
    rewrite trace_bind_common, trace_connect_common, head_sendto_common.
    repeat split.
Qed.

Lemma address_check_agrees_with_encoders_witness :
  eco_socket_is_ipv4_address LibcText.inet_pton_r "300.1.1.1" = Return [LBool false] /\
  eco_socket_is_ipv4_address LibcText.inet_pton_r "10.0.0.1" = Return [LBool true] /\
  eco_socket_connect false (inet_pton_1 LibcText.inet_pton_r) 3 "300.1.1.1" 80 [returning 0]
  = Run (Finished (ArgError 2 "not a valid IPv4 address")) [] [returning 0] /\
  exists addr,
    trace (eco_socket_bind false (inet_pton_1 LibcText.inet_pton_r) 3 (Some "10.0.0.1"%string)
             80 [returning 0])
      = [SYS_bind (to_int 3) addr sizeof_sockaddr_in] /\
    trace (eco_socket_connect false (inet_pton_1 LibcText.inet_pton_r) 3 "10.0.0.1" 80
             [returning 0])
      = [SYS_connect (to_int 3) addr sizeof_sockaddr_in].
Proof.
  assert (H1 : eco_socket_is_ipv4_address LibcText.inet_pton_r "300.1.1.1"
               = Return [LBool false]) by reflexivity.
  assert (H2 : eco_socket_is_ipv4_address LibcText.inet_pton_r "10.0.0.1"
               = Return [LBool true]) by reflexivity.
  split; [exact H1 | split; [exact H2 | split]].
  - exact (proj1 (proj2 (proj1
             (address_check_agrees_with_encoders false LibcText.inet_pton_r Libc.strerror
                3 "300.1.1.1" "" 80 None) H1 [returning 0]))).
  - destruct (proj1 (proj2
             (address_check_agrees_with_encoders false LibcText.inet_pton_r Libc.strerror
                3 "10.0.0.1" "" 80 None)) H2 (returning 0) []) as (addr & Hb & Hc & _).
    exists addr. split; [exact Hb | exact Hc].
Defined.

Lemma bytes32_load32 (big_endian : bool) (b : list Z) :
  List.length b = 4%nat -> byte_range b ->
  bytes32 big_endian (load32 big_endian b 0) = b /\
  0 <= load32 big_endian b 0 < 2 ^ 32.
Proof.
  intros Hlen Hb. do 5 (destruct b as [|? b]; try discriminate Hlen).
  unfold byte_range in Hb.
  repeat match goal with
    | H : Forall _ (_ :: _) |- _ => apply List.Forall_cons_iff in H; destruct H
    end.
  change (2 ^ 32) with 4294967296.
  unfold bytes32, load32, load_byte. destruct big_endian; simpl.
  all: split; [repeat f_equal; zdm | lia].
Qed.

(** X16: [inet_aton] returns 0 for a text the library rejects, the
    value of the zero-initialised address; for a text it accepts, the
    number returned, given to [inet_ntoa], makes the library print the
    four bytes that were parsed, on either byte order. *)
Theorem inet_aton_then_inet_ntoa
    (big_endian : bool)
    (inet_aton : string -> option (list Z)) (inet_ntoa : list Z -> string)
    (src : string) :
  (inet_aton (c_str src) = None ->
     eco_socket_inet_aton big_endian inet_aton src = Return [LInt 0]) /\
  (forall b,
      inet_aton (c_str src) = Some b -> List.length b = 4%nat -> byte_range b ->
      exists n,
        eco_socket_inet_aton big_endian inet_aton src = Return [LInt n] /\
        eco_socket_inet_ntoa big_endian inet_ntoa n = Some (Return [LStr (inet_ntoa b)])).
Proof.
  unfold eco_socket_inet_aton. cbv zeta. split.
  - intros ->. destruct big_endian; reflexivity.
  - intros b -> Hlen Hb.
    assert (Hst : store_bytes (zeros 4) 0 (List.firstn 4 b) = b).
    { do 5 (destruct b as [|? b]; try discriminate Hlen). reflexivity. }
    rewrite Hst.
    destruct (bytes32_load32 big_endian b Hlen Hb) as [Hbytes Hrange].
    eexists. split; [reflexivity|].
    unfold eco_socket_inet_ntoa.
    destruct (Z.leb_spec 0 (load32 big_endian b 0)); [|lia].
    destruct (Z.ltb_spec (load32 big_endian b 0) (2 ^ 32)); [|lia].
    simpl. rewrite Hbytes. reflexivity.
Qed.

Lemma inet_aton_then_inet_ntoa_witness :
  eco_socket_inet_aton false LibcText.inet_aton "not an address" = Return [LInt 0] /\
  exists n,
    eco_socket_inet_aton false LibcText.inet_aton "192.168.1.10" = Return [LInt n] /\
    eco_socket_inet_ntoa false LibcText.inet_ntoa n = Some (Return [LStr "192.168.1.10"]).
Proof.
  split.
  - exact (proj1 (inet_aton_then_inet_ntoa false LibcText.inet_aton LibcText.inet_ntoa
                    "not an address") eq_refl).
  - exact (proj2 (inet_aton_then_inet_ntoa false LibcText.inet_aton LibcText.inet_ntoa
                    "192.168.1.10") [192; 168; 1; 10] eq_refl eq_refl
             ltac:(repeat constructor; lia)).
Defined.

Lemma bytes_of_string_of_any_bytes (l : list Z) :
  bytes_of_string (string_of_bytes l) = List.map (fun x => x mod 256) l.
Proof.
  unfold bytes_of_string, string_of_bytes.
  induction l as [|b l IH]; simpl; [reflexivity|].
  f_equal; [|exact IH].
  unfold byte_of_char, char_of_byte.
  rewrite N_ascii_embedding.
  - apply Z2N.id. zdm.
  - change 256%N with (Z.to_N 256). apply Z2N.inj_lt; zdm.
Qed.

Lemma map_mod_byte_range (l : list Z) :
  byte_range l -> List.map (fun x => x mod 256) l = l.
Proof.
  induction 1 as [|b l Hb _ IH]; simpl; [reflexivity|].
  rewrite IH, Z.mod_small by exact Hb. reflexivity.
Qed.

Lemma in_addr_size_bound (family : Z) : 0 <= in_addr_size family <= 16.
Proof.
  unfold in_addr_size.
  destruct (family =? AF_INET); [lia|]. destruct (family =? AF_INET6); lia.
Qed.

Lemma length_stack_block (stack : list Z) :
  List.length (List.firstn 16 (stack ++ zeros 16)) = 16%nat.
Proof.
  rewrite List.length_firstn, List.length_app, length_zeros.
  change (Z.to_nat 16) with 16%nat. lia.
Qed.

(** X17: [inet_pton] of the module returns nil only when the library
    answers 0.  For a family the library does not know it returns a
    string of 16 bytes all the same, and for a parsed address a string
    of 16 bytes, whatever the family, that begins with the address;
    [inet_ntop] of the module, given that string and the family, prints
    the address that was parsed. *)
Theorem inet_pton_then_inet_ntop
    (inet_pton_r : Z -> string -> pton_result)
    (inet_ntop : Z -> list Z -> option string)
    (family : Z) (src : string) (stack : list Z) :
  (inet_pton_r (to_int family) (c_str src) = Unparsable ->
     eco_socket_inet_pton inet_pton_r family src stack = Return [LNil]) /\
  (inet_pton_r (to_int family) (c_str src) = NoSupport ->
     exists s,
       eco_socket_inet_pton inet_pton_r family src stack = Return [LStr s] /\
       String.length s = 16%nat) /\
  (forall b,
      inet_pton_r (to_int family) (c_str src) = Parsed b ->
      0 < in_addr_size (to_int family) ->
      Z.of_nat (List.length b) = in_addr_size (to_int family) ->
      byte_range b ->
      exists s,
        eco_socket_inet_pton inet_pton_r family src stack = Return [LStr s] /\
        String.length s = 16%nat /\
        List.firstn (List.length b) (bytes_of_string s) = b /\
        eco_socket_inet_ntop inet_ntop family s
          = Some (Return [lua_pushstring (inet_ntop (to_int family) b)])).
Proof.
  unfold eco_socket_inet_pton. cbv zeta.
  pose proof (length_stack_block stack) as Hblock.
  split; [|split].
  - intros ->. reflexivity.
  - intros ->. eexists. split; [reflexivity|].
    rewrite length_string_of_bytes. unfold load_bytes.
    change (Z.to_nat 0) with 0%nat. rewrite List.skipn_O.
    rewrite List.firstn_all2 by (rewrite Hblock; simpl; lia). exact Hblock.
  - intros b -> Hpos Hlen Hb.
    pose proof (in_addr_size_bound (to_int family)) as Hbound.
    set (dst0 := List.firstn 16 (stack ++ zeros 16)) in *.
    assert (Hdst : store_bytes dst0 0 b = b ++ List.skipn (List.length b) dst0).
    { pose proof (store_bytes_after [] dst0 b 0 eq_refl) as E. simpl in E.
      apply E. rewrite Hblock. lia. }
    assert (Hlen16 : List.length (store_bytes dst0 0 b) = 16%nat)
      by (rewrite length_store_bytes_0; exact Hblock).
    assert (Hall : load_bytes (store_bytes dst0 0 b) 0 16 = store_bytes dst0 0 b).
    { unfold load_bytes. change (Z.to_nat 0) with 0%nat. rewrite List.skipn_O.
      apply List.firstn_all2. rewrite Hlen16. simpl. lia. }
    assert (Hhead : List.firstn (List.length b)
                      (bytes_of_string (string_of_bytes (store_bytes dst0 0 b))) = b).
    { rewrite bytes_of_string_of_any_bytes, Hdst, List.map_app.
      rewrite List.firstn_app, List.length_map, Nat.sub_diag. simpl.
      rewrite List.app_nil_r.
      rewrite List.firstn_all2 by (rewrite List.length_map; lia).
      apply map_mod_byte_range, Hb. }
    eexists. simpl. split; [reflexivity|].
    unfold lua_pushlstring. rewrite Hall.
    split; [rewrite length_string_of_bytes; exact Hlen16|].
    split; [exact Hhead|].
    unfold eco_socket_inet_ntop. cbv zeta.
    rewrite length_string_of_bytes, Hlen16.
    destruct (Z.ltb_spec (Z.of_nat 16) (in_addr_size (to_int family))) as [Hlt|_];
      [simpl in Hlt; lia|].
    unfold load_bytes at 1. change (Z.to_nat 0) with 0%nat. rewrite List.skipn_O.
    rewrite <- Hlen, Nat2Z.id, Hhead. reflexivity.
Qed.

Lemma inet_pton_then_inet_ntop_witness :
  exists s,
    eco_socket_inet_pton LibcText.inet_pton_r AF_INET "10.0.0.1" [7; 7; 7; 7; 7; 7; 7; 7]
      = Return [LStr s] /\
    String.length s = 16%nat /\
    List.firstn 4 (bytes_of_string s) = [10; 0; 0; 1] /\
    eco_socket_inet_ntop Libc.inet_ntop AF_INET s = Some (Return [LStr "10.0.0.1"]).
Proof.
  exact (proj2 (proj2 (inet_pton_then_inet_ntop LibcText.inet_pton_r Libc.inet_ntop
                         AF_INET "10.0.0.1" [7; 7; 7; 7; 7; 7; 7; 7]))
           [10; 0; 0; 1] eq_refl eq_refl eq_refl ltac:(repeat constructor; lia)).
Defined.

(** ** Byte counts *)

(** X18: [send] and the [sendto] loop keep the result of the system
    call in an [int]: a count below 2^31 is returned as it is, while a
    count from 2^31 up to 2^32 is taken for a failure and reported with
    whatever [errno] holds. *)
Theorem send_count_is_an_int
    (strerror : Z -> string) (fd : Z) (data : string) (flags : option Z)
    (len : Z) (addr : list Z) (addrlen flags' : Z) (r : reply) (env : list reply) :
  (0 <= ret r < 2 ^ 31 ->
     eco_socket_send strerror fd data flags (r :: env)
     = Run (Finished (Return [LInt (ret r)]))
         [(SYS_send (to_int fd) data (Z.of_nat (String.length data))
             (to_int (default 0 flags)), r)] env /\
     eco_socket_sendto_common strerror fd data len addr addrlen flags' (r :: env)
     = Run (Finished (Return [LInt (ret r)]))
         [(SYS_sendto fd data len flags' addr addrlen, r)] env) /\
  (2 ^ 31 <= ret r < 2 ^ 32 -> errno r <> EINTR ->
     values (eco_socket_send strerror fd data flags (r :: env))
     = [LNil; LStr (if errno r =? EPIPE then "closed"%string else strerror (errno r))] /\
     values (eco_socket_sendto_common strerror fd data len addr addrlen flags' (r :: env))
     = [LNil; LStr (strerror (errno r))]).
Proof.
  split.
  - intros Hr. unfold eco_socket_send.
    cbn [eco_socket_send_again eco_socket_sendto_common].
    rewrite (to_int_small (ret r)) by (change (2 ^ 31) with 2147483648 in *; lia).
    destruct (Z.ltb_spec (ret r) 0) as [Hneg|_]; [lia|]. split; reflexivity.
  - intros Hr He. apply Z.eqb_neq in He.
    assert (Hneg : (to_int (ret r) <? 0) = true).
    { apply Z.ltb_lt. unfold to_int, wrap_signed.
      change (2 ^ 31) with 2147483648 in Hr. change (2 ^ 32) with 4294967296 in *.
      change (2 ^ (32 - 1)) with 2147483648.
      rewrite Z.mod_small by lia.
      destruct (Z.ltb_spec (ret r) 2147483648); lia. }
    unfold values, eco_socket_send.
    cbn [eco_socket_send_again eco_socket_sendto_common logged outcome].
    rewrite Hneg, He. split; [destruct (errno r =? EPIPE)|]; reflexivity.
Qed.

Lemma send_count_is_an_int_witness :
  0 <= ret (returning 5) < 2 ^ 31 /\
  2 ^ 31 <= ret (returning 2147483648) < 2 ^ 32 /\
  eco_socket_send Libc.strerror 3 "hello" None [returning 5]
  = Run (Finished (Return [LInt 5]))
      [(SYS_send (to_int 3) "hello" 5 (to_int (default 0 None)), returning 5)] [] /\
  values (eco_socket_send Libc.strerror 3 "hello" None [returning 2147483648])
  = [LNil; LStr (Libc.strerror 0)].
Proof.
  assert (H1 : 0 <= ret (returning 5) < 2 ^ 31) by (split; [simpl; lia | reflexivity]).
  assert (H2 : 2 ^ 31 <= ret (returning 2147483648) < 2 ^ 32)
    by (split; [vm_compute; discriminate | reflexivity]).
  split; [exact H1 | split; [exact H2 | split]].
  - exact (proj1 (proj1 (send_count_is_an_int Libc.strerror 3 "hello" None 0 [] 0 0
                           (returning 5) []) H1)).
  - exact (proj1 (proj2 (send_count_is_an_int Libc.strerror 3 "hello" None 0 [] 0 0
                           (returning 2147483648) []) H2 ltac:(discriminate))).
Defined.

(** ** Binding without an address *)

Lemma sockaddr_in_wildcard (big_endian : bool) (port : Z) :
  sockaddr_in_init big_endian port
  = set_sin_addr (sockaddr_in_init big_endian port) (zeros 4).
Proof. unfold sockaddr_in_init, bytes16. destruct big_endian; reflexivity. Qed.

Lemma sockaddr_in6_wildcard (big_endian : bool) (port : Z) :
  sockaddr_in6_init big_endian port
  = set_sin6_addr (sockaddr_in6_init big_endian port) (zeros 16).
Proof. unfold sockaddr_in6_init, bytes16. destruct big_endian; reflexivity. Qed.

(** X19: [bind] and [bind6] called without an address never raise the
    invalid-address error: they bind the all-zero address of the
    family, which decodes to the text [inet_ntop] has for it, with the
    port reduced modulo 65536. *)
Theorem bind_without_address_is_wildcard
    (big_endian : bool)
    (inet_pton : Z -> string -> option (list Z))
    (inet_ntop : Z -> list Z -> option string)
    (fd port : Z) (r : reply) (env : list reply) :
  (forall any,
      inet_ntop AF_INET (zeros 4) = Some any ->
      exists w,
        bound_address (eco_socket_bind big_endian inet_pton fd None port (r :: env)) = Some w /\
        load_bytes (fst w) 4 4 = zeros 4 /\
        decode big_endian inet_ntop w = record_of (Inet any (port mod 65536))) /\
  (forall any,
      inet_ntop AF_INET6 (zeros 16) = Some any ->
      exists w,
        bound_address (eco_socket_bind6 big_endian inet_pton fd None port (r :: env)) = Some w /\
        load_bytes (fst w) 8 16 = zeros 16 /\
        decode big_endian inet_ntop w = record_of (Inet6 any (port mod 65536))).
Proof.
  split; intros any Hany.
  - unfold eco_socket_bind. cbv zeta. rewrite bound_address_bind_common.
    eexists. split; [reflexivity|]. cbn [fst].
    split; [unfold sockaddr_in_init, bytes16; destruct big_endian; reflexivity|].
    unfold decode. cbn [fst snd].
    rewrite sockaddr_in_wildcard, sockaddr_in_layout, push_inet by reflexivity.
    rewrite Hany, to_u16_to_int. reflexivity.
  - unfold eco_socket_bind6. cbv zeta. rewrite bound_address_bind_common.
    eexists. split; [reflexivity|]. cbn [fst].
    split; [unfold sockaddr_in6_init, bytes16; destruct big_endian; reflexivity|].
    unfold decode. cbn [fst snd].
    rewrite sockaddr_in6_wildcard, sockaddr_in6_layout, push_inet6 by reflexivity.
    rewrite Hany, to_u16_to_int. reflexivity.
Qed.

Lemma bind_without_address_is_wildcard_witness :
  Libc.inet_ntop AF_INET (zeros 4) = Some "0.0.0.0"%string /\
  exists w,
    bound_address (eco_socket_bind false Libc.inet_pton 3 None 8080 [returning 0]) = Some w /\
    load_bytes (fst w) 4 4 = zeros 4 /\
    decode false Libc.inet_ntop w = record_of (Inet "0.0.0.0" (8080 mod 65536)).
Proof.
  split; [reflexivity|].
  exact (proj1 (bind_without_address_is_wildcard false Libc.inet_pton Libc.inet_ntop
                  3 8080 (returning 0) []) "0.0.0.0"%string eq_refl).
Defined.

(** ** Lengths that are not positive *)

(** X20: a negative length is not an argument error for [recv] and
    [recvfrom]: converted to [size_t] it is a length of 2^64 + n bytes,
    which is asked of [malloc]; when that fails the caller gets nil and
    the message of the allocation error, and no [recv] is attempted. *)
Theorem negative_length_is_allocated
    (big_endian : bool) (inet_ntop : Z -> list Z -> option string)
    (strerror : Z -> string)
    (fd n : Z) (flags : option Z) (m : reply) (env : list reply) :
  - 2 ^ 63 <= n < 0 ->
  List.hd_error (trace (eco_socket_recv strerror fd n flags (m :: env)))
    = Some (LIBC_malloc (2 ^ 64 + n)) /\
  List.hd_error
    (trace (eco_socket_recvfrom big_endian inet_ntop strerror fd n flags (m :: env)))
    = Some (LIBC_malloc (2 ^ 64 + n)) /\
  (ret m = 0 ->
     eco_socket_recv strerror fd n flags (m :: env)
     = Run (Finished (Return [LNil; LStr (strerror (errno m))]))
         [(LIBC_malloc (2 ^ 64 + n), m)] env /\
     eco_socket_recvfrom big_endian inet_ntop strerror fd n flags (m :: env)
     = Run (Finished (Return [LNil; LStr (strerror (errno m))]))
         [(LIBC_malloc (2 ^ 64 + n), m)] env).
Proof.
  intros Hn.
  assert (Hsz : to_size_t n = 2 ^ 64 + n).
  { unfold to_size_t, wrap_unsigned.
    change (2 ^ 63) with 9223372036854775808 in Hn.
    change (2 ^ 64) with 18446744073709551616. zdm. }
  assert (Hge : (to_size_t n <? 1) = false).
  { apply Z.ltb_ge. rewrite Hsz.
    change (2 ^ 63) with 9223372036854775808 in Hn.
    change (2 ^ 64) with 18446744073709551616. lia. }
  unfold eco_socket_recv, eco_socket_recvfrom, call. cbv zeta.
  rewrite Hge, Hsz.
  split; [reflexivity|]. split; [reflexivity|].
  intros Hm. rewrite Hm. split; reflexivity.
Qed.

Lemma negative_length_is_allocated_witness :
  - 2 ^ 63 <= -1 < 0 /\
  eco_socket_recv Libc.strerror 3 (-1) None [Reply 0 ENOMEM [] [] 0 0]
  = Run (Finished (Return [LNil; LStr "Cannot allocate memory"]))
      [(LIBC_malloc (2 ^ 64 + -1), Reply 0 ENOMEM [] [] 0 0)] [].
Proof.
  assert (H : - 2 ^ 63 <= -1 < 0) by (split; [vm_compute; discriminate | reflexivity]).
  split; [exact H|].
  exact (proj1 (proj2 (proj2 (negative_length_is_allocated false Libc.inet_ntop Libc.strerror
                                3 (-1) None (Reply 0 ENOMEM [] [] 0 0) [] H)) eq_refl)).
Defined.

(** ** Argument errors come first *)

Lemma never_raises_early (r : run) : never_raises r -> raises_early r.
Proof. intros H arg msg Hout. exfalso. exact (H arg msg Hout). Qed.

Lemma raises_early_argerror (arg : Z) (msg : string) (env : list reply) :
  raises_early (luaL_argerror arg msg env).
Proof. intros ? ? _. reflexivity. Qed.

Lemma never_raises_logged (e : request * reply) (r : run) :
  never_raises r -> never_raises (logged e r).
Proof. intros H arg msg. exact (H arg msg). Qed.

Ltac no_raise_step :=
  repeat match goal with
    | |- never_raises (logged _ _) => apply never_raises_logged
    | |- never_raises (if ?c then _ else _) => destruct c
    | |- never_raises (finished (Return _) _) => intros ? ?; discriminate
    | |- never_raises (Run (Blocked _) _ _) => intros ? ?; discriminate
    | |- never_raises (call _ ?env _) => destruct env; unfold call
    end.

Ltac no_raise_loop env :=
  let r := fresh "r" in
  let IH := fresh "IH" in
  induction env as [|r env IH];
  [ intros ? ?; discriminate
  | cbn -[to_int wrap_signed to_u32]; no_raise_step; try exact IH ].

Section NoRaise.

Variable big_endian : bool.
Variable inet_ntop : Z -> list Z -> option string.
Variable strerror : Z -> string.
Variable lua_str2number : string -> str_number.

Lemma never_raises_bind_common (fd : Z) (addr : list Z) (addrlen : Z) (env : list reply) :
  never_raises (eco_socket_bind_common fd addr addrlen env).
Proof. unfold eco_socket_bind_common. no_raise_step. Qed.

Lemma never_raises_connect_common (fd : Z) (addr : list Z) (addrlen : Z) (env : list reply) :
  never_raises (eco_socket_connect_common fd addr addrlen env).
Proof. unfold eco_socket_connect_common. no_raise_step. Qed.

Lemma never_raises_accept_again (lfd : Z) (addr : list Z) (addrlen : Z) (env : list reply) :
  never_raises (eco_socket_accept_again big_endian inet_ntop lfd addr addrlen env).
Proof. no_raise_loop env. Qed.

Lemma never_raises_send_again (fd : Z) (data : string) (len flags : Z) (env : list reply) :
  never_raises (eco_socket_send_again strerror fd data len flags env).
Proof. no_raise_loop env. Qed.

Lemma never_raises_recv_again (fd : Z) (buf : list Z) (n flags : Z) (env : list reply) :
  never_raises (eco_socket_recv_again strerror fd buf n flags env).
Proof. no_raise_loop env. Qed.

Lemma never_raises_sendto_common (fd : Z) (data : string) (len : Z) (addr : list Z)
    (addrlen flags : Z) (env : list reply) :
  never_raises (eco_socket_sendto_common strerror fd data len addr addrlen flags env).
Proof. no_raise_loop env. Qed.

Lemma never_raises_recvfrom_again (fd : Z) (buf : list Z) (n flags : Z) (addr : list Z)
    (addrlen : Z) (env : list reply) :
  never_raises
    (eco_socket_recvfrom_again big_endian inet_ntop strerror fd buf n flags addr addrlen env).
Proof. no_raise_loop env. Qed.

Lemma never_raises_opt_set (fd level nm : Z) (val : list Z) (len : Z) (env : list reply) :
  never_raises (opt_set strerror fd level nm val len env).
Proof. unfold opt_set. no_raise_step. Qed.

Lemma raises_early_opt_setboolean (fd level nm : Z) (arg : lua_value) (env : list reply) :
  raises_early (opt_setboolean big_endian strerror fd level nm arg env).
Proof.
  unfold opt_setboolean.
  destruct arg; try apply raises_early_argerror.
  apply never_raises_early, never_raises_opt_set.
Qed.

Lemma raises_early_opt_setint (fd level nm : Z) (arg : lua_value) (env : list reply) :
  raises_early (opt_setint big_endian strerror lua_str2number fd level nm arg env).
Proof.
  unfold opt_setint.
  destruct (luaL_checkinteger lua_str2number arg); [|apply raises_early_argerror].
  apply never_raises_early, never_raises_opt_set.
Qed.

Lemma raises_early_opt_set_bindtodevice (fd : Z) (arg : lua_value) (env : list reply) :
  raises_early (opt_set_bindtodevice strerror fd arg env).
Proof.
  unfold opt_set_bindtodevice.
  destruct (luaL_checkstring arg); [|apply raises_early_argerror].
  destruct (_ >=? _); [apply raises_early_argerror|].
  apply never_raises_early, never_raises_opt_set.
Qed.

Lemma find_opt_some (nm : string) (tbl : list sock_opt) (f : opt_func) :
  find_opt nm tbl = Some f -> exists e, In e tbl /\ f = func e.
Proof.
  induction tbl as [|h tl IH]; simpl; [discriminate|].
  destruct (negb (strcmp nm (name h) =? 0)).
  - intros H. destruct (IH H) as (e & Hin & He). exists e. auto.
  - intros [= <-]. exists h. auto.
Qed.

Lemma optset_handlers_raise_early :
  Forall (fun e => forall fd arg env, raises_early (func e fd arg env))
    (optset big_endian strerror lua_str2number).
Proof.
  repeat constructor; simpl; intros fd arg env;
    first [ apply raises_early_opt_setboolean
          | apply raises_early_opt_setint
          | apply raises_early_opt_set_bindtodevice ].
Qed.

Lemma optget_handlers_never_raise :
  Forall (fun e => forall fd arg env, never_raises (func e fd arg env)) (optget strerror).
Proof.
  repeat constructor; simpl; intros fd arg env;
    unfold opt_get_reuseaddr, opt_getboolean, opt_get_error; no_raise_step.
Qed.

End NoRaise.

(** X21: whenever one of the functions that check an address, a path,
    a length, an option name or an option value raises the argument
    error of that check, it has made no call before, neither a system
    call nor an allocation: these checks all precede the first call. *)
Theorem argument_errors_precede_calls
    (big_endian : bool)
    (inet_pton : Z -> string -> option (list Z))
    (inet_ntop : Z -> list Z -> option string)
    (strerror : Z -> string) (lua_str2number : string -> str_number)
    (fd n port : Z) (ip data path nm : string) (oip : option string)
    (flags : option Z) (arg : lua_value) (env : list reply) :
  raises_early (eco_socket_bind big_endian inet_pton fd oip port env) /\
  raises_early (eco_socket_bind6 big_endian inet_pton fd oip port env) /\
  raises_early (eco_socket_bind_unix big_endian fd path env) /\
  raises_early (eco_socket_connect big_endian inet_pton fd ip port env) /\
  raises_early (eco_socket_connect6 big_endian inet_pton fd ip port env) /\
  raises_early (eco_socket_connect_unix big_endian fd path env) /\
  raises_early (eco_socket_sendto big_endian inet_pton strerror fd data ip port flags env) /\
  raises_early (eco_socket_sendto6 big_endian inet_pton strerror fd data ip port flags env) /\
  raises_early (eco_socket_sendto_unix big_endian strerror fd data path flags env) /\
  raises_early (eco_socket_recv strerror fd n flags env) /\
  raises_early (eco_socket_recvfrom big_endian inet_ntop strerror fd n flags env) /\
  raises_early (eco_socket_getoption strerror fd nm env) /\
  raises_early (eco_socket_setoption big_endian strerror lua_str2number fd nm arg env).
Proof.
  repeat match goal with |- _ /\ _ => split end.
  - unfold eco_socket_bind. cbv zeta.
    destruct oip as [s|]; [destruct (inet_pton AF_INET (c_str s))|];
      first [apply raises_early_argerror
            | apply never_raises_early, never_raises_bind_common].
  - unfold eco_socket_bind6. cbv zeta.
    destruct oip as [s|]; [destruct (inet_pton AF_INET6 (c_str s))|];
      first [apply raises_early_argerror
            | apply never_raises_early, never_raises_bind_common].
  - unfold eco_socket_bind_unix. cbv zeta.
    destruct (_ >=? _);
      first [apply raises_early_argerror
            | apply never_raises_early, never_raises_bind_common].
  - unfold eco_socket_connect. cbv zeta.
    destruct (inet_pton AF_INET (c_str ip));
      first [apply raises_early_argerror
            | apply never_raises_early, never_raises_connect_common].
  - unfold eco_socket_connect6. cbv zeta.
    destruct (inet_pton AF_INET6 (c_str ip));
      first [apply raises_early_argerror
            | apply never_raises_early, never_raises_connect_common].
  - unfold eco_socket_connect_unix. cbv zeta.
    destruct (_ >=? _);
      first [apply raises_early_argerror
            | apply never_raises_early, never_raises_connect_common].
  - unfold eco_socket_sendto. cbv zeta.
    destruct (inet_pton AF_INET (c_str ip));
      first [apply raises_early_argerror
            | apply never_raises_early, never_raises_sendto_common].
  - unfold eco_socket_sendto6. cbv zeta.
    destruct (inet_pton AF_INET6 (c_str ip));
      first [apply raises_early_argerror
            | apply never_raises_early, never_raises_sendto_common].
  - unfold eco_socket_sendto_unix. cbv zeta.
    destruct (_ >=? _);
      first [apply raises_early_argerror
            | apply never_raises_early, never_raises_sendto_common].
  - unfold eco_socket_recv. cbv zeta.
    destruct (_ <? 1); [apply raises_early_argerror|].
    apply never_raises_early. destruct env as [|m env]; unfold call.
    + intros ? ?; discriminate.
    + apply never_raises_logged. destruct (ret m =? 0).
      * intros ? ?; discriminate.
      * apply never_raises_recv_again.
  - unfold eco_socket_recvfrom. cbv zeta.
    destruct (_ <? 1); [apply raises_early_argerror|].
    apply never_raises_early. destruct env as [|m env]; unfold call.
    + intros ? ?; discriminate.
    + apply never_raises_logged. destruct (ret m =? 0).
      * intros ? ?; discriminate.
      * apply never_raises_recvfrom_again.
  - unfold eco_socket_getoption. cbv zeta.
    destruct (find_opt nm (optget strerror)) as [f|] eqn:Hf;
      [|apply raises_early_argerror].
    destruct (find_opt_some _ _ _ Hf) as (e & Hin & ->).
    apply never_raises_early.
    pose proof (optget_handlers_never_raise strerror) as Hall.
    rewrite List.Forall_forall in Hall. apply Hall, Hin.
  - unfold eco_socket_setoption. cbv zeta.
    destruct (find_opt nm (optset big_endian strerror lua_str2number)) as [f|] eqn:Hf;
      [|apply raises_early_argerror].
    destruct (find_opt_some _ _ _ Hf) as (e & Hin & ->).
    pose proof (optset_handlers_raise_early big_endian strerror lua_str2number) as Hall.
    rewrite List.Forall_forall in Hall. apply Hall, Hin.
Qed.

Lemma argument_errors_precede_calls_witness :
  outcome (eco_socket_bind_unix false 3 (string_repeat "a" 200) [returning 0])
    = Finished (ArgError 2 "path too long") /\
  log (eco_socket_bind_unix false 3 (string_repeat "a" 200) [returning 0]) = [].
Proof.
  split; [reflexivity|].
  exact (proj1 (proj2 (proj2
           (argument_errors_precede_calls false Libc.inet_pton Libc.inet_ntop Libc.strerror
              Libc.lua_str2number 3 0 0 "" "" (string_repeat "a" 200) "" None None
              LNil [returning 0])))
           2 "path too long"%string eq_refl).
Defined.
